(** * GenshinImpactGram: player-card pipeline

    A shallow embedding of the player-card plugin
    ([plugins/genshin/player_cards.py]), of the stats render
    ([plugins/genshin/stats.py]) and of the wiki cache
    ([core/services/wiki/cache.py]), with the properties of the
    specification that concern them.

    Conventions.
    - Python [float] scores are modelled by the rationals their decimal
      literals denote ([Q]); arithmetic on them is exact.
    - Python [int] is [Z]; [str] is [string] (the UTF-8 bytes of the source
      literal).
    - An [await]ed call that may raise returns an [Outcome]; code that
      threads the stores is written in a small state-and-exception monad.
    - Objects that the source mutates in place live in a heap ([gmap]) and
      are referred to by location, so that aliasing is visible. *)

From Stdlib Require Import QArith Qround Lqa Ascii String.
From stdpp Require Import base gmap strings list pretty.

Local Open Scope string_scope.
Local Open Scope list_scope.
Local Open Scope Z_scope.

(** ** Python primitives used by the source *)

Module Py.

(** [seq[start:stop]] with Python's normalisation of the two bounds:
    a negative bound counts from the end, and both are clamped to
    [0..len]. *)
Definition slice_bound (len i : Z) : Z :=
  if i <? 0 then Z.max 0 (i + len) else Z.min i len.

Definition slice {A} (l : list A) (start stop : Z) : list A :=
  let len := Z.of_nat (length l) in
  let lo := slice_bound len start in
  let hi := slice_bound len stop in
  take (Z.to_nat (hi - lo)) (drop (Z.to_nat lo) l).

(** [range(start, stop, step)] for a positive [step]: it has
    [ceil((stop - start) / step)] elements when [start < stop], none
    otherwise. *)
Definition range_len (start stop step : Z) : nat :=
  if start <? stop then Z.to_nat ((stop - start + step - 1) / step) else 0%nat.

Definition range (start stop step : Z) : list Z :=
  (fun k => start + Z.of_nat k * step) <$> seq 0 (range_len start stop step).

(** [math.ceil(a / b)]: true division followed by the ceiling. *)
Definition math_ceil_div (a b : Z) : Z := Qceiling (inject_Z a / inject_Z b).

(** [round(x)] to the nearest integer, a tie going to the even neighbour. *)
Definition round_half_even (x : Q) : Z :=
  let f := Qfloor x in
  let r := (x - inject_Z f)%Q in
  match (r ?= 1 # 2)%Q with
  | Lt => f
  | Gt => f + 1
  | Eq => if Z.even f then f else f + 1
  end.

(** [round(x, 1)]. On a [float] the binary value of the argument decides
    which way a decimal tie goes; here the argument is the rational it
    stands for. No property below depends on the direction of a tie. *)
Definition round1 (x : Q) : Q :=
  (inject_Z (round_half_even (x * 10)) / 10)%Q.

(** [sum(xs)]: a left fold of [+] from [0]. *)
Definition sum (xs : list Q) : Q := fold_left Qplus xs 0%Q.

(** [s.split(sep)] for a one-character separator. *)
Fixpoint split_aux (sep : ascii) (cur : string) (s : string) : list string :=
  match s with
  | EmptyString => [String.rev cur]
  | String c s' =>
      if Ascii.eqb c sep then String.rev cur :: split_aux sep EmptyString s'
      else split_aux sep (String c cur) s'
  end.

Definition split (sep : ascii) (s : string) : list string :=
  split_aux sep EmptyString s.

Definition is_ascii_digit (c : ascii) : bool :=
  let n := nat_of_ascii c in (48 <=? n)%nat && (n <=? 57)%nat.

Fixpoint all_digits (s : string) : bool :=
  match s with
  | EmptyString => true
  | String c s' => is_ascii_digit c && all_digits s'
  end.

(** [s.isdigit()], on strings of ASCII characters: non-empty and made of
    decimal digits. *)
Definition isdigit (s : string) : bool :=
  match s with
  | EmptyString => false
  | _ => all_digits s
  end.

(** The newline character of the [\n] escape. *)
Definition nl : string := String (ascii_of_nat 10) EmptyString.

End Py.


(** ** The profile data the plugin reads

    The fields of the [enkanetwork] models that the plugin touches. An
    icon is a mutable object holding a [url]; it lives in the heap and the
    models refer to it by location. *)

Module Enka.

Definition loc := positive.

Inductive EquipmentsType := ARTIFACT | WEAPON | UNKNOWN.

#[global] Instance EquipmentsType_eq_dec : EqDecision EquipmentsType.
Proof. solve_decision. Defined.

Record EquipmentsStats := {
  prop_id : string;
  stat_value : Q
}.

Record Equipments := {
  eq_type : EquipmentsType;
  detail_icon : loc;
  detail_substats : list EquipmentsStats
}.

Record CharacterInfo := {
  name : string;
  image_banner : loc;
  skills : list loc;
  constellations : list loc;
  equipments : list Equipments
}.

(** [characters] is [None] when the showcase was never fetched or is
    hidden. *)
Record EnkaNetworkResponse := {
  uid : Z;
  characters : option (list CharacterInfo)
}.

End Enka.

(** ** Artifact scoring ([Artifact], [RenderTemplate.render]) *)

Module Scoring.
Import Enka.

(** The table of [Artifact.__init__]. *)
Definition artifact_thresholds : list (string * Q) :=
  [ ("D", 10%Q); ("C", 16.5%Q); ("B", 23.1%Q); ("A", 29.7%Q); ("S", 36.3%Q);
    ("SS", 42.9%Q); ("SSS", 49.5%Q); ("ACE", 56.1%Q); ("ACE²", 66%Q) ].

(** The table of [RenderTemplate.render], a second literal in the source. *)
Definition render_thresholds : list (string * Q) :=
  [ ("D", 10%Q); ("C", 16.5%Q); ("B", 23.1%Q); ("A", 29.7%Q); ("S", 36.3%Q);
    ("SS", 42.9%Q); ("SSS", 49.5%Q); ("ACE", 56.1%Q); ("ACE²", 66%Q) ].

(** The dictionary of [Artifact.get_score_class]. *)
Definition mapping : gmap string string :=
  list_to_map
    [ ("D", "text-neutral-400"); ("C", "text-neutral-200");
      ("B", "text-violet-400"); ("A", "text-violet-400");
      ("S", "text-yellow-400"); ("SS", "text-yellow-400");
      ("SSS", "text-yellow-400"); ("ACE", "text-red-500");
      ("ACE²", "text-red-500") ].

(** [mapping.get(label, "text-neutral-400")]. *)
Definition get_score_class (label : string) : string :=
  default "text-neutral-400" (mapping !! label).

Record Artifact := {
  equipment : Equipments;
  score : Q;
  score_label : string;
  score_class : string;
  substat_scores : list Q
}.

(** One turn of the loop of [Artifact.__init__] over the table: label and
    class are assigned together, and only when the threshold is reached. *)
Definition artifact_step (score : Q) (st : string * string) (r : string * Q)
  : string * string :=
  if Qle_bool r.2 score then (r.1, get_score_class r.1) else st.

(** The loop, started from the field defaults [score_label = "E"] and
    [score_class = ""]. *)
Definition artifact_grade (score : Q) : string * string :=
  fold_left (artifact_step score) artifact_thresholds ("E", "").

(** The letter grade of a total. *)
Definition grade (total : Q) : string := (artifact_grade total).1.

(** [Artifact(equipment=e, substat_scores=subs)]: the fields keep their
    defaults, then [__init__] sums, rounds and grades. *)
Definition Artifact_init (e : Equipments) (subs : list Q) : Artifact :=
  let s := Py.round1 (fold_left Qplus subs 0%Q) in
  let g := artifact_grade s in
  {| equipment := e; score := s; score_label := g.1; score_class := g.2;
     substat_scores := subs |}.

(** The position of a label on the grade scale: ["E"] is 0, the labels
    of the table follow in the table's order. *)
Definition label_rank (l : string) : nat :=
  match list_find (fun r : string * Q => String.eqb r.1 l = true) artifact_thresholds with
  | Some (i, _) => S i
  | None => 0
  end.

Section Render.
(** [ArtifactStatsTheory(character_name).theory], of
    [modules.playercards.helpers], which is not part of the sources
    at hand: the score of one substat for a character. *)
Variable theory : string -> EquipmentsStats -> Q.

Definition find_weapon (c : CharacterInfo) : option Equipments :=
  head (filter (fun e => eq_type e = WEAPON) (equipments c)).

Definition find_artifacts (c : CharacterInfo) : list Artifact :=
  (fun e => Artifact_init e (theory (name c) <$> detail_substats e))
    <$> filter (fun e => eq_type e = ARTIFACT) (equipments c).

(** [round(sum(artifact.score for artifact in artifacts), 1)]. *)
Definition artifact_total_score (artifacts : list Artifact) : Q :=
  Py.round1 (Py.sum (score <$> artifacts)).

(** The loop of [render]: the total is divided by the literal 5. *)
Definition artifact_total_score_label (total : Q) : string :=
  fold_left (fun label (r : string * Q) =>
               if Qle_bool r.2 (total / 5) then r.1 else label)
            render_thresholds "E".

(** The scoring entries of the payload [render] hands to the template. *)
Record RenderScores := {
  rs_artifacts : list Artifact;
  rs_total_score : Q;
  rs_total_score_label : string;
  rs_total_score_class : string
}.

Definition render_scores (c : CharacterInfo) : RenderScores :=
  let artifacts := find_artifacts c in
  let total := artifact_total_score artifacts in
  let label := artifact_total_score_label total in
  {| rs_artifacts := artifacts;
     rs_total_score := total;
     rs_total_score_label := label;
     rs_total_score_class := get_score_class label |}.
End Render.

End Scoring.

(** ** The selection keyboard ([PlayerCards.gen_button]) *)

Module Pagination.
Import Enka.

Record InlineKeyboardButton := {
  text : string;
  callback_data : string
}.

#[global] Instance InlineKeyboardButton_eq_dec : EqDecision InlineKeyboardButton.
Proof. solve_decision. Defined.

(** The four kinds of control and their callback tokens; [str(int)] is
    the decimal numeral. *)
Definition character_button (user_id uid : Z) (value : CharacterInfo)
  : InlineKeyboardButton :=
  {| text := name value;
     callback_data := "get_player_card|" +:+ pretty user_id +:+ "|" +:+ pretty uid
                      +:+ "|" +:+ name value |}.

Definition previous_button (user_id uid last_page : Z) : InlineKeyboardButton :=
  {| text := "<< 上一页";
     callback_data := "get_player_card|" +:+ pretty user_id +:+ "|" +:+ pretty uid
                      +:+ "|" +:+ pretty last_page |}.

Definition indicator_button (user_id uid page all_page : Z) : InlineKeyboardButton :=
  {| text := pretty page +:+ "/" +:+ pretty all_page;
     callback_data := "get_player_card|" +:+ pretty user_id +:+ "|" +:+ pretty uid
                      +:+ "|empty_data" |}.

Definition update_panel_button (user_id uid : Z) : InlineKeyboardButton :=
  {| text := "更新面板";
     callback_data := "update_player_card|" +:+ pretty user_id +:+ "|" +:+ pretty uid |}.

Definition next_button (user_id uid next_page : Z) : InlineKeyboardButton :=
  {| text := "下一页 >>";
     callback_data := "get_player_card|" +:+ pretty user_id +:+ "|" +:+ pretty uid
                      +:+ "|" +:+ pretty next_page |}.

Section GenButton.
Variable data : EnkaNetworkResponse.
Variable user_id : Z.
Variable uid : Z.
Variable page : Z.
Variable update_button : bool.

(** [buttons]: filled only when [data.characters] is truthy (neither
    [None] nor empty), one button per character whose name is truthy. *)
Definition buttons : list InlineKeyboardButton :=
  match characters data with
  | None => []
  | Some [] => []
  | Some cs =>
      character_button user_id uid <$> filter (fun value => name value ≠ "") cs
  end.

(** [[buttons[i : i + 4] for i in range(0, len(buttons), 4)]]. *)
Definition all_buttons : list (list InlineKeyboardButton) :=
  (fun i => Py.slice buttons i (i + 4))
    <$> Py.range 0 (Z.of_nat (length buttons)) 4.

(** [all_buttons[(page - 1) * 3 : page * 3]]. *)
Definition send_buttons : list (list InlineKeyboardButton) :=
  Py.slice all_buttons ((page - 1) * 3) (page * 3).

Definition last_page : Z := if 1 <? page then page - 1 else 0.

Definition all_page : Z :=
  Py.math_ceil_div (Z.of_nat (length all_buttons)) 3.

Definition next_page : Z :=
  if (page <? all_page) && (1 <? all_page) then page + 1 else 0.

(** The navigation row, built by four guarded [append]s; an [int] is
    truthy when it is not zero. *)
Definition last_button : list InlineKeyboardButton :=
  (if bool_decide (last_page ≠ 0) then [previous_button user_id uid last_page] else [])
  ++ (if bool_decide (last_page ≠ 0) || bool_decide (next_page ≠ 0)
      then [indicator_button user_id uid page all_page] else [])
  ++ (if update_button then [update_panel_button user_id uid] else [])
  ++ (if bool_decide (next_page ≠ 0) then [next_button user_id uid next_page] else []).

(** The row is appended only when it is not empty. *)
Definition gen_button : list (list InlineKeyboardButton) :=
  send_buttons ++ (if bool_decide (last_button ≠ []) then [last_button] else []).
End GenButton.

(** A profile whose showcase holds [k] characters named by their
    index, for concrete runs of [gen_button]. *)
Definition sample_character (n : string) : CharacterInfo :=
  {| name := n; image_banner := 1%positive; skills := []; constellations := [];
     equipments := [] |}.

Definition sample_roster (k : nat) : EnkaNetworkResponse :=
  {| uid := 100000007;
     characters := Some ((fun i => sample_character (pretty i)) <$> seq 0 k) |}.

End Pagination.

(** ** Exceptions and effects *)

Module Effects.

(** The classes named by the [except] clauses of [_update_enka_data]. *)
Inductive ExcClass :=
| AioHttpTimeoutException
| EnkaServerRateLimit
| EnkaServerMaintanance
| EnkaServerError
| EnkaServerUnknown
| EnkaPlayerNotFound
| VaildateUIDError
| HTTPException.

#[global] Instance ExcClass_eq_dec : EqDecision ExcClass.
Proof. solve_decision. Defined.

(** A raised exception: the name of its class, and which of the classes
    above it is an instance of ([isinstance], which follows the class
    hierarchy of the libraries). *)
Record Exn := {
  exn_name : string;
  exn_isinstance : ExcClass -> bool
}.

(** An exception of a class outside that hierarchy. *)
Definition other_exn (n : string) : Exn :=
  {| exn_name := n; exn_isinstance := fun _ => false |}.

Definition IndexError : Exn := other_exn "IndexError".
Definition TypeError : Exn := other_exn "TypeError".
Definition ValueError : Exn := other_exn "ValueError".
Definition AttributeError : Exn := other_exn "AttributeError".

Inductive Outcome (A : Type) :=
| Return (a : A)
| Raise (e : Exn).
Arguments Return {A} a.
Arguments Raise {A} e.

(** Code that threads a state [S] and may raise. A raise keeps the state
    reached so far: what was written before it stays written. *)
Definition M (S A : Type) : Type := S -> Outcome A * S.

Definition ret {S A} (a : A) : M S A := fun s => (Return a, s).

Definition raise {S A} (e : Exn) : M S A := fun s => (Raise e, s).

Definition bind {S A B} (c : M S A) (k : A -> M S B) : M S B :=
  fun s =>
    match c s with
    | (Return a, s') => k a s'
    | (Raise e, s') => (Raise e, s')
    end.

Definition lift {S A} (o : Outcome A) : M S A := fun s => (o, s).

(** [try: body / except ...: handler]. *)
Definition try_except {S A} (body : M S A) (handler : Exn -> M S A) : M S A :=
  fun s =>
    match body s with
    | (Return a, s') => (Return a, s')
    | (Raise e, s') => handler e s'
    end.

(** A point where the environment may make a call fail. *)
Definition fail_if {S} (f : option Exn) : M S unit :=
  match f with
  | Some e => raise e
  | None => ret tt
  end.

(** A [for] loop whose body may raise. *)
Fixpoint for_each {S A} (body : A -> M S unit) (l : list A) : M S unit :=
  match l with
  | [] => ret tt
  | x :: l' => bind (body x) (fun _ => for_each body l')
  end.

(** [seq[i]]. *)
Definition index {S A} (l : list A) (i : nat) : M S A :=
  match l !! i with
  | Some x => ret x
  | None => raise IndexError
  end.

End Effects.

Notation "x <- c ;; k" := (Effects.bind c (fun x => k))
  (at level 100, c at next level, right associativity).
Notation "c ;;; k" := (Effects.bind c (fun _ => k))
  (at level 100, right associativity).

(** ** JSON values ([ujson], [json]) *)

Unset Elimination Schemes.
Inductive Json :=
| JNull
| JBool (b : bool)
| JNumber (n : Z)
| JString (s : string)
| JList (items : list Json)
| JObject (fields : list (string * Json)).
Set Elimination Schemes.

(** ** The plugin: stores, remote fetch, callbacks ([PlayerCards]) *)

Module PlayerCards.
Import Enka Effects Pagination.

(** What a run does to the outside, in order. *)
Inductive Event :=
| EvRemoteFetch (uid : Z)
| EvHistoryWrite (uid : Z) (data : Json)
| EvCacheWrite (uid : Z) (data : Json) (ex : Z)
| EvAnswer (text : string) (show_alert : bool)
| EvChatAction (action : string)
| EvDeleteMessage
| EvEditReplyMarkup (reply_markup : list (list InlineKeyboardButton))
| EvRenderHolder (uid : Z) (shown : nat)
| EvRenderCard (uid : Z) (character_name : string)
| EvEditMedia (filename : string) (reply_markup : list (list InlineKeyboardButton)).

(** The two stores, the clock they read, and the trace.

    A snapshot is kept with the number of the merge that produced it
    ([merges] counts them); the number is not in the source, it is
    carried along to say which of two snapshots is the newer. A cache
    entry also holds the time it expires at. *)
Record Stores := {
  history : gmap Z (nat * Json);
  cache : gmap Z (nat * Json * Z);
  merges : nat;
  now : Z;
  log : list Event
}.

Definition emit (e : Event) : M Stores unit :=
  fun s =>
    (Return tt,
     {| history := history s; cache := cache s; merges := merges s;
        now := now s; log := log s ++ [e] |}).

(** A place where a call to a store may fail. *)
Inductive FaultPoint :=
| AtCacheGet
| AtCacheTtl
| AtHistoryLoad
| BeforeHistoryWrite
| AfterHistoryWrite
| BeforeCacheWrite
| AfterCacheWrite.

(** The collaborators that are not part of the sources at hand. *)
Record World := {
  (** [client.http.fetch_user_by_uid(uid)["content"]] *)
  fetch_user_by_uid : Z -> Outcome string;
  (** [bytes.decode("utf-8", "surrogatepass")] *)
  decode : string -> Outcome string;
  (** [jsonlib.loads] *)
  loads : string -> Outcome Json;
  (** [EnkaNetworkResponse.parse_obj] *)
  parse_obj : Json -> Outcome EnkaNetworkResponse;
  (** the merge policy of [PlayerCardsFile.merge_info]: uid, the previous
      snapshot if any, the fetched payload *)
  merge : Z -> option Json -> Json -> Json;
  (** failures of the stores *)
  fault : FaultPoint -> option Exn;
  (** the builtin [int] on a string *)
  int_of_str : string -> Outcome Z;
  (** [config.notice.user_mismatch] *)
  user_mismatch : string
}.

Section Plugin.
Variable w : World.

(** Modelled from the spec: [RedisCache] of [utils/enkanetwork], built
    with [ex=60]. [get] gives the stored value while the entry has not
    expired and [None] otherwise. *)
Definition cache_get (uid : Z) : M Stores (option (nat * Json)) :=
  fail_if (fault w AtCacheGet) ;;;
  fun s =>
    (Return match cache s !! uid with
            | Some (n, data, expires_at) =>
                if now s <? expires_at then Some (n, data) else None
            | None => None
            end, s).

Definition ex : Z := 60.

(** Modelled from the spec: [RedisCache.set], which overwrites the
    entry and restarts its expiry. *)
Definition cache_set (uid : Z) (data : nat * Json) : M Stores unit :=
  fail_if (fault w BeforeCacheWrite) ;;;
  (fun s =>
     (Return tt,
      {| history := history s;
         cache := <[uid := (data.1, data.2, now s + ex)]> (cache s);
         merges := merges s; now := now s;
         log := log s ++ [EvCacheWrite uid data.2 ex] |})) ;;;
  fail_if (fault w AfterCacheWrite).

(** Modelled from the spec: [RedisCache.ttl], the seconds an entry has
    left, and a negative value when it is missing or expired. *)
Definition cache_ttl (uid : Z) : M Stores Z :=
  fail_if (fault w AtCacheTtl) ;;;
  fun s =>
    (Return match cache s !! uid with
            | Some (_, _, expires_at) =>
                if now s <? expires_at then expires_at - now s else -2
            | None => -2
            end, s).

(** Modelled from the spec: [PlayerCardsFile.merge_info] of
    [modules/playercards/file.py]. It combines the payload with the
    previous snapshot, makes the result the durable value and returns
    it. *)
Definition merge_info (uid : Z) (data : Json) : M Stores (nat * Json) :=
  fail_if (fault w BeforeHistoryWrite) ;;;
  merged <- (fun s =>
               let merged := merge w uid (snd <$> history s !! uid) data in
               let n := S (merges s) in
               (Return (n, merged),
                {| history := <[uid := (n, merged)]> (history s);
                   cache := cache s; merges := n; now := now s;
                   log := log s ++ [EvHistoryWrite uid merged] |})) ;;
  fail_if (fault w AfterHistoryWrite) ;;;
  ret merged.

(** Modelled from the spec: [PlayerCardsFile.load_history_info]. *)
Definition load_history_info (uid : Z) : M Stores (option Json) :=
  fail_if (fault w AtHistoryLoad) ;;;
  fun s => (Return (snd <$> history s !! uid), s).

Definition remote_fetch (uid : Z) : M Stores string :=
  emit (EvRemoteFetch uid) ;;;
  lift (fetch_user_by_uid w uid).

(** The [try] block of [_update_enka_data]. *)
Definition update_enka_data_body (uid : Z) : M Stores EnkaNetworkResponse :=
  data <- cache_get uid ;;
  match data with
  | Some data => lift (parse_obj w data.2)
  | None =>
      user <- remote_fetch uid ;;
      data <- lift (decode w user) ;;
      data <- lift (loads w data) ;;
      data <- merge_info uid data ;;
      cache_set uid data ;;;
      lift (parse_obj w data.2)
  end.

(** The [except] clauses, in the order of the source. *)
Definition except_clauses : list (ExcClass * string) :=
  [ (AioHttpTimeoutException, "Enka.Network 服务请求超时，请稍后重试");
    (EnkaServerRateLimit, "Enka.Network 已对此API进行速率限制，请稍后重试");
    (EnkaServerMaintanance, "Enka.Network 正在维护，请等待5-8小时或1天");
    (EnkaServerError, "Enka.Network 服务请求错误，请稍后重试");
    (EnkaServerUnknown, "Enka.Network 服务瞬间爆炸，请稍后重试");
    (EnkaPlayerNotFound, "UID 未找到，可能为服务器抽风，请稍后重试");
    (VaildateUIDError, "未找到玩家，请检查您的UID/用户名");
    (HTTPException, "Enka.Network HTTP 服务请求错误，请稍后重试") ].

(** The first clause whose class the exception is an instance of. *)
Definition matching_clause (e : Exn) : option (ExcClass * string) :=
  snd <$> list_find (fun cl : ExcClass * string => exn_isinstance e cl.1 = true)
                    except_clauses.

(** An exception no clause names goes on to the caller. *)
Definition handle (e : Exn) : M Stores (EnkaNetworkResponse + string) :=
  match matching_clause e with
  | Some (_, error) => ret (inr error)
  | None => raise e
  end.

Definition _update_enka_data (uid : Z) : M Stores (EnkaNetworkResponse + string) :=
  try_except (r <- update_enka_data_body uid ;; ret (inl r)) handle.

Definition _load_history (uid : Z) : M Stores (option EnkaNetworkResponse) :=
  data <- load_history_info uid ;;
  match data with
  | None => ret None
  | Some data => r <- lift (parse_obj w data) ;; ret (Some r)
  end.

(** The nested [get_player_card_callback] of [update_player_card]. *)
Definition update_callback (callback_query_data : string) : M Stores (Z * Z) :=
  let _data := Py.split "|" callback_query_data in
  _user_id <- (s <- index _data 1 ;; lift (int_of_str w s)) ;;
  _uid <- (s <- index _data 2 ;; lift (int_of_str w s)) ;;
  ret (_user_id, _uid).

(** The nested [get_player_card_callback] of [get_player_cards]. *)
Definition get_callback (callback_query_data : string) : M Stores (string * Z * Z) :=
  let _data := Py.split "|" callback_query_data in
  _user_id <- (s <- index _data 1 ;; lift (int_of_str w s)) ;;
  _uid <- (s <- index _data 2 ;; lift (int_of_str w s)) ;;
  _result <- index _data 3 ;;
  ret (_result, _user_id, _uid).

Definition not_your_button : string :=
  "这不是你的按钮！" +:+ Py.nl +:+ user_mismatch w.

Definition showcase_hint : string :=
  "请先将角色加入到角色展柜并允许查看角色详情后再使用此功能，如果已经添加了角色，请等待角色数据更新后重试".

(** [parse_holder_data] stops after the character of index 7. *)
Definition holder_characters (cs : list CharacterInfo) : nat :=
  length (take 8 cs).

(** [update_player_card], for the acting user [user] and the data of
    the control pressed. *)
Definition update_player_card (user : Z) (callback_query_data : string)
  : M Stores unit :=
  ids <- update_callback callback_query_data ;;
  let '(user_id, uid) := ids in
  if bool_decide (user ≠ user_id) then
    emit (EvAnswer not_your_button true)
  else
    ttl <- cache_ttl uid ;;
    if 0 <? ttl then
      emit (EvAnswer ("请等待 " +:+ pretty ttl +:+ " 秒后再更新") true)
    else
      emit (EvChatAction "typing") ;;;
      emit (EvAnswer "正在从 EnkaNetwork 获取角色列表 请不要重复点击按钮" false) ;;;
      data <- _update_enka_data uid ;;
      match data with
      | inr error => emit (EvAnswer error true)
      | inl data =>
          match characters data with
          | None =>
              emit EvDeleteMessage ;;;
              emit (EvAnswer showcase_hint true)
          | Some cs =>
              let buttons := gen_button data user uid 1 false in
              emit (EvRenderHolder (Enka.uid data) (holder_characters cs)) ;;;
              emit (EvEditMedia "holder" buttons)
          end
      end.

(** [get_player_cards]. [_load_history] returns a profile or [None],
    never a string, so the [isinstance(data, str)] branch is dead; on
    [None] the access [data.characters] raises. *)
Definition get_player_cards (user : Z) (callback_query_data : string)
  : M Stores unit :=
  parsed <- get_callback callback_query_data ;;
  let '(result, user_id, uid) := parsed in
  if bool_decide (user ≠ user_id) then
    emit (EvAnswer not_your_button true)
  else if bool_decide (result = "empty_data") then
    emit (EvAnswer "此按钮不可用" true)
  else
    page <- (if Py.isdigit result then lift (int_of_str w result) else ret 0) ;;
    data <- _load_history uid ;;
    match data with
    | None => raise AttributeError
    | Some data =>
        match characters data with
        | None =>
            emit EvDeleteMessage ;;;
            emit (EvAnswer showcase_hint true)
        | Some cs =>
            if bool_decide (page ≠ 0) then
              ttl <- cache_ttl uid ;;
              let buttons := gen_button data user uid page (negb (0 <? ttl)) in
              emit (EvEditReplyMarkup buttons) ;;;
              emit (EvAnswer ("已切换到第 " +:+ pretty page +:+ " 页") false)
            else
              match list_find (fun c => name c = result) cs with
              | None =>
                  emit EvDeleteMessage ;;;
                  emit (EvAnswer ("角色展柜中未找到 " +:+ result
                                  +:+ " ，请检查角色是否存在于角色展柜中，或者等待角色数据更新后重试")
                                 true)
              | Some (_, c) =>
                  emit (EvAnswer "正在渲染图片中 请稍等 请不要重复点击按钮" false) ;;;
                  emit (EvChatAction "upload_photo") ;;;
                  emit (EvRenderCard uid (name c)) ;;;
                  emit (EvEditMedia ("player_card_" +:+ pretty uid +:+ "_" +:+ result
                                     +:+ ".png") [])
              end
        end
    end.
End Plugin.

(** A decimal numeral, with an optional sign: what [str] of an [int]
    prints, read back. *)
Fixpoint digits_value (acc : Z) (s : string) : Z :=
  match s with
  | EmptyString => acc
  | String c s' => digits_value (10 * acc + (Z.of_nat (nat_of_ascii c) - 48)) s'
  end.

Definition decimal_int (s : string) : Outcome Z :=
  match s with
  | String "-" s' =>
      if Py.isdigit s' then Return (- digits_value 0 s') else Raise ValueError
  | _ => if Py.isdigit s then Return (digits_value 0 s) else Raise ValueError
  end.

(** A world for concrete runs: the service answers every uid with the
    same body, which decodes and parses to a profile without showcase;
    the merge keeps the fetched payload; no store fails. *)
Definition sample_world : World :=
  {| fetch_user_by_uid := fun _ => Return "{}";
     decode := fun b => Return b;
     loads := fun _ => Return (JObject []);
     parse_obj := fun _ => Return {| uid := 100000007; characters := None |};
     merge := fun _ _ data => data;
     fault := fun _ => None;
     int_of_str := decimal_int;
     user_mismatch := "" |}.

(** The same world with a body that is not JSON. *)
Definition malformed_body_world : World :=
  {| fetch_user_by_uid := fun _ => Return "<html>";
     decode := fun b => Return b;
     loads := fun _ => Raise ValueError;
     parse_obj := fun _ => Return {| uid := 100000007; characters := None |};
     merge := fun _ _ data => data;
     fault := fun _ => None;
     int_of_str := decimal_int;
     user_mismatch := "" |}.

(** The same world with a service under maintenance. *)
Definition maintenance_world : World :=
  {| fetch_user_by_uid := fun _ =>
       Raise {| exn_name := "EnkaServerMaintanance";
                exn_isinstance := fun c =>
                  bool_decide (c = EnkaServerMaintanance \/ c = HTTPException) |};
     decode := fun b => Return b;
     loads := fun _ => Return (JObject []);
     parse_obj := fun _ => Return {| uid := 100000007; characters := None |};
     merge := fun _ _ data => data;
     fault := fun _ => None;
     int_of_str := decimal_int;
     user_mismatch := "" |}.

(** The same world with a cache that fails after the history write. *)
Definition cache_down_world : World :=
  {| fetch_user_by_uid := fun _ => Return "{}";
     decode := fun b => Return b;
     loads := fun _ => Return (JObject []);
     parse_obj := fun _ => Return {| uid := 100000007; characters := None |};
     merge := fun _ _ data => data;
     fault := fun p =>
       match p with
       | BeforeCacheWrite => Some (other_exn "ConnectionError")
       | _ => None
       end;
     int_of_str := decimal_int;
     user_mismatch := "" |}.

Definition empty_stores : Stores :=
  {| history := ∅; cache := ∅; merges := 0; now := 0; log := [] |}.

End PlayerCards.

(** ** What a run of the fetch may do to the stores *)

Module Freshness.
Import Enka Effects PlayerCards.

(** No cache entry is newer than the history entry of its uid, and an
    entry as new as it holds the same snapshot; the merges made so far
    number the history entries. *)
Definition cache_not_newer (s : Stores) : Prop :=
  (forall uid n data expires_at,
      cache s !! uid = Some (n, data, expires_at) ->
      exists m data',
        history s !! uid = Some (m, data') /\ (n <= m)%nat /\ (n = m -> data = data')) /\
  (forall uid m data, history s !! uid = Some (m, data) -> (m <= merges s)%nat).

(** The outcome is a message or an exception. *)
Definition no_snapshot (o : Outcome (EnkaNetworkResponse + string)) : Prop :=
  forall r, o <> Return (inl r).

(** The four shapes of a run of [_update_enka_data] for [uid] from the
    stores [s]: nothing written and nothing fetched; fetched and nothing
    written; fetched and the history written; fetched, the history
    written, then the cache written with the same snapshot. *)
Inductive fetch_run (w : World) (uid : Z) (s : Stores)
  : Outcome (EnkaNetworkResponse + string) -> Stores -> Prop :=
| run_untouched o :
    (forall r, o = Return (inl r) ->
       exists n data expires_at,
         cache s !! uid = Some (n, data, expires_at) /\ now s < expires_at /\
         parse_obj w data = Return r) ->
    fetch_run w uid s o s
| run_fetched o s' :
    no_snapshot o ->
    history s' = history s -> cache s' = cache s ->
    merges s' = merges s -> now s' = now s ->
    log s' = log s ++ [EvRemoteFetch uid] ->
    fetch_run w uid s o s'
| run_history_written o s' data :
    no_snapshot o ->
    history s' = <[uid := (S (merges s), merge w uid (snd <$> history s !! uid) data)]>
                   (history s) ->
    cache s' = cache s ->
    merges s' = S (merges s) -> now s' = now s ->
    log s' = log s ++ [EvRemoteFetch uid;
                       EvHistoryWrite uid (merge w uid (snd <$> history s !! uid) data)] ->
    fetch_run w uid s o s'
| run_cache_written o s' data :
    (forall r, o = Return (inl r) ->
       parse_obj w (merge w uid (snd <$> history s !! uid) data) = Return r) ->
    history s' = <[uid := (S (merges s), merge w uid (snd <$> history s !! uid) data)]>
                   (history s) ->
    cache s' = <[uid := (S (merges s), merge w uid (snd <$> history s !! uid) data,
                         now s + 60)]> (cache s) ->
    merges s' = S (merges s) -> now s' = now s ->
    log s' = log s ++ [EvRemoteFetch uid;
                       EvHistoryWrite uid (merge w uid (snd <$> history s !! uid) data);
                       EvCacheWrite uid (merge w uid (snd <$> history s !! uid) data) 60] ->
    fetch_run w uid s o s'.

End Freshness.

(** ** The wiki cache ([WikiCache]) *)

Module WikiCache.
Import Effects.

(** What [set] may be handed: a [Model], a [dict], a [list], or a value
    that goes to the store as it is. *)
Inductive CacheValue :=
| ModelValue (json : string)
| DictValue (fields : list (string * Json))
| ListValue (items : list Json)
| TextValue (text : string).

Section Cache.
(** [ujson.loads] on a string and [ujson.dumps]. *)
Variable loads : string -> Outcome Json.
Variable dumps : Json -> string.
(** A failure of the Redis client, if it fails. *)
Variable client_fault : option Exn.

Definition qname (key : string) : string := "wiki:" +:+ key.

Definition client_get (name : string) : M (gmap string string) (option string) :=
  fail_if client_fault ;;;
  fun redis => (Return (redis !! name), redis).

Definition client_set (name value : string) : M (gmap string string) unit :=
  fail_if client_fault ;;;
  fun redis => (Return tt, <[name := value]> redis).

Definition set (key : string) (value : CacheValue) : M (gmap string string) unit :=
  let value :=
    match value with
    | ModelValue json => json
    | DictValue fields => dumps (JObject fields)
    | ListValue items => dumps (JList items)
    | TextValue text => text
    end in
  client_set (qname key) value.

(** [json.loads(x)] for what the client returned: [None] is no string. *)
Definition loads_stored (x : option string) : M (gmap string string) Json :=
  match x with
  | Some text => lift (loads text)
  | None => raise TypeError
  end.

(** [json.loads(item)] for an item of a decoded list: only a string can
    be decoded. *)
Definition loads_item (item : Json) : M (gmap string string) Json :=
  match item with
  | JString text => lift (loads text)
  | _ => raise TypeError
  end.

(** The loop [for num, item in enumerate(result): result[num] = ...]:
    the items are decoded in order, and the first failure ends it. *)
Fixpoint loads_items (items : list Json) : M (gmap string string) (list Json) :=
  match items with
  | [] => ret []
  | item :: items' =>
      x <- loads_item item ;;
      xs <- loads_items items' ;;
      ret (x :: xs)
  end.

Definition get (key : string) : M (gmap string string) Json :=
  result <- try_except
              (x <- client_get (qname key) ;; loads_stored x)
              (fun _ => ret (JList [])) ;;
  match result with
  | JList (item :: items) =>
      decoded <- loads_items (item :: items) ;;
      ret (JList decoded)
  | _ => ret result
  end.

Definition client_delete (name : string) : M (gmap string string) unit :=
  fail_if client_fault ;;;
  fun redis => (Return tt, base.delete name redis).

Definition delete (key : string) : M (gmap string string) unit :=
  client_delete (qname key).
End Cache.

(** A decoder and an encoder for concrete runs, on the texts [[1]] and
    [1] alone. *)
Definition sample_loads (text : string) : Outcome Json :=
  if String.eqb text "[1]" then Return (JList [JNumber 1])
  else if String.eqb text "1" then Return (JNumber 1)
  else Raise ValueError.

Definition sample_dumps (j : Json) : string :=
  match j with
  | JList [JNumber 1] => "[1]"
  | JNumber 1 => "1"
  | _ => "null"
  end.

(** The double quote, and a decoder and an encoder for concrete runs on
    a list of two JSON strings: the texts [1] and [null], the text of
    the list that holds them as strings, and nothing else. *)
Definition dq : string := String (ascii_of_nat 34) EmptyString.

Definition two_strings_text : string :=
  "[" +:+ dq +:+ "1" +:+ dq +:+ ", " +:+ dq +:+ "null" +:+ dq +:+ "]".

Definition strings_loads (text : string) : Outcome Json :=
  if String.eqb text two_strings_text then Return (JList [JString "1"; JString "null"])
  else if String.eqb text "1" then Return (JNumber 1)
  else if String.eqb text "null" then Return JNull
  else if String.eqb text "{}" then Return (JObject [])
  else Raise ValueError.

Definition strings_dumps (j : Json) : string :=
  match j with
  | JList [JString "1"; JString "null"] => two_strings_text
  | JObject [] => "{}"
  | _ => "null"
  end.

End WikiCache.

(** ** Rendering ([RenderTemplate], [PlayerStatsPlugins.render])

    The objects a render writes to live in a heap: the icon objects of
    a character, whose [url] is replaced, and the exploration objects
    of the user statistics, whose [icon] and [cover] are replaced. *)

Module Render.
Import Enka Effects.

Inductive Obj :=
| Icon (url : string)
| Exploration (icon cover : string).

(** The fields of [GenshinUserStats] that hold mutable objects. *)
Record GenshinUserStats := {
  explorations : list loc
}.

(** [copy(deep=True)] of one object, as [copy.deepcopy] does it: an
    object met before is copied once (the memo), an object met for the
    first time is copied to a location that is not in use. *)
Definition copy_obj (st : gmap loc loc * gmap loc Obj) (l : loc)
  : gmap loc loc * gmap loc Obj * loc :=
  match st.1 !! l with
  | Some l' => (st, l')
  | None =>
      match st.2 !! l with
      | Some o =>
          let l' := fresh (dom st.2) in
          ((<[l := l']> st.1, <[l' := o]> st.2), l')
      | None => (st, l)
      end
  end.

Fixpoint copy_objs (st : gmap loc loc * gmap loc Obj) (ls : list loc)
  : gmap loc loc * gmap loc Obj * list loc :=
  match ls with
  | [] => (st, [])
  | l :: ls' =>
      let r := copy_obj st l in
      let rs := copy_objs r.1 ls' in
      (rs.1, r.2 :: rs.2)
  end.

Fixpoint copy_equipments (st : gmap loc loc * gmap loc Obj) (es : list Equipments)
  : gmap loc loc * gmap loc Obj * list Equipments :=
  match es with
  | [] => (st, [])
  | e :: es' =>
      let r := copy_obj st (detail_icon e) in
      let rs := copy_equipments r.1 es' in
      (rs.1,
       {| eq_type := eq_type e; detail_icon := r.2;
          detail_substats := detail_substats e |} :: rs.2)
  end.

(** [character.copy(deep=True)]. *)
Definition copy_character (c : CharacterInfo) : M (gmap loc Obj) CharacterInfo :=
  fun h =>
    let b := copy_obj (∅, h) (image_banner c) in
    let s := copy_objs b.1 (skills c) in
    let k := copy_objs s.1 (constellations c) in
    let e := copy_equipments k.1 (equipments c) in
    (Return {| name := name c; image_banner := b.2; skills := s.2;
               constellations := k.2; equipments := e.2 |},
     e.1.2).

(** [user_info.copy(deep=True)]. *)
Definition copy_user_stats (u : GenshinUserStats) : M (gmap loc Obj) GenshinUserStats :=
  fun h =>
    let x := copy_objs (∅, h) (explorations u) in
    (Return {| explorations := x.2 |}, x.1.2).

Section Rendering.
(** [download_resource]: the local path of the mirrored image, or a
    failure. *)
Variable download_resource : string -> Outcome string.
Variable theory : string -> EquipmentsStats -> Q.

(** [item.icon.url = await download_resource(item.icon.url)]. *)
Definition mirror_url (l : loc) : M (gmap loc Obj) unit :=
  fun h =>
    match h !! l with
    | Some (Icon url) =>
        match download_resource url with
        | Return path => (Return tt, <[l := Icon path]> h)
        | Raise e => (Raise e, h)
        end
    | _ => (Raise AttributeError, h)
    end.

(** [RenderTemplate.cache_images]. *)
Definition cache_images (c : CharacterInfo) : M (gmap loc Obj) unit :=
  mirror_url (image_banner c) ;;;
  for_each mirror_url (skills c) ;;;
  for_each mirror_url (constellations c) ;;;
  for_each (fun item => mirror_url (detail_icon item)) (equipments c).

Record RenderTemplate := {
  rt_uid : Z;
  rt_character : CharacterInfo
}.

(** [RenderTemplate.__init__]: the character is cloned first. *)
Definition RenderTemplate_init (uid : Z) (character : CharacterInfo)
  : M (gmap loc Obj) RenderTemplate :=
  c <- copy_character character ;;
  ret {| rt_uid := uid; rt_character := c |}.

(** [RenderTemplate.render]: the images are mirrored, the scores
    computed, and the payload handed to the template service; what is
    returned here is the payload. *)
Definition render (self : RenderTemplate)
  : M (gmap loc Obj) (CharacterInfo * Scoring.RenderScores) :=
  cache_images (rt_character self) ;;;
  ret (rt_character self, Scoring.render_scores theory (rt_character self)).

(** [RenderTemplate(uid, character, template_service).render()], as the
    two callers write it. *)
Definition render_character (uid : Z) (character : CharacterInfo)
  : M (gmap loc Obj) (CharacterInfo * Scoring.RenderScores) :=
  self <- RenderTemplate_init uid character ;;
  render self.

(** The two assignments of [PlayerStatsPlugins.cache_images] for one
    exploration. *)
Definition mirror_exploration (l : loc) : M (gmap loc Obj) unit :=
  (fun h =>
     match h !! l with
     | Some (Exploration icon cover) =>
         match download_resource icon with
         | Return path => (Return tt, <[l := Exploration path cover]> h)
         | Raise e => (Raise e, h)
         end
     | _ => (Raise AttributeError, h)
     end) ;;;
  (fun h =>
     match h !! l with
     | Some (Exploration icon cover) =>
         match download_resource cover with
         | Return path => (Return tt, <[l := Exploration icon path]> h)
         | Raise e => (Raise e, h)
         end
     | _ => (Raise AttributeError, h)
     end).

Definition stats_cache_images (data : GenshinUserStats) : M (gmap loc Obj) unit :=
  for_each mirror_exploration (explorations data).

(** [PlayerStatsPlugins.render], from the [user_info] the client
    returned: it is cloned, the payload is built on the clone, and the
    images of the clone are mirrored. *)
Definition stats_render (user_info : GenshinUserStats)
  : M (gmap loc Obj) GenshinUserStats :=
  user_info <- copy_user_stats user_info ;;
  stats_cache_images user_info ;;;
  ret user_info.
End Rendering.

(** What a character shows of its images: the objects at its banner,
    skills, constellations and equipment. *)
Definition character_images (h : gmap loc Obj) (c : CharacterInfo)
  : list (option Obj) :=
  (h !! image_banner c)
    :: ((fun l => h !! l) <$> skills c)
    ++ ((fun l => h !! l) <$> constellations c)
    ++ ((fun e => h !! detail_icon e) <$> equipments c).

Definition stats_images (h : gmap loc Obj) (u : GenshinUserStats)
  : list (option Obj) :=
  (fun l => h !! l) <$> explorations u.

(** A character and a heap for concrete runs: the banner and the first
    skill are the objects 1 and 2, the second skill shares the object 2,
    the weapon has the object 3. *)
Definition sample_heap : gmap loc Obj :=
  {[ 1%positive := Icon "https://enka.network/ui/banner.png";
     2%positive := Icon "https://enka.network/ui/skill.png";
     3%positive := Icon "https://enka.network/ui/weapon.png";
     4%positive := Exploration "https://upload/icon.png" "https://upload/cover.png" ]}.

Definition sample_character : CharacterInfo :=
  {| name := "Klee"; image_banner := 1%positive;
     skills := [2%positive; 2%positive]; constellations := [];
     equipments := [ {| eq_type := WEAPON; detail_icon := 3%positive;
                        detail_substats := [] |} ] |}.

Definition sample_download (url : string) : Outcome string :=
  Return ("file:///cache/" +:+ url).

End Render.

(** ** The passing of time between two runs *)

Module Timing.
Import PlayerCards.

(** The stores [dt] seconds later: nothing but the clock has moved. *)
Definition advance (dt : Z) (s : Stores) : Stores :=
  {| history := history s; cache := cache s; merges := merges s;
     now := now s + dt; log := log s |}.

(** The stores after one more event. *)
Definition logged (s : Stores) (e : Event) : Stores :=
  {| history := history s; cache := cache s; merges := merges s;
     now := now s; log := log s ++ [e] |}.

(** An event that is a call to the service or a write to a store. *)
Definition touches_stores (e : Event) : bool :=
  match e with
  | EvRemoteFetch _ | EvHistoryWrite _ _ | EvCacheWrite _ _ _ => true
  | _ => false
  end.

(** Stores for concrete runs: the profile 7 was cached at time 0, and
    it is now 18. *)
Definition cached_stores : Stores :=
  {| history := {[ 7 := (1%nat, JObject []) ]};
     cache := {[ 7 := (1%nat, JObject [], 60) ]};
     merges := 1; now := 18; log := [] |}.

(** A world whose snapshots parse to the roster Diluc, Klee. *)
Definition roster_world : World :=
  {| fetch_user_by_uid := fun _ => Effects.Return "{}";
     decode := fun b => Effects.Return b;
     loads := fun _ => Effects.Return (JObject []);
     parse_obj := fun _ =>
       Effects.Return
         {| Enka.uid := 7;
            Enka.characters :=
              Some [Pagination.sample_character "Diluc";
                    Pagination.sample_character "Klee"] |};
     merge := fun _ _ data => data;
     fault := fun _ => None;
     int_of_str := decimal_int;
     user_mismatch := "" |}.

End Timing.

(** ** The holder image ([PlayerCards.parse_holder_data]) *)

Module Holder.
Import Enka Effects.

Section Loop.
(** The entry built for one character: its level, element,
    constellation, rarity and the icon the assets service gives, which
    may fail. *)
Context {A : Type}.
Variable entry : CharacterInfo -> Outcome A.

(** The loop [for idx, character in enumerate(data.characters)]: the
    entry is appended, then [idx > 6] ends the loop. *)
Fixpoint holder_loop (idx : Z) (cs : list CharacterInfo) (characters_data : list A)
  : Outcome (list A) :=
  match cs with
  | [] => Return characters_data
  | character :: cs' =>
      match entry character with
      | Raise e => Raise e
      | Return x =>
          let characters_data := characters_data ++ [x] in
          if 6 <? idx then Return characters_data
          else holder_loop (idx + 1) cs' characters_data
      end
  end.

(** The ["characters"] entry of the dictionary [parse_holder_data]
    returns. *)
Definition parse_holder_characters (cs : list CharacterInfo) : Outcome (list A) :=
  holder_loop 0 cs [].
End Loop.

End Holder.

(** ** The command ([PlayerCards.player_cards]) *)

Module Command.
Import Enka Effects Pagination PlayerCards.

(** The photo of a reply: the file of the repository, or the identifier
    Telegram gave for it after an earlier upload. *)
Inductive Photo :=
| PhotoFile (path : string)
| PhotoFileId (file_id : string).

(** The markup of a reply: the button that links to the binding
    conversation, or a keyboard of callback buttons. *)
Inductive Markup :=
| BindLink (payload : string)
| Keyboard (rows : list (list InlineKeyboardButton)).

Inductive Target := OwnReply | UserMessage.

Inductive Reply :=
| ChatAction (action : string)
| ReplyText (text : string) (reply_markup : option Markup)
| ReplyPhoto (photo : Photo) (caption : string) (reply_markup : option Markup)
| DeleteJob (target : Target) (delay : Z)
| RenderCard (uid : Z) (character_name : string) (filename : string).

(** The stores of the plugin, the cached identifier of the placeholder
    photo ([self.kitsune]) and what was sent. *)
Record State := {
  stores : Stores;
  kitsune : option string;
  sent : list Reply
}.

(** What the command reads besides the plugin's own collaborators. *)
Record CommandWorld := {
  base : World;
  (** [player_service.get_player(user.id)]: the bound game uid, if any *)
  get_player : Z -> Outcome (option Z);
  (** [filters.ChatType.GROUPS.filter(message)] *)
  in_group : bool;
  (** [roleToName] of [metadata.shortname] *)
  roleToName : string -> string;
  (** [reply_message.photo[-1].file_id], when the reply has photos *)
  uploaded_file_id : option string
}.

Section Handler.
Variable cw : CommandWorld.

Definition on_stores {A} (c : M Stores A) : M State A :=
  fun s =>
    let r := c (stores s) in
    (r.1, {| stores := r.2; kitsune := kitsune s; sent := sent s |}).

Definition send (r : Reply) : M State unit :=
  fun s =>
    (Return tt, {| stores := stores s; kitsune := kitsune s; sent := sent s ++ [r] |}).

(** [photo = self.kitsune if isinstance(self.kitsune, str) else open(...)],
    the reply, and [self.kitsune = reply_message.photo[-1].file_id] when
    the reply has photos. *)
Definition reply_kitsune (caption : string) (buttons : list (list InlineKeyboardButton))
  : M State unit :=
  fun s =>
    let photo :=
      match kitsune s with
      | Some file_id => PhotoFileId file_id
      | None => PhotoFile "resources/img/kitsune.png"
      end in
    (Return tt,
     {| stores := stores s;
        kitsune := match uploaded_file_id cw with
                   | Some file_id => Some file_id
                   | None => kitsune s
                   end;
        sent := sent s ++ [ReplyPhoto photo caption (Some (Keyboard buttons))] |}).

Definition not_in_showcase (character_name : string) : string :=
  "角色展柜中未找到 " +:+ character_name
  +:+ " ，请检查角色是否存在于角色展柜中，或者等待角色数据更新后重试".

(** [player_cards], for the user [user] and the arguments [args] of the
    command. *)
Definition player_cards (user : Z) (args : list string) : M State unit :=
  send (ChatAction "typing") ;;;
  player_info <- lift (get_player cw user) ;;
  match player_info with
  | None =>
      if in_group cw then
        send (ReplyText "未查询到您所绑定的账号信息，请先私聊派蒙绑定账号"
                        (Some (BindLink "set_uid"))) ;;;
        send (DeleteJob OwnReply 30) ;;;
        send (DeleteJob UserMessage 30)
      else
        send (ReplyText "未查询到您所绑定的账号信息，请先绑定账号"
                        (Some (BindLink "set_uid")))
  | Some player_id =>
      data <- on_stores (_load_history (base cw) player_id) ;;
      match data with
      | None =>
          reply_kitsune "角色列表未找到，请尝试点击下方按钮从 EnkaNetwork 更新角色列表"
            [[ {| text := "更新面板";
                  callback_data := "update_player_card|" +:+ pretty user +:+ "|"
                                   +:+ pretty player_id |} ]]
      | Some data =>
          match args with
          | [arg] =>
              let character_name := roleToName cw arg in
              match characters data with
              | None => raise TypeError
              | Some cs =>
                  match list_find (fun c => name c = character_name) cs with
                  | None => send (ReplyText (not_in_showcase character_name) None)
                  | Some (_, c) =>
                      send (ChatAction "upload_photo") ;;;
                      send (RenderCard player_id (name c)
                              ("player_card_" +:+ pretty player_id +:+ "_"
                               +:+ character_name +:+ ".png"))
                  end
              end
          | _ =>
              ttl <- on_stores (cache_ttl (base cw) player_id) ;;
              let buttons := gen_button data user player_id 1 (ttl <? 0) in
              reply_kitsune "请选择你要查询的角色" buttons
          end
      end
  end.
End Handler.

(** A command world for concrete runs: the user 6 is bound to the
    profile 7, the chat is private, names are taken as they are, and
    Telegram returns a file identifier. *)
Definition sample_command_world : CommandWorld :=
  {| base := sample_world;
     get_player := fun user => Return (if user =? 6 then Some 7 else None);
     in_group := false;
     roleToName := fun n => n;
     uploaded_file_id := Some "AgACAgUAAx" |}.

Definition fresh_state : State :=
  {| stores := empty_stores; kitsune := None; sent := [] |}.



End Command.

(** ** The statistics command ([PlayerStatsPlugins.command_start]) *)

Module PlayerStats.

(** A decimal numeral read as a number, for concrete runs. *)
Definition decimal_int_option (s : string) : option Z :=
  match PlayerCards.decimal_int s with
  | Effects.Return z => Some z
  | Effects.Raise _ => None
  end.

(** The classes the handler names in its [except] clauses. *)
Inductive ExcClass :=
| CookiesNotFoundError
| PlayerNotFoundError
| GenshinException
| TooManyRequestPublicCookies
| AttributeError.

#[global] Instance StatsExcClass_eq_dec : EqDecision ExcClass.
Proof. solve_decision. Defined.

(** A raised exception: the classes it is an instance of, and its
    [retcode] when it is a [GenshinException]. *)
Record Exn := {
  isinstance : ExcClass -> bool;
  retcode : Z
}.

Inductive Result (A : Type) :=
| Ok (a : A)
| Err (e : Exn).
Arguments Ok {A} a.
Arguments Err {A} e.

Inductive Reply :=
| ReplyText (text : string) (bind_button : bool)
| DeleteJob (own_reply : bool) (delay : Z)
| ChatAction (action : string)
| ReplyPhoto (filename : string).

(** The collaborators: the builtin [int], the two ways to a client (a
    client is known by its [uid]), the chat type, and the body of
    [render] for a client and the uid asked for. *)
Record World := {
  int_of_str : string -> option Z;
  get_genshin_client : Z -> Result Z;
  get_public_genshin_client : Z -> Result (Z * Z);
  in_group : bool;
  render_user : Z -> Z -> Result unit
}.

Section Handler.
Variable w : World.

(** [render]: [uid] defaults to the uid of the client. *)
Definition render (client : Z) (uid : option Z) : Result unit :=
  let uid := match uid with None => client | Some uid => uid end in
  render_user w client uid.

(** An [int] or [None] is truthy when it is a number other than zero. *)
Definition truthy (uid : option Z) : bool :=
  match uid with
  | Some uid => negb (uid =? 0)
  | None => false
  end.

(** The inner [try]: the client of the user, or the public one when the
    user has no cookies, which also rebinds [uid]; then the render.
    The result comes with the [uid] bound when it was reached. *)
Definition attempt (user : Z) (uid : option Z) : Result Z * option Z :=
  match get_genshin_client w user with
  | Ok client =>
      (match render client uid with Ok _ => Ok client | Err e => Err e end, uid)
  | Err e =>
      if isinstance e CookiesNotFoundError then
        match get_public_genshin_client w user with
        | Ok (client, uid) =>
            (match render client (Some uid) with Ok _ => Ok client | Err e => Err e end,
             Some uid)
        | Err e' => (Err e', uid)
        end
      else (Err e, uid)
  end.

(** The [except] clauses of the outer [try], in the order of the
    source: the replies sent, and the exception that goes on to the
    caller if one does. *)
Definition handle (e : Exn) (uid : option Z) : list Reply * option Exn :=
  if isinstance e PlayerNotFoundError then
    (if in_group w then
       [ReplyText "未查询到您所绑定的账号信息，请先私聊派蒙绑定账号" true;
        DeleteJob true 30; DeleteJob false 30]
     else [ReplyText "未查询到您所绑定的账号信息，请先绑定账号" true], None)
  else if isinstance e GenshinException then
    if (retcode e =? 1034) && truthy uid
    then ([ReplyText "出错了呜呜呜 ~ 请稍后重试" false], None)
    else ([], Some e)
  else if isinstance e TooManyRequestPublicCookies then
    ([ReplyText "用户查询次数过多 请稍后重试" false], None)
  else if isinstance e AttributeError then
    ([ReplyText "角色数据有误 估计是派蒙晕了" false], None)
  else ([], Some e).

(** [command_start], for the user and [context.args]. *)
Definition command_start (user : Z) (args : option (list string))
  : list Reply * option Exn :=
  let parsed :=
    match args with
    | Some (arg :: _) =>
        match int_of_str w arg with
        | Some uid => Some (Some uid)
        | None => None
        end
    | _ => Some None
    end in
  match parsed with
  | None => ([ReplyText "输入错误" false], None)
  | Some uid =>
      match attempt user uid with
      | (Ok client, _) =>
          ([ChatAction "upload_photo"; ReplyPhoto (pretty client +:+ ".png")], None)
      | (Err e, uid) => handle e uid
      end
  end.
End Handler.

(** An exception of exactly one of the classes. *)
Definition plain (c : ExcClass) (code : Z) : Exn :=
  {| isinstance := fun c' => bool_decide (c' = c); retcode := code |}.

(** A world for concrete runs: the user 6 has cookies for the profile
    7, the user 5 has none and the public client looks at the profile
    9; the render fails with the code 1034. *)
Definition busy_world : World :=
  {| int_of_str := decimal_int_option;
     get_genshin_client := fun user =>
       if user =? 6 then Ok 7 else Err (plain CookiesNotFoundError 0);
     get_public_genshin_client := fun _ => Ok (8, 9);
     in_group := false;
     render_user := fun _ _ => Err (plain GenshinException 1034) |}.

End PlayerStats.

(** ** The start command ([StartPlugin.start]) *)

Module Start.

(** A raised exception, by the classes [process_sign_validate] names. *)
Record Exn := {
  exn_name : string;
  is_player_not_found : bool;
  is_cookies_not_found : bool;
  is_need_challenge : bool
}.

Definition IndexError : Exn :=
  {| exn_name := "IndexError"; is_player_not_found := false;
     is_cookies_not_found := false; is_need_challenge := false |}.

Inductive Result (A : Type) :=
| Ok (a : A)
| Err (e : Exn).
Arguments Ok {A} a.
Arguments Err {A} e.

Inductive Reply :=
| ReplyMarkdown (text : string)
| ReplyHtml (text : string)
| ReplyText (text : string)
| ChatAction (action : string).

(** What the handler reads: the two renderings of the user's mention,
    [escape_markdown], the client of a user (known by its uid), the
    challenge kept for a uid (absent or empty when it has expired), and
    [sign_system.start_sign] for a client, a challenge and the
    validation string. The handlers [process_validate] and
    [get_sign_button] enter as what they send and raise. *)
Record World := {
  mention_markdown_v2 : string;
  mention_html : string;
  escape_markdown : string -> string;
  get_genshin_client : Z -> Result Z;
  get_challenge : Z -> Result (option string);
  start_sign : Z -> string -> string -> Result string;
  process_validate : Z -> list Reply * option Exn;
  get_sign_button : Z -> list Reply * option Exn
}.

Section Handler.
Variable w : World.

(** [process_sign_validate]: the replies sent, and the exception that
    goes on to the caller if one does. *)
Definition process_sign_validate (user : Z) (validate : string)
  : list Reply * option Exn :=
  let handler (sent : list Reply) (e : Exn) : list Reply * option Exn :=
    if is_player_not_found e || is_cookies_not_found e then (sent, None)
    else if is_need_challenge e then (sent ++ [ReplyText "回调错误，请重新签到"], None)
    else (sent, Some e) in
  match get_genshin_client w user with
  | Err e => handler [] e
  | Ok client =>
      let sent := [ChatAction "typing"] in
      match get_challenge w client with
      | Err e => handler sent e
      | Ok challenge =>
          match challenge with
          | None | Some EmptyString => (sent ++ [ReplyText "验证请求已过期。"], None)
          | Some challenge =>
              match start_sign w client challenge validate with
              | Err e => handler sent e
              | Ok sign_text => (sent ++ [ReplyText sign_text], None)
              end
          end
      end
  end.

Definition greeting : string :=
  "你好 " +:+ mention_markdown_v2 w +:+ " " +:+ escape_markdown w "！我是派蒙 ！".

(** [start], for the user and [context.args]. *)
Definition start (user : Z) (args : option (list string)) : list Reply * option Exn :=
  match args with
  | Some (arg :: _) =>
      if String.eqb arg "inline_message" then
        ([ReplyMarkdown (greeting +:+ Py.nl
                         +:+ escape_markdown w "发送 /help 命令即可查看命令帮助")], None)
      else if String.eqb arg "set_cookie" then
        ([ReplyMarkdown (greeting +:+ Py.nl
                         +:+ escape_markdown w "发送 /setcookie 命令进入绑定账号流程")], None)
      else if String.eqb arg "set_uid" then
        ([ReplyMarkdown (greeting +:+ Py.nl
                         +:+ escape_markdown w "发送 /setuid 或 /setcookie 命令进入绑定账号流程")],
         None)
      else if String.eqb arg "verify_verification" then process_validate w user
      else if String.eqb arg "sign" then get_sign_button w user
      else if String.prefix "challenge_" arg then
        let _data := Py.split "_" arg in
        match _data !! 1%nat with
        | None => ([], Some IndexError)
        | Some _command =>
            match _data !! 2%nat with
            | None => ([], Some IndexError)
            | Some _challenge =>
                if String.eqb _command "sign"
                then process_sign_validate user _challenge
                else ([], None)
            end
        end
      else
        ([ReplyHtml ("你好 " +:+ mention_html w +:+ " ！我是派蒙 ！" +:+ Py.nl
                     +:+ "请点击 /" +:+ arg +:+ " 命令进入对应流程")], None)
  | _ => ([ReplyMarkdown greeting], None)
  end.
End Handler.

(** A world for concrete runs: the user 6 has the client 7, whose
    challenge is [abc], and signing answers with the validation string
    it was given. *)
Definition sample_world : World :=
  {| mention_markdown_v2 := "[Paimon](tg://user?id=6)";
     mention_html := "Paimon";
     escape_markdown := fun s => s;
     get_genshin_client := fun user =>
       if user =? 6 then Ok 7
       else Err {| exn_name := "PlayerNotFoundError"; is_player_not_found := true;
                   is_cookies_not_found := false; is_need_challenge := false |};
     get_challenge := fun _ => Ok (Some "abc");
     start_sign := fun _ _ validate => Ok validate;
     process_validate := fun _ => ([], None);
     get_sign_button := fun _ => ([], None) |}.

End Start.

(** * Properties *)

(** ** Letter grades *)

Section GradeFacts.
Import Scoring.

Lemma Qle_bool_true (x y : Q) : Qle_bool x y = true -> (x <= y)%Q.
Proof. apply Qle_bool_iff. Qed.

Lemma Qle_bool_false (x y : Q) : Qle_bool x y = false -> (y < x)%Q.
Proof.
  intros H. apply Qnot_le_lt. intros Hle.
  apply Qle_bool_iff in Hle. congruence.
Qed.

(** The band of the scale a total falls in: its lower bound, its upper
    bound when it has one, and what the loop of [Artifact.__init__]
    leaves in [score_label] and [score_class]. *)
Inductive band (x : Q) : string -> string -> Prop :=
| band_E : (x < 10)%Q -> band x "E" ""
| band_D : (10 <= x)%Q -> (x < 16.5)%Q -> band x "D" "text-neutral-400"
| band_C : (16.5 <= x)%Q -> (x < 23.1)%Q -> band x "C" "text-neutral-200"
| band_B : (23.1 <= x)%Q -> (x < 29.7)%Q -> band x "B" "text-violet-400"
| band_A : (29.7 <= x)%Q -> (x < 36.3)%Q -> band x "A" "text-violet-400"
| band_S : (36.3 <= x)%Q -> (x < 42.9)%Q -> band x "S" "text-yellow-400"
| band_SS : (42.9 <= x)%Q -> (x < 49.5)%Q -> band x "SS" "text-yellow-400"
| band_SSS : (49.5 <= x)%Q -> (x < 56.1)%Q -> band x "SSS" "text-yellow-400"
| band_ACE : (56.1 <= x)%Q -> (x < 66)%Q -> band x "ACE" "text-red-500"
| band_ACE2 : (66 <= x)%Q -> band x "ACE²" "text-red-500".

Ltac split_threshold :=
  match goal with
  | |- context [Qle_bool ?t ?x] =>
      let H := fresh "H" in
      destruct (Qle_bool t x) eqn:H;
      [apply Qle_bool_true in H | apply Qle_bool_false in H]
  end.

Lemma artifact_grade_band (x : Q) :
  band x (artifact_grade x).1 (artifact_grade x).2.
Proof.
  unfold artifact_grade, artifact_thresholds, artifact_step.
  cbn [fold_left fst snd].
  repeat (split_threshold; [cbn [fst snd]; first
    [ apply band_ACE2; assumption
    | apply band_ACE; assumption
    | apply band_SSS; assumption
    | apply band_SS; assumption
    | apply band_S; assumption
    | apply band_A; assumption
    | apply band_B; assumption
    | apply band_C; assumption
    | apply band_D; assumption ] | ]).
  apply band_E; assumption.
Qed.

Lemma grade_band (x : Q) : exists c, band x (grade x) c.
Proof. exists (artifact_grade x).2. apply artifact_grade_band. Qed.

Lemma elem_of_artifact_thresholds (l : string) (t : Q) :
  (l, t) ∈ artifact_thresholds ->
  (l, t) = ("D", 10%Q) \/ (l, t) = ("C", 16.5%Q) \/ (l, t) = ("B", 23.1%Q) \/
  (l, t) = ("A", 29.7%Q) \/ (l, t) = ("S", 36.3%Q) \/ (l, t) = ("SS", 42.9%Q) \/
  (l, t) = ("SSS", 49.5%Q) \/ (l, t) = ("ACE", 56.1%Q) \/ (l, t) = ("ACE²", 66%Q).
Proof.
  unfold artifact_thresholds. rewrite !elem_of_cons, elem_of_nil. tauto.
Qed.

Ltac in_table :=
  unfold artifact_thresholds;
  repeat first [ apply list_elem_of_here | apply list_elem_of_further ].

(** The threshold of the band the total falls in, instantiated in a
    maximality hypothesis over the table. *)
Ltac use_max Hmax x :=
  match goal with
  | Hlo : (?t <= x)%Q |- _ =>
      let H := fresh "Hm" in
      unshelve epose proof (Hmax _ t _ Hlo) as H; [| in_table |]
  end.

Lemma grade_highest (x : Q) (l : string) (t : Q) :
  (l, t) ∈ artifact_thresholds ->
  (t <= x)%Q ->
  (forall l' t', (l', t') ∈ artifact_thresholds -> (t' <= x)%Q -> (t' <= t)%Q) ->
  grade x = l.
Proof.
  intros Hin Hle Hmax.
  destruct (grade_band x) as [c Hb].
  apply elem_of_artifact_thresholds in Hin.
  inversion Hb;
    repeat (destruct Hin as [Hin|Hin]);
    injection Hin as -> ->;
    try reflexivity; try (exfalso; lra);
    exfalso; use_max Hmax x; lra.
Qed.

Lemma grade_default (x : Q) :
  (forall l t, (l, t) ∈ artifact_thresholds -> (x < t)%Q) -> grade x = "E".
Proof.
  intros Hlow.
  assert (x < 10)%Q as Hx by (apply (Hlow "D"); in_table).
  destruct (grade_band x) as [c Hb].
  inversion Hb; try reflexivity; exfalso; lra.
Qed.

Lemma grade_monotone (x y : Q) :
  (x <= y)%Q -> (label_rank (grade x) <= label_rank (grade y))%nat.
Proof.
  intros Hxy.
  destruct (grade_band x) as [cx Hx], (grade_band y) as [cy Hy].
  inversion Hx; inversion Hy;
    first [ exfalso; lra | vm_compute; lia ].
Qed.

Lemma label_rank_bound (l : string) : (label_rank l <= 9)%nat.
Proof.
  unfold label_rank.
  destruct (list_find _ _) as [[i r]|] eqn:Hf; [|lia].
  apply list_find_Some in Hf as (Hi & _ & _).
  apply lookup_lt_Some in Hi. simpl in Hi. lia.
Qed.

End GradeFacts.

Section ScoringClaims.
Import Enka Scoring.

(** C3. The grade of a total is the label of the highest threshold of the
    table that the total reaches, and ["E"] when it reaches none; the
    grade does not go down when the total goes up; no grade stands above
    that of 66; the totals 10, 16.5, 66 and 0 are graded ["D"], ["C"],
    ["ACE²"] and ["E"]. *)
Theorem grade_highest_threshold_reached :
  (forall (x : Q) (l : string) (t : Q),
      (l, t) ∈ artifact_thresholds -> (t <= x)%Q ->
      (forall l' t', (l', t') ∈ artifact_thresholds -> (t' <= x)%Q -> (t' <= t)%Q) ->
      grade x = l) /\
  (forall x : Q,
      (forall l t, (l, t) ∈ artifact_thresholds -> (x < t)%Q) -> grade x = "E") /\
  (forall x y : Q,
      (x <= y)%Q -> (label_rank (grade x) <= label_rank (grade y))%nat) /\
  (forall x : Q, (label_rank (grade x) <= label_rank (grade 66))%nat) /\
  grade 10 = "D" /\ grade 16.5 = "C" /\ grade 66 = "ACE²" /\ grade 0 = "E".
Proof.
  split; [exact grade_highest|].
  split; [exact grade_default|].
  split; [exact grade_monotone|].
  split; [intros x; apply label_rank_bound|].
  repeat split; reflexivity.
Qed.

Lemma grade_highest_threshold_reached_witness :
  grade 20 = "C" /\ grade 9.9 = "E" /\
  (label_rank (grade 9.9) <= label_rank (grade 20))%nat.
Proof.
  destruct grade_highest_threshold_reached as (Hhigh & Hlow & Hmono & _).
  split; [|split].
  - apply (Hhigh 20%Q "C" 16.5%Q).
    + unfold artifact_thresholds.
      apply list_elem_of_further, list_elem_of_here.
    + lra.
    + intros l' t' Hin Hle.
      apply elem_of_artifact_thresholds in Hin.
      repeat (destruct Hin as [Hin|Hin]); injection Hin as -> ->; lra.
  - apply (Hlow 9.9%Q). intros l t Hin.
    apply elem_of_artifact_thresholds in Hin.
    repeat (destruct Hin as [Hin|Hin]); injection Hin as -> ->; lra.
  - apply (Hmono 9.9%Q 20%Q). lra.
Defined.

Lemma artifact_total_score_label_grade (total : Q) :
  artifact_total_score_label total = grade (total / 5).
Proof.
  unfold artifact_total_score_label, grade, artifact_grade.
  unfold render_thresholds, artifact_thresholds, artifact_step.
  cbn [fold_left fst snd].
  repeat (destruct (Qle_bool _ (total / 5)); [reflexivity|]).
  reflexivity.
Qed.

(** C4. The aggregate grade of a render is the grade, on the table of a
    single artifact, of the rounded sum of the artifact scores divided by
    5, whatever the number of artifacts; the class is looked up from that
    label. The divisor is a literal of [render]: one artifact scoring 50
    is an ["SSS"] artifact and gives the aggregate grade ["D"]. *)
Theorem aggregate_grade_is_grade_of_fifth
    (theory : string -> EquipmentsStats -> Q) (c : CharacterInfo) :
  let rs := render_scores theory c in
  render_thresholds = artifact_thresholds /\
  rs_artifacts rs = find_artifacts theory c /\
  rs_total_score rs = Py.round1 (Py.sum (score <$> rs_artifacts rs)) /\
  rs_total_score_label rs = grade (rs_total_score rs / 5) /\
  rs_total_score_class rs = get_score_class (rs_total_score_label rs) /\
  (forall artifacts : list Artifact,
      artifact_total_score_label (artifact_total_score artifacts)
      = grade (Py.round1 (Py.sum (score <$> artifacts)) / 5)) /\
  (forall e : Equipments,
      score_label (Artifact_init e [50%Q]) = "SSS" /\
      artifact_total_score_label (artifact_total_score [Artifact_init e [50%Q]]) = "D") /\
  artifact_total_score_label (artifact_total_score []) = "E".
Proof.
  cbn. repeat split.
  - apply artifact_total_score_label_grade.
  - intros artifacts. apply artifact_total_score_label_grade.
Qed.

(** C8, at the input where the code departs from it: an artifact whose
    score is below the lowest threshold keeps the field default [""]
    as its class, while the lookup gives ["text-neutral-400"] for its
    label ["E"], as the aggregate class of [render] does. An artifact of
    any other grade carries the class the lookup gives. *)
Theorem artifact_class_below_lowest_threshold (e : Equipments) :
  score_label (Artifact_init e [1.5%Q; 2%Q]) = "E" /\
  score_class (Artifact_init e [1.5%Q; 2%Q]) = "" /\
  get_score_class "E" = "text-neutral-400" /\
  (forall subs : list Q,
      let a := Artifact_init e subs in
      (score_label a = "E" /\ score_class a = "") \/
      (score_label a <> "E" /\ score_class a = get_score_class (score_label a))).
Proof.
  repeat split.
  intros subs. unfold Artifact_init. cbn [score_label score_class].
  pose proof (artifact_grade_band (Py.round1 (fold_left Qplus subs 0%Q))) as Hb.
  inversion Hb;
    (left; split; reflexivity) || (right; split; [discriminate | reflexivity]).
Qed.

End ScoringClaims.

(** ** Python slices and ranges *)

Section PyFacts.

Lemma slice_take_drop {A} (l : list A) (a b : Z) :
  0 <= a -> a <= b ->
  Py.slice l a b = take (Z.to_nat (b - a)) (drop (Z.to_nat a) l).
Proof.
  intros Ha Hab. unfold Py.slice, Py.slice_bound.
  destruct (Z.ltb_spec a 0) as [?|_]; [lia|].
  destruct (Z.ltb_spec b 0) as [?|_]; [lia|].
  destruct (Z_le_gt_dec a (Z.of_nat (length l))) as [Hin|Hout].
  - rewrite (Z.min_l a) by lia.
    destruct (Z_le_gt_dec b (Z.of_nat (length l))) as [Hb|Hb].
    + rewrite Z.min_l by lia. reflexivity.
    + rewrite Z.min_r by lia.
      rewrite !take_ge; [reflexivity | rewrite length_drop; lia ..].
  - rewrite (Z.min_r a) by lia.
    rewrite (drop_ge l (Z.to_nat (Z.of_nat (length l)))) by lia.
    rewrite (drop_ge l (Z.to_nat a)) by lia.
    rewrite !take_nil. reflexivity.
Qed.

Lemma range_from_zero (n step : Z) :
  0 < step ->
  Py.range 0 n step
  = (fun k => Z.of_nat k * step) <$> seq 0 (Z.to_nat ((n + step - 1) / step)).
Proof.
  intros Hs. unfold Py.range, Py.range_len.
  destruct (Z.ltb_spec 0 n) as [Hn|Hn].
  - rewrite Z.sub_0_r. reflexivity.
  - replace (Z.to_nat ((n + step - 1) / step)) with 0%nat; [reflexivity|].
    assert ((n + step - 1) / step < 1); [|lia].
    apply Z.div_lt_upper_bound; lia.
Qed.

Lemma math_ceil_div_3 (n : Z) : Py.math_ceil_div n 3 = (n + 2) / 3.
Proof.
  unfold Py.math_ceil_div, Qceiling, Qfloor. cbn.
  change (Z.pos (1 * 3)) with 3. rewrite Z.mul_1_r.
  pose proof (Z.div_mod (- n) 3 ltac:(lia)).
  pose proof (Z.mod_pos_bound (- n) 3 ltac:(lia)).
  pose proof (Z.div_mod (n + 2) 3 ltac:(lia)).
  pose proof (Z.mod_pos_bound (n + 2) 3 ltac:(lia)).
  lia.
Qed.

(** Cutting a list into consecutive pieces of [c] elements loses nothing
    and reorders nothing. *)
Lemma concat_pieces {A} (l : list A) (c m : nat) :
  concat ((fun k => take c (drop (k * c) l)) <$> seq 0 m) = take (m * c) l.
Proof.
  induction m as [|m IH]; [reflexivity|].
  rewrite seq_S, fmap_app, concat_app, IH. cbn [fmap list_fmap concat].
  rewrite app_nil_r, Nat.add_0_l, take_take_drop.
  f_equal. lia.
Qed.

End PyFacts.

(** ** Rows and pages of the keyboard *)

Section PaginationFacts.
Import Enka Pagination.

Variable data : EnkaNetworkResponse.
Variable user_id uid : Z.

Lemma buttons_text :
  text <$> buttons data user_id uid
  = filter (fun n => n ≠ "") (name <$> default [] (characters data)).
Proof.
  unfold buttons.
  destruct (characters data) as [cs|]; [|reflexivity].
  assert (text <$> (character_button user_id uid
                      <$> filter (fun value => name value ≠ "") cs)
          = filter (fun n => n ≠ "") (name <$> cs)) as Hcs.
  { induction cs as [|c cs IH]; [reflexivity|].
    rewrite fmap_cons, !filter_cons.
    destruct (decide (name c ≠ "")); cbn; rewrite IH; reflexivity. }
  destruct cs; [reflexivity | exact Hcs].
Qed.

Lemma buttons_empty :
  Forall (fun c => name c = "") (default [] (characters data)) ->
  buttons data user_id uid = [].
Proof.
  intros Hall. apply fmap_nil_inv with (f := text). rewrite buttons_text.
  induction (default [] (characters data)) as [|c cs IH]; [reflexivity|].
  inversion Hall as [|? ? Hc Hcs]; subst.
  rewrite fmap_cons, filter_cons. destruct (decide (name c ≠ "")); [done|].
  apply IH, Hcs.
Qed.

(** The number of rows: the number of buttons over four, rounded up. *)
Definition rows_of (n : nat) : nat := Z.to_nat ((Z.of_nat n + 3) / 4).

Lemma all_buttons_pieces :
  all_buttons data user_id uid
  = (fun k => take 4 (drop (k * 4) (buttons data user_id uid)))
      <$> seq 0 (rows_of (length (buttons data user_id uid))).
Proof.
  unfold all_buttons, rows_of. rewrite range_from_zero by lia.
  replace (Z.of_nat (length (buttons data user_id uid)) + 4 - 1)
    with (Z.of_nat (length (buttons data user_id uid)) + 3) by lia.
  rewrite <- list_fmap_compose. apply list_fmap_ext. intros i k _. cbn.
  rewrite slice_take_drop by lia.
  f_equal; [lia|]. f_equal. lia.
Qed.

Lemma all_buttons_length :
  length (all_buttons data user_id uid)
  = rows_of (length (buttons data user_id uid)).
Proof. rewrite all_buttons_pieces, length_fmap, length_seq. reflexivity. Qed.

Lemma rows_of_cover (n : nat) : (n <= rows_of n * 4)%nat.
Proof.
  unfold rows_of.
  pose proof (Z.div_mod (Z.of_nat n + 3) 4 ltac:(lia)).
  pose proof (Z.mod_pos_bound (Z.of_nat n + 3) 4 ltac:(lia)).
  lia.
Qed.

Lemma rows_of_tight (n k : nat) : (k < rows_of n)%nat -> (k * 4 < n)%nat.
Proof.
  unfold rows_of.
  pose proof (Z.div_mod (Z.of_nat n + 3) 4 ltac:(lia)).
  pose proof (Z.mod_pos_bound (Z.of_nat n + 3) 4 ltac:(lia)).
  lia.
Qed.

Lemma all_buttons_concat :
  concat (all_buttons data user_id uid) = buttons data user_id uid.
Proof.
  rewrite all_buttons_pieces, concat_pieces.
  apply take_ge, rows_of_cover.
Qed.

Lemma all_buttons_rows :
  Forall (fun row => (1 <= length row <= 4)%nat) (all_buttons data user_id uid).
Proof.
  rewrite all_buttons_pieces. apply Forall_fmap, Forall_forall.
  intros k Hk. apply elem_of_seq in Hk as [_ Hk]. cbn in *.
  apply rows_of_tight in Hk.
  rewrite length_take, length_drop. lia.
Qed.

Lemma send_buttons_window (page : Z) :
  1 <= page ->
  send_buttons data user_id uid page
  = take 3 (drop (Z.to_nat (page - 1) * 3) (all_buttons data user_id uid)).
Proof.
  intros Hp. unfold send_buttons. rewrite slice_take_drop by lia.
  f_equal; [lia|]. f_equal. lia.
Qed.

Lemma send_buttons_items (page : Z) :
  1 <= page ->
  (length (send_buttons data user_id uid page) <= 3)%nat /\
  (length (concat (send_buttons data user_id uid page)) <= 12)%nat.
Proof.
  intros Hp. rewrite send_buttons_window by assumption.
  assert (Forall (fun row : list InlineKeyboardButton => (length row <= 4)%nat)
            (take 3 (drop (Z.to_nat (page - 1) * 3) (all_buttons data user_id uid))))
    as Hrows.
  { apply Forall_take, Forall_drop.
    eapply Forall_impl; [apply all_buttons_rows|]. cbn. lia. }
  assert (length (take 3 (drop (Z.to_nat (page - 1) * 3)
                            (all_buttons data user_id uid))) <= 3)%nat as Hlen
    by (rewrite length_take; lia).
  split; [exact Hlen|].
  revert Hrows Hlen.
  generalize (take 3 (drop (Z.to_nat (page - 1) * 3) (all_buttons data user_id uid))).
  intros w Hrows.
  assert (length (concat w) <= length w * 4)%nat as Hsum.
  { induction Hrows as [|row w Hrow _ IH]; [cbn; lia|].
    cbn [concat length]. rewrite length_app. lia. }
  lia.
Qed.

Lemma all_page_rows :
  all_page data user_id uid
  = (Z.of_nat (length (all_buttons data user_id uid)) + 2) / 3.
Proof. unfold all_page. apply math_ceil_div_3. Qed.

(** The pages [1 .. all_page], one after the other, are the rows. *)
Lemma pages_concat :
  concat ((fun k => send_buttons data user_id uid (Z.of_nat k + 1))
            <$> seq 0 (Z.to_nat (all_page data user_id uid)))
  = all_buttons data user_id uid.
Proof.
  erewrite list_fmap_ext with
    (g := fun k => take 3 (drop (k * 3) (all_buttons data user_id uid))).
  2: { intros i k _. rewrite send_buttons_window by lia.
       replace (Z.to_nat (Z.of_nat k + 1 - 1)) with k by lia. reflexivity. }
  rewrite concat_pieces. apply take_ge. rewrite all_page_rows.
  pose proof (Z.div_mod (Z.of_nat (length (all_buttons data user_id uid)) + 2) 3
                ltac:(lia)).
  pose proof (Z.mod_pos_bound (Z.of_nat (length (all_buttons data user_id uid)) + 2) 3
                ltac:(lia)).
  lia.
Qed.

End PaginationFacts.

(** ** The navigation row *)

Section NavigationFacts.
Import Enka Pagination.

Variable data : EnkaNetworkResponse.
Variable user_id uid : Z.

Lemma all_page_of_buttons (n : nat) :
  length (buttons data user_id uid) = n ->
  all_page data user_id uid = (Z.of_nat (rows_of n) + 2) / 3.
Proof. intros <-. rewrite all_page_rows, all_buttons_length. reflexivity. Qed.

Lemma all_page_bounds :
  let rows := Z.of_nat (length (all_buttons data user_id uid)) in
  rows <= 3 * all_page data user_id uid < rows + 3.
Proof.
  cbn. rewrite all_page_rows.
  pose proof (Z.div_mod (Z.of_nat (length (all_buttons data user_id uid)) + 2) 3
                ltac:(lia)).
  pose proof (Z.mod_pos_bound (Z.of_nat (length (all_buttons data user_id uid)) + 2) 3
                ltac:(lia)).
  lia.
Qed.

(** What the row holds is decided by the page asked for, the number of
    pages and the refresh flag. *)
Lemma last_button_single_page (update_button : bool) :
  all_page data user_id uid = 1 ->
  last_button data user_id uid 1 update_button
  = if update_button then [update_panel_button user_id uid] else [].
Proof.
  intros Hp. unfold last_button, last_page, next_page. rewrite Hp. cbn.
  destruct update_button; reflexivity.
Qed.

Lemma last_button_first_of_two (update_button : bool) :
  all_page data user_id uid = 2 ->
  last_button data user_id uid 1 update_button
  = ([indicator_button user_id uid 1 2]
     ++ (if update_button then [update_panel_button user_id uid] else [])
     ++ [next_button user_id uid 2])%list.
Proof.
  intros Hp. unfold last_button, last_page, next_page. rewrite Hp. reflexivity.
Qed.

Lemma last_button_second_of_two (update_button : bool) :
  all_page data user_id uid = 2 ->
  last_button data user_id uid 2 update_button
  = ([previous_button user_id uid 1; indicator_button user_id uid 2 2]
     ++ (if update_button then [update_panel_button user_id uid] else []))%list.
Proof.
  intros Hp. unfold last_button, last_page, next_page. rewrite Hp. cbn.
  rewrite app_nil_r. reflexivity.
Qed.

Lemma gen_button_one_page (update_button : bool) :
  all_page data user_id uid = 1 ->
  gen_button data user_id uid 1 update_button
  = (all_buttons data user_id uid
     ++ (if update_button then [[update_panel_button user_id uid]] else []))%list.
Proof.
  intros Hp. unfold gen_button.
  rewrite last_button_single_page by assumption.
  rewrite send_buttons_window by lia.
  change (Z.to_nat (1 - 1) * 3)%nat with 0%nat. rewrite drop_0, take_ge.
  - destruct update_button; reflexivity.
  - pose proof all_page_bounds as Hb. cbn in Hb. lia.
Qed.

Lemma no_buttons_send (page : Z) :
  buttons data user_id uid = [] -> send_buttons data user_id uid page = [].
Proof.
  intros Hb.
  assert (all_buttons data user_id uid = []) as Hrows
    by (unfold all_buttons; rewrite Hb; reflexivity).
  unfold send_buttons, Py.slice. rewrite Hrows, drop_nil. apply take_nil.
Qed.

Lemma no_buttons_last_button (page : Z) (update_button : bool) :
  buttons data user_id uid = [] ->
  last_button data user_id uid page update_button
  = ((if 1 <? page
      then [previous_button user_id uid (page - 1); indicator_button user_id uid page 0]
      else [])
     ++ (if update_button then [update_panel_button user_id uid] else []))%list.
Proof.
  intros Hb.
  assert (all_page data user_id uid = 0) as Hp
    by (rewrite (all_page_of_buttons 0) by (rewrite Hb; reflexivity); reflexivity).
  unfold last_button, last_page, next_page. rewrite Hp.
  change (1 <? 0) with false. rewrite andb_false_r.
  destruct (Z.ltb_spec 1 page) as [Hlt|Hge].
  - rewrite bool_decide_eq_true_2 by lia. cbn. rewrite app_nil_r. reflexivity.
  - cbn. rewrite app_nil_r. reflexivity.
Qed.

End NavigationFacts.

Section PaginationClaims.
Import Enka Pagination.

(** C5, as the code has it. The buttons are one per character with a
    non-empty name, in roster order; the rows cut them into fours; a
    page [>= 1] shows three consecutive rows, so at most 12 buttons; the
    pages [1 .. all_page] together are the rows, and [all_page] is the
    number of rows over three, rounded up. With 10 buttons there is one
    page, and the keyboard is the rows alone when no refresh is offered
    and the rows followed by a row holding the refresh control alone
    when one is. With 13 buttons there are two pages; the row of page 1
    holds the indicator and "next" and no "previous", that of page 2
    "previous" and the indicator and no "next", each with the refresh
    control when it is offered. *)
Theorem gen_button_rows_and_pages (data : EnkaNetworkResponse) (user_id uid : Z) :
  let bs := buttons data user_id uid in
  let rows := all_buttons data user_id uid in
  let pages := all_page data user_id uid in
  text <$> bs = filter (fun n => n ≠ "") (name <$> default [] (characters data)) /\
  concat rows = bs /\
  Forall (fun row => (1 <= length row <= 4)%nat) rows /\
  (forall page, 1 <= page ->
     send_buttons data user_id uid page = take 3 (drop (Z.to_nat (page - 1) * 3) rows) /\
     (length (concat (send_buttons data user_id uid page)) <= 12)%nat) /\
  concat ((fun k => send_buttons data user_id uid (Z.of_nat k + 1))
            <$> seq 0 (Z.to_nat pages)) = rows /\
  Z.of_nat (length rows) <= 3 * pages < Z.of_nat (length rows) + 3 /\
  (length bs = 10%nat ->
     pages = 1 /\
     gen_button data user_id uid 1 false = rows /\
     gen_button data user_id uid 1 true
     = (rows ++ [[update_panel_button user_id uid]])%list) /\
  (length bs = 13%nat ->
     pages = 2 /\
     forall update_button : bool,
       last_button data user_id uid 1 update_button
       = ([indicator_button user_id uid 1 2]
          ++ (if update_button then [update_panel_button user_id uid] else [])
          ++ [next_button user_id uid 2])%list /\
       last_button data user_id uid 2 update_button
       = ([previous_button user_id uid 1; indicator_button user_id uid 2 2]
          ++ (if update_button then [update_panel_button user_id uid] else []))%list).
Proof.
  cbn.
  split; [apply buttons_text|].
  split; [apply all_buttons_concat|].
  split; [apply all_buttons_rows|].
  split.
  { intros page Hp. split; [apply send_buttons_window | apply send_buttons_items];
      assumption. }
  split; [apply pages_concat|].
  split; [apply all_page_bounds|].
  split.
  - intros Hn.
    assert (all_page data user_id uid = 1) as Hp
      by (rewrite (all_page_of_buttons data user_id uid 10 Hn); reflexivity).
    split; [exact Hp|].
    rewrite !gen_button_one_page by exact Hp.
    split; [apply app_nil_r | reflexivity].
  - intros Hn.
    assert (all_page data user_id uid = 2) as Hp
      by (rewrite (all_page_of_buttons data user_id uid 13 Hn); reflexivity).
    split; [exact Hp|].
    intros update_button.
    split; [apply last_button_first_of_two | apply last_button_second_of_two];
      exact Hp.
Qed.

Lemma gen_button_rows_and_pages_witness :
  all_page (sample_roster 10) 5 7 = 1 /\
  all_page (sample_roster 13) 5 7 = 2 /\
  (length (concat (send_buttons (sample_roster 13) 5 7 1)) <= 12)%nat.
Proof.
  destruct (gen_button_rows_and_pages (sample_roster 10) 5 7)
    as (_ & _ & _ & _ & _ & _ & Hten & _).
  destruct (gen_button_rows_and_pages (sample_roster 13) 5 7)
    as (_ & _ & _ & Hwin & _ & _ & _ & Hthirteen).
  split; [|split].
  - apply Hten. reflexivity.
  - apply Hthirteen. reflexivity.
  - apply (Hwin 1). lia.
Defined.

(** C5 as stated fails: with the refresh control offered, which is the
    default of [gen_button], ten characters give a keyboard that ends
    with a fourth row. *)
Lemma ten_characters_refresh_row :
  length (buttons (sample_roster 10) 5 7) = 10%nat /\
  last_button (sample_roster 10) 5 7 1 true <> [] /\
  gen_button (sample_roster 10) 5 7 1 true
  = (all_buttons (sample_roster 10) 5 7 ++ [[update_panel_button 5 7]])%list /\
  length (gen_button (sample_roster 10) 5 7 1 true) = 4%nat.
Proof. vm_compute. repeat split; discriminate. Qed.

(** C7, as the code has it. For a profile without any named character
    the selection window is empty at every page; the navigation row
    holds "previous" and the indicator when the page asked for is beyond
    the first, and the refresh control when it is offered; so the
    keyboard is empty exactly when the page is at most 1 and no refresh
    is offered. *)
Theorem gen_button_no_named_character
    (data : EnkaNetworkResponse) (user_id uid page : Z) (update_button : bool) :
  Forall (fun c => name c = "") (default [] (characters data)) ->
  send_buttons data user_id uid page = [] /\
  last_button data user_id uid page update_button
  = ((if 1 <? page
      then [previous_button user_id uid (page - 1); indicator_button user_id uid page 0]
      else [])
     ++ (if update_button then [update_panel_button user_id uid] else []))%list /\
  (gen_button data user_id uid page update_button = []
   <-> page <= 1 /\ update_button = false).
Proof.
  intros Hall. apply (buttons_empty data user_id uid) in Hall.
  split; [apply no_buttons_send; exact Hall|].
  split; [apply no_buttons_last_button; exact Hall|].
  unfold gen_button.
  rewrite no_buttons_send, no_buttons_last_button by exact Hall.
  destruct (Z.ltb_spec 1 page) as [Hlt|Hge], update_button; cbn;
    split; try discriminate; try (intros [? ?]; first [lia | discriminate]);
    intros _; split; first [lia | reflexivity].
Qed.

Lemma gen_button_no_named_character_witness :
  gen_button {| uid := 7; characters := Some [sample_character ""] |} 5 7 1 false = [].
Proof.
  apply (gen_button_no_named_character
           {| uid := 7; characters := Some [sample_character ""] |} 5 7 1 false).
  - cbn. repeat constructor.
  - split; [lia | reflexivity].
Defined.

(** C7 as stated fails: an empty showcase with the refresh control
    offered gives a keyboard of one row, and so does a page beyond the
    first. *)
Lemma no_character_navigation_row :
  gen_button {| uid := 7; characters := Some [] |} 5 7 1 true
  = [[update_panel_button 5 7]] /\
  gen_button {| uid := 7; characters := None |} 5 7 2 false
  = [[previous_button 5 7 1; indicator_button 5 7 2 0]].
Proof. split; reflexivity. Qed.

End PaginationClaims.

(** ** The remote fetch *)

Section FetchFacts.
Import Enka Effects PlayerCards.

Variable w : World.

Lemma update_enka_data_raised (uid : Z) (s s' : Stores) (e : Exn) :
  update_enka_data_body w uid s = (Raise e, s') ->
  _update_enka_data w uid s = handle e s'.
Proof.
  intros Hb. unfold _update_enka_data, try_except, bind. rewrite Hb. reflexivity.
Qed.

Lemma update_enka_data_returned (uid : Z) (s s' : Stores) (r : EnkaNetworkResponse) :
  update_enka_data_body w uid s = (Return r, s') ->
  _update_enka_data w uid s = (Return (inl r), s').
Proof.
  intros Hb. unfold _update_enka_data, try_except, bind. rewrite Hb. reflexivity.
Qed.

Lemma every_class_has_a_clause (c : ExcClass) :
  exists error, (c, error) ∈ except_clauses.
Proof.
  unfold except_clauses.
  destruct c; eexists; repeat first [apply list_elem_of_here | apply list_elem_of_further].
Qed.

Lemma matching_clause_none (e : Exn) :
  matching_clause e = None <-> forall c, exn_isinstance e c = false.
Proof.
  unfold matching_clause. rewrite fmap_None, list_find_None, Forall_forall.
  split.
  - intros Hno c. destruct (every_class_has_a_clause c) as [error Hin].
    specialize (Hno _ Hin). cbn in Hno. destruct (exn_isinstance e c); congruence.
  - intros Hno [c error] _. cbn. rewrite Hno. discriminate.
Qed.

Lemma matching_clause_first (e : Exn) (c : ExcClass) (error : string) :
  matching_clause e = Some (c, error) <->
  exists i, except_clauses !! i = Some (c, error) /\
            exn_isinstance e c = true /\
            forall j c' error', (j < i)%nat ->
              except_clauses !! j = Some (c', error') -> exn_isinstance e c' = false.
Proof.
  unfold matching_clause. rewrite fmap_Some. split.
  - intros [[i cl] [Hf Heq]]. cbn in Heq. subst cl.
    apply list_find_Some in Hf as (Hi & Hc & Hfirst).
    exists i. cbn in *. split; [exact Hi|]. split; [exact Hc|].
    intros j c' error' Hj Hl. specialize (Hfirst _ _ Hl Hj). cbn in Hfirst.
    destruct (exn_isinstance e c'); congruence.
  - intros (i & Hi & Hc & Hfirst). exists (i, (c, error)). split; [|reflexivity].
    apply list_find_Some. split; [exact Hi|]. split; [exact Hc|].
    intros j [c' error'] Hl Hj. cbn. rewrite (Hfirst j c' error' Hj Hl). discriminate.
Qed.

End FetchFacts.

Section FetchClaims.
Import Enka Effects PlayerCards.

(** C2, as the code has it. There are eight clauses, on eight classes,
    with eight different messages. When the fetch raises an exception
    that is an instance of one of the eight classes, the caller gets the
    message of the first clause it matches, in place of a snapshot; a
    message the caller gets is one of the eight; a snapshot the fetch
    produces is returned as it is. An exception that is an instance of
    none of the eight classes goes on to the caller. *)
Theorem fetch_failure_first_matching_clause (w : World) (uid : Z) (s : Stores) :
  length except_clauses = 8%nat /\
  NoDup (fst <$> except_clauses) /\
  NoDup (snd <$> except_clauses) /\
  (forall e s',
      update_enka_data_body w uid s = (Raise e, s') ->
      (exists c, exn_isinstance e c = true) ->
      exists i c error,
        except_clauses !! i = Some (c, error) /\
        exn_isinstance e c = true /\
        (forall j c' error', (j < i)%nat ->
           except_clauses !! j = Some (c', error') -> exn_isinstance e c' = false) /\
        _update_enka_data w uid s = (Return (inr error), s')) /\
  (forall e s',
      update_enka_data_body w uid s = (Raise e, s') ->
      (forall c, exn_isinstance e c = false) ->
      _update_enka_data w uid s = (Raise e, s')) /\
  (forall error s',
      _update_enka_data w uid s = (Return (inr error), s') ->
      error ∈ snd <$> except_clauses) /\
  (forall r s',
      update_enka_data_body w uid s = (Return r, s') ->
      _update_enka_data w uid s = (Return (inl r), s')).
Proof.
  split; [reflexivity|].
  split; [apply (bool_decide_unpack _); vm_compute; reflexivity|].
  split; [apply (bool_decide_unpack _); vm_compute; reflexivity|].
  split; [|split; [|split]].
  - intros e s' Hb [c Hc].
    destruct (matching_clause e) as [[c0 error]|] eqn:Hm.
    + pose proof Hm as Hm'. apply matching_clause_first in Hm' as (i & Hi & Hc0 & Hfirst).
      exists i, c0, error. repeat split; try assumption.
      rewrite (update_enka_data_raised w uid s s' e Hb). unfold handle. rewrite Hm.
      reflexivity.
    + rewrite (proj1 (matching_clause_none e) Hm c) in Hc. discriminate.
  - intros e s' Hb Hno.
    rewrite (update_enka_data_raised w uid s s' e Hb). unfold handle.
    rewrite (proj2 (matching_clause_none e) Hno). reflexivity.
  - intros error s' Hr.
    destruct (update_enka_data_body w uid s) as [[r|e] s0] eqn:Hb.
    + rewrite (update_enka_data_returned w uid s s0 r Hb) in Hr. discriminate.
    + rewrite (update_enka_data_raised w uid s s0 e Hb) in Hr. unfold handle in Hr.
      destruct (matching_clause e) as [[c0 error0]|] eqn:Hm; [|discriminate].
      injection Hr as -> _.
      apply matching_clause_first in Hm as (i & Hi & _).
      apply list_elem_of_fmap. exists (c0, error). split; [reflexivity|].
      apply list_elem_of_lookup. exists i. exact Hi.
  - intros r s'. apply update_enka_data_returned.
Qed.

Lemma fetch_failure_first_matching_clause_witness :
  (exists error,
      error ∈ snd <$> except_clauses /\
      _update_enka_data maintenance_world 7 empty_stores
      = (Return (inr error), (update_enka_data_body maintenance_world 7 empty_stores).2)) /\
  _update_enka_data malformed_body_world 7 empty_stores
  = (Raise ValueError, (update_enka_data_body malformed_body_world 7 empty_stores).2).
Proof.
  destruct (fetch_failure_first_matching_clause maintenance_world 7 empty_stores)
    as (_ & _ & _ & Hcaught & _ & Hmsg & _).
  destruct (fetch_failure_first_matching_clause malformed_body_world 7 empty_stores)
    as (_ & _ & _ & _ & Hother & _).
  split.
  - destruct (Hcaught
                {| exn_name := "EnkaServerMaintanance";
                   exn_isinstance := fun c =>
                     bool_decide (c = EnkaServerMaintanance \/ c = HTTPException) |}
                (update_enka_data_body maintenance_world 7 empty_stores).2)
      as (i & c & error & Hi & Hc & Hfirst & Hr).
    + reflexivity.
    + exists HTTPException. reflexivity.
    + exists error. split; [exact (Hmsg _ _ Hr) | exact Hr].
  - apply Hother; [reflexivity|]. intros c. reflexivity.
Defined.

(** C2 as stated fails: a response body that is not JSON makes
    [jsonlib.loads] raise, no clause names that exception, and the
    caller gets the exception and no message. *)
Lemma malformed_body_raises :
  _update_enka_data malformed_body_world 7 empty_stores
  = (Raise ValueError,
     {| history := ∅; cache := ∅; merges := 0; now := 0; log := [EvRemoteFetch 7] |}) /\
  forall error s',
    _update_enka_data malformed_body_world 7 empty_stores <> (Return (inr error), s').
Proof.
  split; [reflexivity|]. intros error s'. vm_compute. discriminate.
Qed.

End FetchClaims.

Section FetchOrder.
Import Enka Effects PlayerCards Freshness.

Variable w : World.

Ltac no_snapshot_outcome := intros ?; discriminate.

Ltac run_shape :=
  cbn [fst snd];
  first
    [ apply run_untouched; intros ? ?; simplify_eq; eauto 10; fail
    | eapply run_fetched; cbn; first [reflexivity | no_snapshot_outcome]; fail
    | eapply run_history_written; cbn;
      first [reflexivity | no_snapshot_outcome | rewrite <- !app_assoc; reflexivity]; fail
    | eapply run_cache_written; cbn;
      first [reflexivity | rewrite <- !app_assoc; reflexivity
            | intros ? ?; simplify_eq; eauto]; fail ].

Lemma update_enka_data_run (uid : Z) (s : Stores) :
  fetch_run w uid s (_update_enka_data w uid s).1 (_update_enka_data w uid s).2.
Proof.
  unfold _update_enka_data, try_except, update_enka_data_body, bind, handle.
  unfold cache_get, remote_fetch, merge_info, cache_set, emit, lift, fail_if, bind, ret, raise.
  repeat (case_match; simplify_eq/=).
  all: try run_shape.
  apply run_untouched. intros r [= <-].
  exists n, j, z. split; [assumption|]. split; [lia | assumption].
Qed.

Lemma fetch_run_keeps_order (uid : Z) (s s' : Stores)
    (o : Outcome (EnkaNetworkResponse + string)) :
  fetch_run w uid s o s' -> cache_not_newer s -> cache_not_newer s'.
Proof.
  intros Hrun [Hcache Hhist].
  inversion Hrun as [o' Hhit|o' s0 _ Hh Hc Hm _ _|o' s0 data _ Hh Hc Hm _ _
                    |o' s0 data _ Hh Hc Hm _ _]; subst.
  - split; assumption.
  - split.
    + intros u n d ex'. rewrite Hc, Hh. apply Hcache.
    + intros u m d. rewrite Hh, Hm. apply Hhist.
  - split.
    + intros u n d ex'. rewrite Hc, Hh. intros Hu.
      destruct (Hcache u n d ex' Hu) as (m & d' & Hm' & Hle & Heq).
      destruct (decide (uid = u)) as [->|Hne].
      * rewrite lookup_insert_eq. eexists _, _. split; [reflexivity|].
        pose proof (Hhist u m d' Hm'). split; [lia|]. intros ->. lia.
      * rewrite lookup_insert_ne by assumption. eauto.
    + intros u m d. rewrite Hh, Hm.
      destruct (decide (uid = u)) as [->|Hne].
      * rewrite lookup_insert_eq. intros [= <- _]. lia.
      * rewrite lookup_insert_ne by assumption. intros Hu.
        pose proof (Hhist u m d Hu). lia.
  - split.
    + intros u n d ex'. rewrite Hc, Hh.
      destruct (decide (uid = u)) as [->|Hne].
      * rewrite !lookup_insert_eq. intros [= <- <- _].
        eexists _, _. split; [reflexivity|]. split; [lia | reflexivity].
      * rewrite !lookup_insert_ne by assumption. apply Hcache.
    + intros u m d. rewrite Hh, Hm.
      destruct (decide (uid = u)) as [->|Hne].
      * rewrite lookup_insert_eq. intros [= <- _]. lia.
      * rewrite lookup_insert_ne by assumption. intros Hu.
        pose proof (Hhist u m d Hu). lia.
Qed.

(** With a cache miss, no failing store and collaborators that answer,
    the run is the complete one. *)
Lemma update_enka_data_success (uid : Z) (s : Stores)
    (body text : string) (data : Json) (r : EnkaNetworkResponse) :
  (forall n d expires_at,
      cache s !! uid = Some (n, d, expires_at) -> expires_at <= now s) ->
  (forall p, fault w p = None) ->
  fetch_user_by_uid w uid = Return body ->
  decode w body = Return text ->
  loads w text = Return data ->
  parse_obj w (merge w uid (snd <$> history s !! uid) data) = Return r ->
  _update_enka_data w uid s
  = (Return (inl r),
     {| history := <[uid := (S (merges s), merge w uid (snd <$> history s !! uid) data)]>
                     (history s);
        cache := <[uid := (S (merges s), merge w uid (snd <$> history s !! uid) data,
                           now s + 60)]> (cache s);
        merges := S (merges s);
        now := now s;
        log := log s ++ [EvRemoteFetch uid;
                         EvHistoryWrite uid (merge w uid (snd <$> history s !! uid) data);
                         EvCacheWrite uid (merge w uid (snd <$> history s !! uid) data) 60]
     |}).
Proof.
  intros Hmiss Hfault Hfetch Hdecode Hloads Hparse.
  unfold _update_enka_data, try_except, update_enka_data_body, bind.
  unfold cache_get, remote_fetch, merge_info, cache_set, emit, lift, fail_if, bind, ret, raise.
  rewrite !Hfault. cbn.
  assert (match cache s !! uid with
          | Some (n, d, expires_at) => if now s <? expires_at then Some (n, d) else None
          | None => None
          end = None) as ->.
  { destruct (cache s !! uid) as [[[n d] expires_at]|] eqn:Hc; [|reflexivity].
    specialize (Hmiss n d expires_at eq_refl).
    destruct (Z.ltb_spec (now s) expires_at); [lia | reflexivity]. }
  cbn. rewrite Hfetch. cbn. rewrite Hdecode. cbn. rewrite Hloads. cbn.
  rewrite Hparse. cbn. rewrite <- !app_assoc. reflexivity.
Qed.

End FetchOrder.

Section FetchOrderClaim.
Import Enka Effects PlayerCards Freshness.

(** C1. A run of the fetch for a uid has one of four shapes: it writes
    nothing; it calls the service and writes nothing; it calls the
    service and writes the merged snapshot to the history; or it calls
    the service, writes the merged snapshot to the history and then the
    same snapshot to the cache, once, with the expiry of 60 seconds. A
    snapshot is returned after a call to the service only in the last
    shape. With a cache miss, stores that do not fail and collaborators
    that answer, the run has the last shape and returns the merged
    snapshot. Whatever the run, failed between the two writes or not, if
    no cache entry was newer than the history entry of its uid before
    it, none is after it. *)
Theorem fetch_writes_history_then_cache (w : World) (uid : Z) (s : Stores) :
  let o := (_update_enka_data w uid s).1 in
  let s' := (_update_enka_data w uid s).2 in
  ex = 60 /\
  fetch_run w uid s o s' /\
  (cache_not_newer s -> cache_not_newer s') /\
  (forall (body text : string) (data : Json) (r : EnkaNetworkResponse),
      (forall n d expires_at,
          cache s !! uid = Some (n, d, expires_at) -> expires_at <= now s) ->
      (forall p, fault w p = None) ->
      fetch_user_by_uid w uid = Return body ->
      decode w body = Return text ->
      loads w text = Return data ->
      parse_obj w (merge w uid (snd <$> history s !! uid) data) = Return r ->
      let merged := merge w uid (snd <$> history s !! uid) data in
      o = Return (inl r) /\
      log s' = log s ++ [EvRemoteFetch uid; EvHistoryWrite uid merged;
                         EvCacheWrite uid merged 60] /\
      history s' !! uid = Some (S (merges s), merged) /\
      cache s' !! uid = Some (S (merges s), merged, now s + 60)).
Proof.
  cbn zeta. split; [reflexivity|].
  split; [apply update_enka_data_run|].
  split; [apply fetch_run_keeps_order with (w := w) (uid := uid) (o := (_update_enka_data w uid s).1);
          apply update_enka_data_run|].
  intros body text data r Hmiss Hfault Hfetch Hdecode Hloads Hparse.
  rewrite (update_enka_data_success w uid s body text data r) by assumption.
  cbn. rewrite !lookup_insert_eq. repeat split.
Qed.

Lemma fetch_writes_history_then_cache_witness :
  cache_not_newer (_update_enka_data cache_down_world 7 empty_stores).2 /\
  (_update_enka_data sample_world 7 empty_stores).1
  = Return (inl {| uid := 100000007; characters := None |}) /\
  log (_update_enka_data sample_world 7 empty_stores).2
  = [EvRemoteFetch 7; EvHistoryWrite 7 (JObject []); EvCacheWrite 7 (JObject []) 60].
Proof.
  destruct (fetch_writes_history_then_cache cache_down_world 7 empty_stores)
    as (_ & _ & Hkeep & _).
  destruct (fetch_writes_history_then_cache sample_world 7 empty_stores)
    as (_ & _ & _ & Hdone).
  split.
  { apply Hkeep. split; cbn; intros *; rewrite lookup_empty; discriminate. }
  destruct (Hdone "{}" "{}" (JObject []) {| uid := 100000007; characters := None |})
    as (Ho & Hlog & _).
  - intros n d expires_at. cbn. rewrite lookup_empty. discriminate.
  - reflexivity.
  - reflexivity.
  - reflexivity.
  - reflexivity.
  - reflexivity.
  - split; [exact Ho | exact Hlog].
Defined.

End FetchOrderClaim.

(** ** The ownership check of the callbacks *)

Section OwnershipClaim.
Import Enka Effects Pagination PlayerCards.

(** The stores after a run that did nothing but show one notice. *)
Definition noticed (s : Stores) (text : string) : Stores :=
  {| history := history s; cache := cache s; merges := merges s; now := now s;
     log := log s ++ [EvAnswer text true] |}.

(** C6. When the token of the control pressed names the owner [owner]
    and the acting user is another one, [update_player_card] and
    [get_player_cards] answer with the alert "not your button" and do
    nothing else: the stores are as they were, and the trace grows by
    that one answer, so there is no call to the service, no write to
    the history or the cache, no edit or deletion of the message and no
    change of page. *)
Theorem callbacks_reject_other_user
    (w : World) (user owner uid : Z) (callback_query_data : string)
    (tag user_field uid_field : string) (rest : list string) (s : Stores) :
  Py.split "|" callback_query_data = tag :: user_field :: uid_field :: rest ->
  int_of_str w user_field = Return owner ->
  int_of_str w uid_field = Return uid ->
  user <> owner ->
  update_player_card w user callback_query_data s
  = (Return tt, noticed s (not_your_button w)) /\
  (rest <> [] ->
   get_player_cards w user callback_query_data s
   = (Return tt, noticed s (not_your_button w))).
Proof.
  intros Hsplit Howner Huid Hother. split.
  - unfold update_player_card, update_callback, bind, index, lift, ret.
    rewrite Hsplit. cbn. rewrite Howner, Huid. cbn.
    rewrite bool_decide_eq_true_2 by assumption. reflexivity.
  - intros Hrest. destruct rest as [|result rest]; [done|].
    unfold get_player_cards, get_callback, bind, index, lift, ret.
    rewrite Hsplit. cbn. rewrite Howner, Huid. cbn.
    rewrite bool_decide_eq_true_2 by assumption. reflexivity.
Qed.

Lemma callbacks_reject_other_user_witness :
  update_player_card sample_world 5 "update_player_card|6|7" empty_stores
  = (Return tt, noticed empty_stores (not_your_button sample_world)) /\
  get_player_cards sample_world 5 "get_player_card|6|7|2" empty_stores
  = (Return tt, noticed empty_stores (not_your_button sample_world)).
Proof.
  split.
  - apply (callbacks_reject_other_user sample_world 5 6 7 "update_player_card|6|7"
             "update_player_card" "6" "7" [] empty_stores);
      [reflexivity | reflexivity | reflexivity | lia].
  - apply (callbacks_reject_other_user sample_world 5 6 7 "get_player_card|6|7|2"
             "get_player_card" "6" "7" ["2"] empty_stores);
      [reflexivity | reflexivity | reflexivity | lia | discriminate].
Defined.

End OwnershipClaim.

(** ** The wiki cache *)

Section WikiCacheClaim.
Import Effects WikiCache.

(** C9, where the code departs from it: [get] answers the miss [[]] for
    an absent key, for a failing client and for a stored text that does
    not decode; but when the stored text decodes to a non-empty list,
    the items are decoded outside the [try], and the first item that is
    no string, or a string that does not decode, makes [get] raise.
    [set] of the list [[1]] followed by [get] of the same key raises
    [TypeError]. *)
Theorem wiki_get_raises_on_item
    (loads : string -> Outcome Json) (dumps : Json -> string)
    (key : string) (redis : gmap string string) :
  (redis !! qname key = None ->
   get loads None key redis = (Return (JList []), redis)) /\
  (forall e, get loads (Some e) key redis = (Return (JList []), redis)) /\
  (forall text e,
      redis !! qname key = Some text -> loads text = Raise e ->
      get loads None key redis = (Return (JList []), redis)) /\
  (forall text item items e,
      redis !! qname key = Some text ->
      loads text = Return (JList (item :: items)) ->
      (loads_item loads item redis).1 = Raise e ->
      get loads None key redis = (Raise e, redis)) /\
  get sample_loads None key (set sample_dumps None key (ListValue [JNumber 1]) redis).2
  = (Raise TypeError, <[qname key := "[1]"]> redis).
Proof.
  repeat split.
  - intros Hnone. unfold get, try_except, bind, client_get, fail_if, ret, bind.
    cbn. rewrite Hnone. reflexivity.
  - intros text e Hsome Hraise.
    unfold get, try_except, bind, client_get, fail_if, ret, bind.
    cbn. rewrite Hsome. cbn. unfold lift. rewrite Hraise. reflexivity.
  - intros text item items e Hsome Hlist Hitem.
    unfold get, try_except, bind, client_get, fail_if, ret, bind.
    cbn. rewrite Hsome. cbn. unfold lift. rewrite Hlist. cbn.
    unfold bind. destruct (loads_item loads item redis) as [o r] eqn:Hi.
    cbn in Hitem. subst o.
    assert (r = redis) as ->; [|reflexivity].
    destruct item; cbn in Hi; unfold raise, lift in Hi; congruence.
  - unfold get, set, client_set, try_except, bind, client_get, fail_if, ret, bind.
    cbn. rewrite lookup_insert_eq. reflexivity.
Qed.

Lemma wiki_get_raises_on_item_witness :
  get sample_loads None "k" {[ "wiki:k" := "[1]" ]}
  = (Raise TypeError, {[ "wiki:k" := "[1]" ]}).
Proof.
  destruct (wiki_get_raises_on_item sample_loads sample_dumps "k" {[ "wiki:k" := "[1]" ]})
    as (_ & _ & _ & Hitem & _).
  apply (Hitem "[1]" (JNumber 1) [] TypeError); reflexivity.
Defined.

End WikiCacheClaim.

(** ** Rendering leaves the objects it was given alone *)

Section RenderFacts.
Import Enka Effects Render.

(** [h] holds every object of [h0], unchanged. *)
Definition kept (h0 h : gmap loc Obj) : Prop :=
  forall l, is_Some (h0 !! l) -> h !! l = h0 !! l.

(** The state of a deep copy started from [h0]: nothing of [h0] was
    touched, and every copy made so far is outside [h0]. *)
Definition copy_ok (h0 : gmap loc Obj) (st : gmap loc loc * gmap loc Obj) : Prop :=
  kept h0 st.2 /\ forall l l', st.1 !! l = Some l' -> h0 !! l' = None.

Definition preserves {S A} (P : S -> Prop) (c : M S A) : Prop :=
  forall s, P s -> P (c s).2.

Lemma preserves_bind {S A B} (P : S -> Prop) (c : M S A) (k : A -> M S B) :
  preserves P c -> (forall a, preserves P (k a)) -> preserves P (bind c k).
Proof.
  intros Hc Hk s Hs. unfold bind. specialize (Hc s Hs).
  destruct (c s) as [[a|e] s']; cbn in *; [apply Hk|]; assumption.
Qed.

Lemma preserves_ret {S A} (P : S -> Prop) (a : A) : preserves P (ret a).
Proof. intros s Hs. exact Hs. Qed.

Lemma preserves_for_each {S A} (P : S -> Prop) (body : A -> M S unit) (l : list A) :
  Forall (fun x => preserves P (body x)) l -> preserves P (for_each body l).
Proof.
  induction 1 as [|x l Hx _ IH]; cbn [for_each].
  - apply preserves_ret.
  - apply preserves_bind; [exact Hx | intros _; exact IH].
Qed.

Lemma kept_refl (h : gmap loc Obj) : kept h h.
Proof. intros l _. reflexivity. Qed.

Lemma kept_outside (h0 h : gmap loc Obj) (l : loc) :
  kept h0 h -> h !! l = None -> h0 !! l = None.
Proof.
  intros Hk Hl. destruct (h0 !! l) as [o|] eqn:H0; [|reflexivity].
  rewrite (Hk l) in Hl by (rewrite H0; eauto). congruence.
Qed.

Lemma kept_insert (h0 h : gmap loc Obj) (l : loc) (o : Obj) :
  kept h0 h -> h0 !! l = None -> kept h0 (<[l := o]> h).
Proof.
  intros Hk Hl l0 Hsome. rewrite lookup_insert_ne; [apply Hk, Hsome|].
  intros ->. rewrite Hl in Hsome. destruct Hsome; discriminate.
Qed.

Lemma copy_obj_ok (h0 : gmap loc Obj) (st : gmap loc loc * gmap loc Obj) (l : loc) :
  copy_ok h0 st ->
  copy_ok h0 (copy_obj st l).1 /\ h0 !! (copy_obj st l).2 = None.
Proof.
  intros [Hk Hmemo]. unfold copy_obj.
  destruct (st.1 !! l) as [l'|] eqn:Hm; cbn.
  - split; [split; assumption | eapply Hmemo; eassumption].
  - destruct (st.2 !! l) as [o|] eqn:Hl; cbn.
    + assert (h0 !! fresh (dom st.2) = None) as Hfresh.
      { apply (kept_outside h0 st.2); [assumption|].
        apply not_elem_of_dom, is_fresh. }
      split; [|exact Hfresh]. split; cbn.
      * apply kept_insert; assumption.
      * intros l1 l1'. destruct (decide (l = l1)) as [->|Hne].
        -- rewrite lookup_insert_eq. intros [= <-]. exact Hfresh.
        -- rewrite lookup_insert_ne by assumption. apply Hmemo.
    + split; [split; assumption|]. apply (kept_outside h0 st.2); assumption.
Qed.

Lemma copy_objs_ok (h0 : gmap loc Obj) (ls : list loc) (st : gmap loc loc * gmap loc Obj) :
  copy_ok h0 st ->
  copy_ok h0 (copy_objs st ls).1 /\
  Forall (fun l' => h0 !! l' = None) (copy_objs st ls).2.
Proof.
  revert st. induction ls as [|l ls IH]; intros st Hst; cbn.
  - split; [assumption | constructor].
  - destruct (copy_obj_ok h0 st l Hst) as [Hst' Hl].
    destruct (IH _ Hst') as [Hst'' Hls].
    split; [assumption | constructor; assumption].
Qed.

Lemma copy_equipments_ok (h0 : gmap loc Obj) (es : list Equipments)
    (st : gmap loc loc * gmap loc Obj) :
  copy_ok h0 st ->
  copy_ok h0 (copy_equipments st es).1 /\
  Forall (fun e => h0 !! detail_icon e = None) (copy_equipments st es).2.
Proof.
  revert st. induction es as [|e es IH]; intros st Hst; cbn.
  - split; [assumption | constructor].
  - destruct (copy_obj_ok h0 st (detail_icon e) Hst) as [Hst' Hl].
    destruct (IH _ Hst') as [Hst'' Hes].
    split; [assumption | constructor; assumption].
Qed.

(** The clone of a character is made of objects outside the heap it was
    cloned in. *)
Lemma copy_character_outside (h : gmap loc Obj) (c : CharacterInfo) :
  exists c',
    (copy_character c h).1 = Return c' /\
    kept h (copy_character c h).2 /\
    h !! image_banner c' = None /\
    Forall (fun l => h !! l = None) (skills c') /\
    Forall (fun l => h !! l = None) (constellations c') /\
    Forall (fun e => h !! detail_icon e = None) (equipments c').
Proof.
  unfold copy_character. eexists. split; [reflexivity|]. cbn.
  assert (copy_ok h (∅, h)) as H0.
  { split; [apply kept_refl|]. intros l l'. cbn. rewrite lookup_empty. discriminate. }
  destruct (copy_obj_ok h _ (image_banner c) H0) as [H1 Hb].
  destruct (copy_objs_ok h (skills c) _ H1) as [H2 Hs].
  destruct (copy_objs_ok h (constellations c) _ H2) as [H3 Hk].
  destruct (copy_equipments_ok h (equipments c) _ H3) as [H4 He].
  destruct H4 as [H4 _]. repeat split; assumption.
Qed.

Lemma copy_user_stats_outside (h : gmap loc Obj) (u : GenshinUserStats) :
  exists u',
    (copy_user_stats u h).1 = Return u' /\
    kept h (copy_user_stats u h).2 /\
    Forall (fun l => h !! l = None) (explorations u').
Proof.
  unfold copy_user_stats. eexists. split; [reflexivity|]. cbn.
  assert (copy_ok h (∅, h)) as H0.
  { split; [apply kept_refl|]. intros l l'. cbn. rewrite lookup_empty. discriminate. }
  destruct (copy_objs_ok h (explorations u) _ H0) as [[H1 _] Hx].
  split; assumption.
Qed.

Section Mirror.
Variable download_resource : string -> Outcome string.
Variable h0 : gmap loc Obj.

Lemma mirror_url_kept (l : loc) :
  h0 !! l = None -> preserves (kept h0) (mirror_url download_resource l).
Proof.
  intros Hl h Hk. unfold mirror_url.
  destruct (h !! l) as [[url|icon cover]|]; cbn; try assumption.
  destruct (download_resource url); cbn; [apply kept_insert|]; assumption.
Qed.

Lemma mirror_exploration_kept (l : loc) :
  h0 !! l = None -> preserves (kept h0) (mirror_exploration download_resource l).
Proof.
  intros Hl. unfold mirror_exploration.
  apply preserves_bind; [|intros _]; intros h Hk;
    (destruct (h !! l) as [[url|icon cover]|]; cbn; try assumption;
     match goal with |- context [download_resource ?u] =>
       destruct (download_resource u) end; cbn; [apply kept_insert|]; assumption).
Qed.

Lemma cache_images_kept (c : CharacterInfo) :
  h0 !! image_banner c = None ->
  Forall (fun l => h0 !! l = None) (skills c) ->
  Forall (fun l => h0 !! l = None) (constellations c) ->
  Forall (fun e => h0 !! detail_icon e = None) (equipments c) ->
  preserves (kept h0) (cache_images download_resource c).
Proof.
  intros Hb Hs Hk He. unfold cache_images.
  apply preserves_bind; [apply mirror_url_kept, Hb | intros _].
  apply preserves_bind; [|intros _].
  { apply preserves_for_each. eapply Forall_impl; [exact Hs|].
    intros l. apply mirror_url_kept. }
  apply preserves_bind; [|intros _].
  { apply preserves_for_each. eapply Forall_impl; [exact Hk|].
    intros l. apply mirror_url_kept. }
  apply preserves_for_each. eapply Forall_impl; [exact He|].
  intros e. apply mirror_url_kept.
Qed.

End Mirror.

Lemma render_character_kept (download_resource : string -> Outcome string)
    (theory : string -> EquipmentsStats -> Q) (uid : Z) (c : CharacterInfo)
    (h : gmap loc Obj) :
  kept h (render_character download_resource theory uid c h).2.
Proof.
  destruct (copy_character_outside h c) as (c' & Hc & Hk & Hb & Hs & Hco & He).
  unfold render_character, RenderTemplate_init, bind, ret.
  destruct (copy_character c h) as [o h1]. cbn in Hc, Hk. subst o. cbn.
  unfold render.
  apply (preserves_bind (kept h)); [|intros _; apply preserves_ret|exact Hk].
  apply cache_images_kept; assumption.
Qed.

Lemma stats_render_kept (download_resource : string -> Outcome string)
    (u : GenshinUserStats) (h : gmap loc Obj) :
  kept h (stats_render download_resource u h).2.
Proof.
  destruct (copy_user_stats_outside h u) as (u' & Hu & Hk & Hx).
  unfold stats_render. unfold bind at 1.
  destruct (copy_user_stats u h) as [o h1]. cbn in Hu, Hk. subst o.
  apply (preserves_bind (kept h)); [|intros _; apply preserves_ret|exact Hk].
  unfold stats_cache_images. apply preserves_for_each.
  eapply Forall_impl; [exact Hx|]. intros l. apply mirror_exploration_kept.
Qed.

Lemma kept_fmap_lookup {A} (h0 h : gmap loc Obj) (f : A -> loc) (xs : list A) :
  kept h0 h ->
  Forall (fun o : option Obj => is_Some o) ((fun x => h0 !! f x) <$> xs) ->
  (fun x => h !! f x) <$> xs = (fun x => h0 !! f x) <$> xs.
Proof.
  intros Hk. induction xs as [|x xs IH]; [reflexivity|].
  rewrite !fmap_cons. intros Hall. inversion Hall as [|? ? Hx Hxs]; subst.
  rewrite (Hk (f x) Hx), IH by assumption. reflexivity.
Qed.

End RenderFacts.

Section RenderClaim.
Import Enka Effects Render.

(** C10. A render of a character clones it and mirrors the images of
    the clone: whatever the downloads do, every object the heap held
    before the render is the same after it, so the banner, skill,
    constellation and equipment images of the character handed in read
    as before. The stats render does the same with the user statistics
    it was handed. The clone is what changes: in the sample run its
    banner holds the local path. *)
Theorem render_keeps_original
    (download_resource : string -> Outcome string)
    (theory : string -> EquipmentsStats -> Q)
    (uid : Z) (character : CharacterInfo) (user_info : GenshinUserStats)
    (h : gmap loc Obj) :
  let h1 := (render_character download_resource theory uid character h).2 in
  let h2 := (stats_render download_resource user_info h).2 in
  (forall l, is_Some (h !! l) -> h1 !! l = h !! l) /\
  (Forall (fun o : option Obj => is_Some o) (character_images h character) ->
   character_images h1 character = character_images h character) /\
  (forall l, is_Some (h !! l) -> h2 !! l = h !! l) /\
  (Forall (fun o : option Obj => is_Some o) (stats_images h user_info) ->
   stats_images h2 user_info = stats_images h user_info) /\
  (exists c' scores,
      render_character sample_download theory uid sample_character sample_heap
      = (Return (c', scores),
         (render_character sample_download theory uid sample_character sample_heap).2) /\
      (render_character sample_download theory uid sample_character sample_heap).2
        !! image_banner c'
      = Some (Icon "file:///cache/https://enka.network/ui/banner.png")).
Proof.
  cbn zeta.
  pose proof (render_character_kept download_resource theory uid character h) as Hk1.
  pose proof (stats_render_kept download_resource user_info h) as Hk2.
  split; [exact Hk1|]. split; [|split; [exact Hk2|split]].
  - unfold character_images. intros Hall.
    apply Forall_cons in Hall as [Hb Hall].
    apply Forall_app in Hall as [Hs Hall].
    apply Forall_app in Hall as [Hc He].
    rewrite (Hk1 _ Hb).
    rewrite (kept_fmap_lookup h _ (fun l => l) (skills character) Hk1 Hs).
    rewrite (kept_fmap_lookup h _ (fun l => l) (constellations character) Hk1 Hc).
    rewrite (kept_fmap_lookup h _ detail_icon (equipments character) Hk1 He).
    reflexivity.
  - unfold stats_images. intros Hall.
    apply (kept_fmap_lookup h _ (fun l => l) (explorations user_info) Hk2 Hall).
  - eexists _, _. split; vm_compute; reflexivity.
Qed.

Lemma render_keeps_original_witness :
  character_images
    (render_character sample_download (fun _ _ => 0%Q) 7 sample_character sample_heap).2
    sample_character
  = character_images sample_heap sample_character /\
  stats_images
    (stats_render sample_download {| explorations := [4%positive] |} sample_heap).2
    {| explorations := [4%positive] |}
  = stats_images sample_heap {| explorations := [4%positive] |}.
Proof.
  destruct (render_keeps_original sample_download (fun _ _ => 0%Q) 7 sample_character
              {| explorations := [4%positive] |} sample_heap)
    as (_ & Hc & _ & Hu & _).
  split.
  - apply Hc. vm_compute. repeat constructor; eexists; reflexivity.
  - apply Hu. vm_compute. repeat constructor; eexists; reflexivity.
Defined.

End RenderClaim.

(** * Further properties *)

(** ** The wiki cache: round trips, deletion, keys *)

Section WikiCacheFacts.
Import Effects WikiCache.

Variable loads : string -> Outcome Json.
Variable dumps : Json -> string.

Lemma qname_inj (key key' : string) : qname key = qname key' -> key = key'.
Proof. unfold qname. cbn. intros [= H]. exact H. Qed.

Lemma get_stored (key text : string) (redis : gmap string string) :
  redis !! qname key = Some text ->
  get loads None key redis
  = match loads text with
    | Return (JList (item :: items)) =>
        match (loads_items loads (item :: items) redis).1 with
        | Return decoded => (Return (JList decoded), (loads_items loads (item :: items) redis).2)
        | Raise e => (Raise e, (loads_items loads (item :: items) redis).2)
        end
    | Return j => (Return j, redis)
    | Raise _ => (Return (JList []), redis)
    end.
Proof.
  intros Hs. unfold get, try_except, bind at 1 2, client_get, fail_if, ret, bind.
  cbn -[loads_items]. rewrite Hs. cbn -[loads_items]. unfold lift.
  destruct (loads text) as [j|e]; [|reflexivity].
  destruct j as [| | | |[|item items]|]; try reflexivity.
  destruct (loads_items loads (item :: items) redis) as [[d|e] r]; reflexivity.
Qed.

Lemma loads_items_state (items : list Json) (redis : gmap string string) :
  (loads_items loads items redis).2 = redis.
Proof.
  induction items as [|item items IH]; [reflexivity|].
  cbn [loads_items]. unfold bind at 1.
  assert ((loads_item loads item redis).2 = redis) as Hi
    by (destruct item; reflexivity).
  destruct (loads_item loads item redis) as [[x|e] r]; cbn in Hi; subst r; [|reflexivity].
  unfold bind at 1.
  destruct (loads_items loads items redis) as [[xs|e] r]; cbn in IH; subst r; reflexivity.
Qed.

Lemma loads_items_strings (texts : list string) (decoded : list Json)
    (redis : gmap string string) :
  Forall2 (fun text j => loads text = Return j) texts decoded ->
  loads_items loads (JString <$> texts) redis = (Return decoded, redis).
Proof.
  induction 1 as [|text j texts decoded Hj _ IH]; [reflexivity|].
  rewrite fmap_cons. cbn [loads_items loads_item]. unfold bind at 1, lift.
  rewrite Hj. unfold bind at 1. rewrite IH. reflexivity.
Qed.

Lemma loads_items_outcome (items : list Json) (a b : gmap string string) :
  (loads_items loads items a).1 = (loads_items loads items b).1.
Proof.
  induction items as [|item items IH]; [reflexivity|].
  cbn [loads_items]. unfold bind at 1 3.
  assert ((loads_item loads item a).1 = (loads_item loads item b).1
          /\ (loads_item loads item a).2 = a /\ (loads_item loads item b).2 = b)
    as (H1 & H2 & H3) by (destruct item; repeat split; reflexivity).
  destruct (loads_item loads item a) as [oa ra], (loads_item loads item b) as [ob rb].
  cbn in H1, H2, H3. subst. destruct ob as [x|e]; [|reflexivity].
  unfold bind.
  pose proof (loads_items_state items a) as Ha.
  pose proof (loads_items_state items b) as Hb.
  destruct (loads_items loads items a) as [oa ra],
           (loads_items loads items b) as [ob rb].
  cbn in IH, Ha, Hb. subst. destruct ob; reflexivity.
Qed.

Lemma get_absent (key : string) (redis : gmap string string) :
  redis !! qname key = None ->
  get loads None key redis = (Return (JList []), redis).
Proof.
  intros Hn. unfold get, try_except, bind at 1 2, client_get, fail_if, ret, bind.
  cbn. rewrite Hn. reflexivity.
Qed.

Lemma get_client_fault (e : Exn) (key : string) (redis : gmap string string) :
  get loads (Some e) key redis = (Return (JList []), redis).
Proof. reflexivity. Qed.

(** What [get] answers is decided by the text stored under the key. *)
Lemma get_same_text (fault : option Exn) (key : string) (r r' : gmap string string) :
  r' !! qname key = r !! qname key ->
  (get loads fault key r').1 = (get loads fault key r).1.
Proof.
  intros Hl. destruct fault as [e|]; [rewrite !get_client_fault; reflexivity|].
  destruct (r !! qname key) as [text|] eqn:Hr.
  - rewrite (get_stored key text r') by assumption.
    rewrite (get_stored key text r) by assumption.
    destruct (loads text) as [j|e]; [|reflexivity].
    destruct j as [| | | |[|item items]|]; try reflexivity.
    rewrite (loads_items_outcome (item :: items) r' r).
    destruct (loads_items loads (item :: items) r).1; reflexivity.
  - rewrite !get_absent by assumption. reflexivity.
Qed.

Lemma get_read_only (fault : option Exn) (key : string) (redis : gmap string string) :
  (get loads fault key redis).2 = redis.
Proof.
  destruct fault as [e|]; [reflexivity|].
  destruct (redis !! qname key) as [text|] eqn:Hr.
  - rewrite (get_stored key text redis) by assumption.
    destruct (loads text) as [j|e]; [|reflexivity].
    destruct j as [| | | |[|item items]|]; try reflexivity.
    pose proof (loads_items_state (item :: items) redis) as Hs.
    destruct (loads_items loads (item :: items) redis).1; exact Hs.
  - rewrite get_absent by assumption. reflexivity.
Qed.

End WikiCacheFacts.

Section WikiCacheExtras.
Import Effects WikiCache.

(** X1. A list of JSON texts that is [set] and then read with [get]
    comes back as the list of the decoded items: the list is stored as
    one text, decoded, and each of its strings decoded in turn. *)
Theorem wiki_set_get_list
    (loads : string -> Outcome Json) (dumps : Json -> string)
    (key : string) (texts : list string) (decoded : list Json)
    (redis : gmap string string) :
  loads (dumps (JList (JString <$> texts))) = Return (JList (JString <$> texts)) ->
  Forall2 (fun text j => loads text = Return j) texts decoded ->
  get loads None key (set dumps None key (ListValue (JString <$> texts)) redis).2
  = (Return (JList decoded),
     <[qname key := dumps (JList (JString <$> texts))]> redis).
Proof.
  intros Hlist Hitems.
  unfold set, client_set, fail_if, bind, ret. cbn [snd].
  rewrite (get_stored loads key (dumps (JList (JString <$> texts))))
    by apply lookup_insert_eq.
  rewrite Hlist.
  destruct texts as [|text texts].
  - inversion Hitems; subst. reflexivity.
  - rewrite fmap_cons. rewrite <- fmap_cons.
    rewrite (loads_items_strings loads (text :: texts) decoded) by assumption.
    reflexivity.
Qed.

Lemma wiki_set_get_list_witness :
  get strings_loads None "weapon"
    (set strings_dumps None "weapon" (ListValue [JString "1"; JString "null"]) ∅).2
  = (Return (JList [JNumber 1; JNull]), {[ "wiki:weapon" := two_strings_text ]}).
Proof.
  apply (wiki_set_get_list strings_loads strings_dumps "weapon" ["1"; "null"]
           [JNumber 1; JNull] ∅).
  - reflexivity.
  - repeat constructor.
Defined.

(** X2. A dictionary that is [set] and then read with [get] comes
    back as it was, decoded once; and so does the JSON text of a model,
    as long as it does not decode to a non-empty list: only the items
    of a non-empty list are decoded a second time. *)
Theorem wiki_set_get_value
    (loads : string -> Outcome Json) (dumps : Json -> string)
    (key : string) (redis : gmap string string) :
  (forall fields,
      loads (dumps (JObject fields)) = Return (JObject fields) ->
      get loads None key (set dumps None key (DictValue fields) redis).2
      = (Return (JObject fields), <[qname key := dumps (JObject fields)]> redis)) /\
  (forall text j,
      loads text = Return j ->
      (forall item items, j <> JList (item :: items)) ->
      get loads None key (set dumps None key (ModelValue text) redis).2
      = (Return j, <[qname key := text]> redis)).
Proof.
  split.
  - intros fields Hj.
    unfold set, client_set, fail_if, bind, ret. cbn [snd].
    rewrite (get_stored loads key (dumps (JObject fields))) by apply lookup_insert_eq.
    rewrite Hj. reflexivity.
  - intros text j Hj Hshape.
    unfold set, client_set, fail_if, bind, ret. cbn [snd].
    rewrite (get_stored loads key text) by apply lookup_insert_eq.
    rewrite Hj. destruct j as [| | | |[|item items]|]; try reflexivity.
    destruct (Hshape item items eq_refl).
Qed.

Lemma wiki_set_get_value_witness :
  get strings_loads None "k" (set strings_dumps None "k" (DictValue []) ∅).2
  = (Return (JObject []), {[ "wiki:k" := "{}" ]}).
Proof.
  destruct (wiki_set_get_value strings_loads strings_dumps "k" ∅) as [Hdict _].
  apply (Hdict []). reflexivity.
Defined.

(** X3. After [delete], [get] of the key answers the miss [[]], whatever
    was stored and whatever the decoder does; and [get] never changes
    the store. *)
Theorem wiki_delete_then_miss
    (loads : string -> Outcome Json) (fault : option Exn)
    (key : string) (redis : gmap string string) :
  get loads None key (delete None key redis).2
  = (Return (JList []), base.delete (qname key) redis) /\
  (get loads fault key redis).2 = redis.
Proof.
  split.
  - unfold delete, client_delete, fail_if, bind, ret. cbn [snd].
    unfold get, try_except, bind at 1 2, client_get, fail_if, ret, bind. cbn.
    rewrite lookup_delete_eq. reflexivity.
  - apply get_read_only.
Qed.

(** X4. Keys do not interfere: what [get] answers for a key is not
    changed by a [set] or a [delete] of another key. *)
Theorem wiki_other_key_untouched
    (loads : string -> Outcome Json) (dumps : Json -> string) (fault : option Exn)
    (key key' : string) (value : CacheValue) (redis : gmap string string) :
  key <> key' ->
  (get loads fault key' (set dumps None key value redis).2).1
  = (get loads fault key' redis).1 /\
  (get loads fault key' (delete None key redis).2).1
  = (get loads fault key' redis).1.
Proof.
  intros Hne.
  assert (qname key <> qname key') as Hq by (intros H; apply Hne, qname_inj, H).
  pose proof (fun r r' => get_same_text loads fault key' r r') as Hsame.
  split; apply Hsame.
  - unfold set, client_set, fail_if, bind, ret. cbn [snd].
    apply lookup_insert_ne, Hq.
  - unfold delete, client_delete, fail_if, bind, ret. cbn [snd].
    apply lookup_delete_ne, Hq.
Qed.

Lemma wiki_other_key_untouched_witness :
  (get strings_loads None "b" (set strings_dumps None "a" (DictValue []) ∅).2).1
  = (get strings_loads None "b" ∅).1.
Proof.
  apply (wiki_other_key_untouched strings_loads strings_dumps None "a" "b"
           (DictValue []) ∅).
  discriminate.
Defined.

End WikiCacheExtras.

(** ** The fetch: cache hits, expiry, other profiles *)

Section FetchMoreFacts.
Import Enka Effects PlayerCards Freshness Timing.

Variable w : World.

Lemma update_enka_data_hit (uid : Z) (s : Stores) (n : nat) (data : Json)
    (expires_at : Z) :
  fault w AtCacheGet = None ->
  cache s !! uid = Some (n, data, expires_at) ->
  now s < expires_at ->
  _update_enka_data w uid s
  = match parse_obj w data with
    | Return r => (Return (inl r), s)
    | Raise e => handle e s
    end.
Proof.
  intros Hf Hc Hlive.
  unfold _update_enka_data, try_except, update_enka_data_body, bind at 1 2.
  unfold cache_get, fail_if, bind, ret. rewrite Hf, Hc.
  destruct (Z.ltb_spec (now s) expires_at) as [_|?]; [|lia].
  cbn. unfold lift. destruct (parse_obj w data); reflexivity.
Qed.

Lemma handle_state (e : Exn) (s : Stores) : (handle e s).2 = s.
Proof. unfold handle. destruct (matching_clause e) as [[c m]|]; reflexivity. Qed.

Lemma load_history_stored (uid : Z) (s : Stores) (n : nat) (data : Json) :
  fault w AtHistoryLoad = None ->
  history s !! uid = Some (n, data) ->
  _load_history w uid s
  = match parse_obj w data with
    | Return r => (Return (Some r), s)
    | Raise e => (Raise e, s)
    end.
Proof.
  intros Hf Hh. unfold _load_history, load_history_info, fail_if, bind, ret, lift.
  rewrite Hf, Hh. cbn. destruct (parse_obj w data); reflexivity.
Qed.

Lemma load_history_missing (uid : Z) (s : Stores) :
  fault w AtHistoryLoad = None ->
  history s !! uid = None ->
  _load_history w uid s = (Return None, s).
Proof.
  intros Hf Hh. unfold _load_history, load_history_info, fail_if, bind, ret, lift.
  rewrite Hf, Hh. reflexivity.
Qed.

Lemma fetch_run_frame (uid other : Z) (s s' : Stores)
    (o : Outcome (EnkaNetworkResponse + string)) :
  fetch_run w uid s o s' ->
  other <> uid ->
  history s' !! other = history s !! other /\
  cache s' !! other = cache s !! other /\
  now s' = now s /\
  exists events, log s' = log s ++ events.
Proof.
  intros Hrun Hne.
  destruct Hrun as [o Hhit|o s' _ Hh Hc Hm Hn Hl
                   |o s' d _ Hh Hc Hm Hn Hl|o s' d _ Hh Hc Hm Hn Hl].
  - split; [reflexivity|]. split; [reflexivity|]. split; [reflexivity|].
    exists []. rewrite app_nil_r. reflexivity.
  - rewrite Hh, Hc. eauto.
  - rewrite Hh, Hc, lookup_insert_ne by congruence. eauto.
  - rewrite Hh, Hc, !lookup_insert_ne by congruence. eauto 6.
Qed.

End FetchMoreFacts.

Section FetchExtras.
Import Enka Effects PlayerCards Freshness Timing.

(** X5. A fetch for a uid whose cache entry has not expired makes no
    call to the service and writes nothing: the stores and the trace
    are as before, and the answer is the cached snapshot, parsed. *)
Theorem fetch_cache_hit_is_pure
    (w : World) (uid : Z) (s : Stores) (n : nat) (data : Json) (expires_at : Z)
    (r : EnkaNetworkResponse) :
  fault w AtCacheGet = None ->
  cache s !! uid = Some (n, data, expires_at) ->
  now s < expires_at ->
  parse_obj w data = Return r ->
  _update_enka_data w uid s = (Return (inl r), s).
Proof.
  intros Hf Hc Hlive Hp.
  rewrite (update_enka_data_hit w uid s n data expires_at) by assumption.
  rewrite Hp. reflexivity.
Qed.

Lemma fetch_cache_hit_is_pure_witness :
  _update_enka_data sample_world 7 cached_stores
  = (Return (inl {| uid := 100000007; characters := None |}), cached_stores).
Proof.
  apply (fetch_cache_hit_is_pure sample_world 7 cached_stores 1%nat (JObject []) 60);
    [reflexivity | reflexivity | cbn; lia | reflexivity].
Defined.

(** X6. After a fetch that reached the service and succeeded, a second
    fetch for the same uid less than 60 seconds later is a cache hit: it
    returns the same snapshot, calls nothing and writes nothing; and
    loading the history then gives that snapshot too. *)
Theorem fetch_twice_within_ttl
    (w : World) (uid : Z) (s : Stores) (body text : string) (data : Json)
    (r : EnkaNetworkResponse) (dt : Z) :
  (forall n d expires_at,
      cache s !! uid = Some (n, d, expires_at) -> expires_at <= now s) ->
  (forall p, fault w p = None) ->
  fetch_user_by_uid w uid = Return body ->
  decode w body = Return text ->
  loads w text = Return data ->
  parse_obj w (merge w uid (snd <$> history s !! uid) data) = Return r ->
  0 <= dt < 60 ->
  let s1 := advance dt (_update_enka_data w uid s).2 in
  (_update_enka_data w uid s).1 = Return (inl r) /\
  _update_enka_data w uid s1 = (Return (inl r), s1) /\
  _load_history w uid s1 = (Return (Some r), s1).
Proof.
  intros Hmiss Hfault Hfetch Hdecode Hloads Hparse Hdt.
  rewrite (update_enka_data_success w uid s body text data r) by assumption.
  cbn zeta. cbn [fst snd]. split; [reflexivity|]. split.
  - eapply fetch_cache_hit_is_pure.
    + apply Hfault.
    + cbn. apply lookup_insert_eq.
    + cbn. lia.
    + exact Hparse.
  - erewrite load_history_stored.
    + rewrite Hparse. reflexivity.
    + apply Hfault.
    + cbn. apply lookup_insert_eq.
Qed.

Lemma fetch_twice_within_ttl_witness :
  _update_enka_data sample_world 7
    (advance 59 (_update_enka_data sample_world 7 empty_stores).2)
  = (Return (inl {| uid := 100000007; characters := None |}),
     advance 59 (_update_enka_data sample_world 7 empty_stores).2).
Proof.
  apply (fetch_twice_within_ttl sample_world 7 empty_stores "{}" "{}" (JObject [])
           {| uid := 100000007; characters := None |} 59).
  - intros n d expires_at. cbn. rewrite lookup_empty. discriminate.
  - reflexivity.
  - reflexivity.
  - reflexivity.
  - reflexivity.
  - reflexivity.
  - lia.
Defined.

(** X7. Once the 60 seconds are over the entry counts as absent: the
    next fetch calls the service again, merges the new payload into the
    snapshot the history holds, and writes history and cache anew. *)
Theorem fetch_again_after_expiry
    (w : World) (uid : Z) (s : Stores) (body text : string) (data : Json)
    (r r' : EnkaNetworkResponse) (dt : Z) :
  (forall n d expires_at,
      cache s !! uid = Some (n, d, expires_at) -> expires_at <= now s) ->
  (forall p, fault w p = None) ->
  fetch_user_by_uid w uid = Return body ->
  decode w body = Return text ->
  loads w text = Return data ->
  parse_obj w (merge w uid (snd <$> history s !! uid) data) = Return r ->
  parse_obj w (merge w uid (Some (merge w uid (snd <$> history s !! uid) data)) data)
  = Return r' ->
  60 <= dt ->
  let s1 := advance dt (_update_enka_data w uid s).2 in
  let s2 := (_update_enka_data w uid s1).2 in
  let merged' :=
    merge w uid (Some (merge w uid (snd <$> history s !! uid) data)) data in
  (_update_enka_data w uid s1).1 = Return (inl r') /\
  log s2 = log s1 ++ [EvRemoteFetch uid; EvHistoryWrite uid merged';
                      EvCacheWrite uid merged' 60] /\
  history s2 !! uid = Some (S (S (merges s)), merged') /\
  cache s2 !! uid = Some (S (S (merges s)), merged', now s + dt + 60).
Proof.
  intros Hmiss Hfault Hfetch Hdecode Hloads Hparse Hparse' Hdt.
  rewrite (update_enka_data_success w uid s body text data r) by assumption.
  cbn zeta. cbn [fst snd].
  erewrite (update_enka_data_success w uid _ body text data r'); try eassumption.
  - cbn. rewrite !lookup_insert_eq. repeat split.
  - cbn. intros n d expires_at. rewrite lookup_insert_eq. intros [= _ _ <-]. lia.
  - cbn. rewrite lookup_insert_eq. exact Hparse'.
Qed.

Lemma fetch_again_after_expiry_witness :
  log (_update_enka_data sample_world 7
         (advance 60 (_update_enka_data sample_world 7 empty_stores).2)).2
  = log (advance 60 (_update_enka_data sample_world 7 empty_stores).2)
    ++ [EvRemoteFetch 7; EvHistoryWrite 7 (JObject []); EvCacheWrite 7 (JObject []) 60].
Proof.
  destruct (fetch_again_after_expiry sample_world 7 empty_stores "{}" "{}" (JObject [])
              {| uid := 100000007; characters := None |}
              {| uid := 100000007; characters := None |} 60)
    as (_ & Hlog & _).
  - intros n d expires_at. cbn. rewrite lookup_empty. discriminate.
  - reflexivity.
  - reflexivity.
  - reflexivity.
  - reflexivity.
  - reflexivity.
  - reflexivity.
  - lia.
  - exact Hlog.
Defined.

(** X8. A fetch for one uid leaves the history and cache entries of
    every other uid as they were, does not move the clock, and only
    adds to the trace. *)
Theorem fetch_other_profiles_untouched (w : World) (uid other : Z) (s : Stores) :
  other <> uid ->
  let s' := (_update_enka_data w uid s).2 in
  history s' !! other = history s !! other /\
  cache s' !! other = cache s !! other /\
  now s' = now s /\
  exists events, log s' = log s ++ events.
Proof.
  intros Hne. cbn zeta.
  eapply fetch_run_frame; [apply update_enka_data_run | exact Hne].
Qed.

Lemma fetch_other_profiles_untouched_witness :
  history (_update_enka_data sample_world 7 empty_stores).2 !! 8
  = history empty_stores !! 8.
Proof.
  apply (fetch_other_profiles_untouched sample_world 7 8 empty_stores). lia.
Defined.

End FetchExtras.

(** ** The callbacks: throttle, selection, pages, tokens *)

Section CallbackFacts.
Import Enka Effects Pagination PlayerCards Freshness Timing.

Variable w : World.

Lemma cache_ttl_live (uid : Z) (s : Stores) (n : nat) (d : Json) (expires_at : Z) :
  fault w AtCacheTtl = None ->
  cache s !! uid = Some (n, d, expires_at) ->
  now s < expires_at ->
  cache_ttl w uid s = (Return (expires_at - now s), s).
Proof.
  intros Hf Hc Hlive. unfold cache_ttl, fail_if, bind, ret. rewrite Hf, Hc.
  destruct (Z.ltb_spec (now s) expires_at); [reflexivity | lia].
Qed.

Lemma cache_ttl_expired (uid : Z) (s : Stores) :
  fault w AtCacheTtl = None ->
  (forall n d expires_at,
      cache s !! uid = Some (n, d, expires_at) -> expires_at <= now s) ->
  cache_ttl w uid s = (Return (-2), s).
Proof.
  intros Hf Hmiss. unfold cache_ttl, fail_if, bind, ret. rewrite Hf.
  destruct (cache s !! uid) as [[[n d] expires_at]|] eqn:Hc; [|reflexivity].
  specialize (Hmiss n d expires_at eq_refl).
  destruct (Z.ltb_spec (now s) expires_at); [lia | reflexivity].
Qed.

Lemma update_callback_fields (data tag user_field uid_field : string)
    (rest : list string) (user uid : Z) (s : Stores) :
  Py.split "|" data = tag :: user_field :: uid_field :: rest ->
  int_of_str w user_field = Return user ->
  int_of_str w uid_field = Return uid ->
  update_callback w data s = (Return (user, uid), s).
Proof.
  intros Hs Hu Hi. unfold update_callback, bind, index, lift, ret.
  rewrite Hs. cbn. rewrite Hu, Hi. reflexivity.
Qed.

Lemma get_callback_fields (data tag user_field uid_field result : string)
    (rest : list string) (user uid : Z) (s : Stores) :
  Py.split "|" data = tag :: user_field :: uid_field :: result :: rest ->
  int_of_str w user_field = Return user ->
  int_of_str w uid_field = Return uid ->
  get_callback w data s = (Return (result, user, uid), s).
Proof.
  intros Hs Hu Hi. unfold get_callback, bind, index, lift, ret.
  rewrite Hs. cbn. rewrite Hu, Hi. reflexivity.
Qed.

(** [update_player_card] for the owner, once the token is read. *)
Lemma update_player_card_owner (data : string) (user uid : Z) (s : Stores) :
  update_callback w data s = (Return (user, uid), s) ->
  update_player_card w user data s
  = (ttl <- cache_ttl w uid ;;
     if 0 <? ttl then
       emit (EvAnswer ("请等待 " +:+ pretty ttl +:+ " 秒后再更新") true)
     else
       emit (EvChatAction "typing") ;;;
       emit (EvAnswer "正在从 EnkaNetwork 获取角色列表 请不要重复点击按钮" false) ;;;
       data <- _update_enka_data w uid ;;
       match data with
       | inr error => emit (EvAnswer error true)
       | inl data =>
           match characters data with
           | None =>
               emit EvDeleteMessage ;;;
               emit (EvAnswer (showcase_hint) true)
           | Some cs =>
               emit (EvRenderHolder (Enka.uid data) (holder_characters cs)) ;;;
               emit (EvEditMedia "holder" (gen_button data user uid 1 false))
           end
       end) s.
Proof.
  intros Hcb. unfold update_player_card. unfold bind at 1. rewrite Hcb.
  rewrite bool_decide_eq_false_2 by (intros H; apply H; reflexivity).
  reflexivity.
Qed.

(** [get_player_cards] for the owner, once the token is read. *)
Lemma get_player_cards_owner (data result : string) (user uid : Z) (s : Stores) :
  get_callback w data s = (Return (result, user, uid), s) ->
  result <> "empty_data" ->
  get_player_cards w user data s
  = (page <- (if Py.isdigit result then lift (int_of_str w result) else ret 0) ;;
     data <- _load_history w uid ;;
     match data with
     | None => raise AttributeError
     | Some data =>
         match characters data with
         | None =>
             emit EvDeleteMessage ;;;
             emit (EvAnswer showcase_hint true)
         | Some cs =>
             if bool_decide (page ≠ 0) then
               ttl <- cache_ttl w uid ;;
               emit (EvEditReplyMarkup
                       (gen_button data user uid page (negb (0 <? ttl)))) ;;;
               emit (EvAnswer ("已切换到第 " +:+ pretty page +:+ " 页") false)
             else
               match list_find (fun c => name c = result) cs with
               | None =>
                   emit EvDeleteMessage ;;;
                   emit (EvAnswer ("角色展柜中未找到 " +:+ result
                                   +:+ " ，请检查角色是否存在于角色展柜中，或者等待角色数据更新后重试")
                                  true)
               | Some (_, c) =>
                   emit (EvAnswer "正在渲染图片中 请稍等 请不要重复点击按钮" false) ;;;
                   emit (EvChatAction "upload_photo") ;;;
                   emit (EvRenderCard uid (name c)) ;;;
                   emit (EvEditMedia ("player_card_" +:+ pretty uid +:+ "_" +:+ result
                                      +:+ ".png") [])
               end
         end
     end) s.
Proof.
  intros Hcb Hne. unfold get_player_cards. unfold bind at 1. rewrite Hcb.
  rewrite bool_decide_eq_false_2 by (intros H; apply H; reflexivity).
  rewrite bool_decide_eq_false_2 by assumption.
  reflexivity.
Qed.

Lemma bind_returns {S A B} (c : M S A) (k : A -> M S B) (s s' : S) (a : A) :
  c s = (Return a, s') -> bind c k s = k a s'.
Proof. intros H. unfold bind. rewrite H. reflexivity. Qed.




End CallbackFacts.

Section CallbackSteps.
Import Enka Effects Pagination PlayerCards Freshness Timing.

Lemma refresh_refused
    (w : World) (user uid : Z) (data tag user_field uid_field : string)
    (rest : list string) (s : Stores) (n : nat) (d : Json) (expires_at : Z) :
  Py.split "|" data = tag :: user_field :: uid_field :: rest ->
  int_of_str w user_field = Return user ->
  int_of_str w uid_field = Return uid ->
  fault w AtCacheTtl = None ->
  cache s !! uid = Some (n, d, expires_at) ->
  now s < expires_at ->
  update_player_card w user data s
  = (Return tt,
     noticed s ("请等待 " +:+ pretty (expires_at - now s) +:+ " 秒后再更新")).
Proof.
  intros Hs Hu Hi Hf Hc Hlive.
  rewrite (update_player_card_owner w data user uid s)
    by (eapply update_callback_fields; eassumption).
  rewrite (bind_returns _ _ _ _ _ (cache_ttl_live w uid s n d expires_at Hf Hc Hlive)).
  destruct (Z.ltb_spec 0 (expires_at - now s)); [reflexivity | lia].
Qed.

Lemma page_switch
    (w : World) (user uid page : Z) (data tag user_field uid_field result : string)
    (rest : list string) (s : Stores) (n : nat) (d : Json)
    (r : EnkaNetworkResponse) (cs : list CharacterInfo) :
  Py.split "|" data = tag :: user_field :: uid_field :: result :: rest ->
  int_of_str w user_field = Return user ->
  int_of_str w uid_field = Return uid ->
  result <> "empty_data" ->
  Py.isdigit result = true ->
  int_of_str w result = Return page ->
  page <> 0 ->
  fault w AtHistoryLoad = None ->
  fault w AtCacheTtl = None ->
  history s !! uid = Some (n, d) ->
  parse_obj w d = Return r ->
  characters r = Some cs ->
  let refresh :=
    match cache s !! uid with
    | Some (_, _, expires_at) => negb (now s <? expires_at)
    | None => true
    end in
  get_player_cards w user data s
  = (Return tt,
     logged (logged s (EvEditReplyMarkup (gen_button r user uid page refresh)))
       (EvAnswer ("已切换到第 " +:+ pretty page +:+ " 页") false)).
Proof.
  intros Hs Hu Hi Hne Hdig Hpage Hnz Hfh Hft Hh Hp Hcs. cbn zeta.
  rewrite (get_player_cards_owner w data result user uid s)
    by (try eapply get_callback_fields; eassumption).
  rewrite Hdig.
  erewrite bind_returns by (unfold lift; rewrite Hpage; reflexivity).
  erewrite bind_returns
    by (rewrite (load_history_stored w uid s n d Hfh Hh), Hp; reflexivity).
  cbv beta iota. rewrite Hcs. rewrite bool_decide_eq_true_2 by assumption.
  destruct (cache s !! uid) as [[[m d'] expires_at]|] eqn:Hc.
  - destruct (Z.ltb_spec (now s) expires_at) as [Hlive|Hdead].
    + rewrite (bind_returns _ _ _ _ _ (cache_ttl_live w uid s m d' expires_at Hft Hc Hlive)).
      destruct (Z.ltb_spec 0 (expires_at - now s)); [reflexivity | lia].
    + erewrite bind_returns.
      2: { apply cache_ttl_expired; [assumption|].
           intros m0 d0 e0. rewrite Hc. intros [= _ _ <-]. assumption. }
      reflexivity.
  - erewrite bind_returns.
    2: { apply cache_ttl_expired; [assumption|].
         intros m0 d0 e0. rewrite Hc. discriminate. }
    reflexivity.
Qed.

End CallbackSteps.

Section CallbackExtras.
Import Enka Effects Pagination PlayerCards Freshness Timing.

(** X9. While the cache entry of the profile is alive, the refresh of
    the owner is refused: one alert tells the seconds left, and there is
    no call to the service, no write and no edit of the message. *)
Theorem refresh_refused_while_cached
    (w : World) (user uid : Z) (data tag user_field uid_field : string)
    (rest : list string) (s : Stores) (n : nat) (d : Json) (expires_at : Z) :
  Py.split "|" data = tag :: user_field :: uid_field :: rest ->
  int_of_str w user_field = Return user ->
  int_of_str w uid_field = Return uid ->
  fault w AtCacheTtl = None ->
  cache s !! uid = Some (n, d, expires_at) ->
  now s < expires_at ->
  update_player_card w user data s
  = (Return tt,
     noticed s ("请等待 " +:+ pretty (expires_at - now s) +:+ " 秒后再更新")).
Proof.
  apply refresh_refused.
Qed.

Lemma refresh_refused_while_cached_witness :
  update_player_card sample_world 6 "update_player_card|6|7" cached_stores
  = (Return tt,
     noticed cached_stores
       ("请等待 " +:+ pretty (60 - now cached_stores) +:+ " 秒后再更新")).
Proof.
  apply (refresh_refused_while_cached sample_world 6 7 "update_player_card|6|7"
           "update_player_card" "6" "7" [] cached_stores 1%nat (JObject []) 60);
    [reflexivity | reflexivity | reflexivity | reflexivity | reflexivity | cbn; lia].
Defined.





(** X12. [get_player_cards] never calls the service and never writes:
    whatever the token, the user and the stores, the history, the cache
    and the clock are as before, and the events it adds are answers,
    chat actions, renders and edits of the message only. *)
Theorem get_player_cards_never_writes
    (w : World) (user : Z) (data : string) (s : Stores) :
  let s' := (get_player_cards w user data s).2 in
  history s' = history s /\ cache s' = cache s /\
  merges s' = merges s /\ now s' = now s /\
  exists events,
    log s' = log s ++ events /\
    Forall (fun e => touches_stores e = false) events.
Proof.
  cbn zeta.
  unfold get_player_cards, get_callback, _load_history, load_history_info, cache_ttl.
  unfold emit, index, lift, fail_if, bind, ret, raise.
  repeat (case_match; simplify_eq/=).
  all: repeat (split; [reflexivity|]).
  all: first
         [ exists []; split; [symmetry; apply app_nil_r | constructor]
         | eexists; split; [rewrite <- ?app_assoc; reflexivity | repeat constructor] ].
Qed.





(** X15. When the owner presses a page control, the keyboard of that
    page replaces the one shown and a notice names the page; the
    keyboard is built for the owner from the roster of the history, and
    it offers the refresh control exactly when the cache holds no live
    entry for the profile. Nothing is fetched and the stores are not
    written. *)
Theorem get_player_cards_switches_page
    (w : World) (user uid page : Z) (data tag user_field uid_field result : string)
    (rest : list string) (s : Stores) (n : nat) (d : Json)
    (r : EnkaNetworkResponse) (cs : list CharacterInfo) :
  Py.split "|" data = tag :: user_field :: uid_field :: result :: rest ->
  int_of_str w user_field = Return user ->
  int_of_str w uid_field = Return uid ->
  result <> "empty_data" ->
  Py.isdigit result = true ->
  int_of_str w result = Return page ->
  page <> 0 ->
  fault w AtHistoryLoad = None ->
  fault w AtCacheTtl = None ->
  history s !! uid = Some (n, d) ->
  parse_obj w d = Return r ->
  characters r = Some cs ->
  let refresh :=
    match cache s !! uid with
    | Some (_, _, expires_at) => negb (now s <? expires_at)
    | None => true
    end in
  get_player_cards w user data s
  = (Return tt,
     logged (logged s (EvEditReplyMarkup (gen_button r user uid page refresh)))
       (EvAnswer ("已切换到第 " +:+ pretty page +:+ " 页") false)).
Proof.
  apply page_switch.
Qed.

Lemma get_player_cards_switches_page_witness :
  get_player_cards roster_world 6 "get_player_card|6|7|2" cached_stores
  = (Return tt,
     logged (logged cached_stores
       (EvEditReplyMarkup
          (gen_button
             {| uid := 7;
                characters := Some [Pagination.sample_character "Diluc";
                                    Pagination.sample_character "Klee"] |}
             6 7 2 false)))
       (EvAnswer ("已切换到第 " +:+ pretty 2 +:+ " 页") false)).
Proof.
  apply (get_player_cards_switches_page roster_world 6 7 2 "get_player_card|6|7|2"
           "get_player_card" "6" "7" "2" [] cached_stores 1%nat (JObject [])
           {| uid := 7;
              characters := Some [Pagination.sample_character "Diluc";
                                  Pagination.sample_character "Klee"] |}
           [Pagination.sample_character "Diluc"; Pagination.sample_character "Klee"]);
    try reflexivity; try discriminate.
Defined.

(** X16. A token with too few fields, or with an owner field that
    [int] refuses, makes the callbacks raise before they answer or
    touch anything: [IndexError] for a missing field, and for a field
    that is no number what [int] raised. *)
Theorem callbacks_raise_on_malformed_token
    (w : World) (user : Z) (data tag user_field : string) (rest : list string)
    (s : Stores) :
  Py.split "|" data = tag :: user_field :: rest ->
  (forall e,
      int_of_str w user_field = Raise e ->
      update_player_card w user data s = (Raise e, s) /\
      get_player_cards w user data s = (Raise e, s)) /\
  (forall owner,
      int_of_str w user_field = Return owner -> rest = [] ->
      update_player_card w user data s = (Raise IndexError, s) /\
      get_player_cards w user data s = (Raise IndexError, s)) /\
  (forall owner uid uid_field,
      int_of_str w user_field = Return owner -> rest = [uid_field] ->
      int_of_str w uid_field = Return uid ->
      get_player_cards w user data s = (Raise IndexError, s)).
Proof.
  intros Hs. split; [|split].
  - intros e He.
    unfold update_player_card, get_player_cards, update_callback, get_callback.
    unfold bind, index, lift. rewrite Hs. cbn. rewrite He. split; reflexivity.
  - intros owner Ho ->.
    unfold update_player_card, get_player_cards, update_callback, get_callback.
    unfold bind, index, lift. rewrite Hs. cbn. rewrite Ho. split; reflexivity.
  - intros owner uid uid_field Ho -> Hu.
    unfold get_player_cards, get_callback.
    unfold bind, index, lift. rewrite Hs. cbn. rewrite Ho, Hu. reflexivity.
Qed.

Lemma callbacks_raise_on_malformed_token_witness :
  update_player_card sample_world 6 "update_player_card|6" empty_stores
  = (Raise IndexError, empty_stores) /\
  get_player_cards sample_world 6 "get_player_card|six|7|Klee" empty_stores
  = (Raise ValueError, empty_stores).
Proof.
  destruct (callbacks_raise_on_malformed_token sample_world 6 "update_player_card|6"
              "update_player_card" "6" [] empty_stores eq_refl) as (_ & Hshort & _).
  destruct (callbacks_raise_on_malformed_token sample_world 6 "get_player_card|six|7|Klee"
              "get_player_card" "six" ["7"; "Klee"] empty_stores eq_refl) as (Hint & _).
  split.
  - apply (Hshort 6); reflexivity.
  - apply (Hint ValueError). reflexivity.
Defined.

End CallbackExtras.

(** ** Numerals and tokens *)

Section NumeralFacts.
Import Effects PlayerCards.

(** The string holds no occurrence of the separator. *)
Fixpoint free_of (sep : ascii) (s : string) : bool :=
  match s with
  | EmptyString => true
  | String c s' => negb (Ascii.eqb c sep) && free_of sep s'
  end.

Lemma rev_app_append (s t u : string) :
  String.rev_app s t +:+ u = String.rev_app s (t +:+ u).
Proof.
  revert t. induction s as [|c s IH]; intros t; [reflexivity|].
  exact (IH (String c t)).
Qed.

Lemma string_app_nil_r (s : string) : s +:+ "" = s.
Proof.
  induction s as [|c s IH]; [reflexivity|].
  change (String c (s +:+ "") = String c s). f_equal. exact IH.
Qed.

Lemma rev_cons_append (c : ascii) (cur a : string) :
  String.rev (String c cur) +:+ a = String.rev cur +:+ String c a.
Proof. unfold String.rev. cbn [String.rev_app]. rewrite !rev_app_append. reflexivity. Qed.

Lemma split_aux_field (sep : ascii) (a cur rest : string) :
  free_of sep a = true ->
  Py.split_aux sep cur (a +:+ String sep rest)
  = (String.rev cur +:+ a) :: Py.split_aux sep EmptyString rest.
Proof.
  revert cur. induction a as [|c a IH]; intros cur Hfree.
  - change ("" +:+ String sep rest) with (String sep rest).
    cbn [Py.split_aux]. rewrite Ascii.eqb_refl, string_app_nil_r. reflexivity.
  - cbn [free_of] in Hfree. apply andb_true_iff in Hfree as [Hc Ha].
    change (String c a +:+ String sep rest) with (String c (a +:+ String sep rest)).
    cbn [Py.split_aux]. destruct (Ascii.eqb c sep); [discriminate|].
    rewrite IH by assumption. rewrite rev_cons_append. reflexivity.
Qed.

Lemma split_aux_last (sep : ascii) (a cur : string) :
  free_of sep a = true ->
  Py.split_aux sep cur a = [String.rev cur +:+ a].
Proof.
  revert cur. induction a as [|c a IH]; intros cur Hfree.
  - cbn [Py.split_aux]. rewrite string_app_nil_r. reflexivity.
  - cbn [free_of] in Hfree. apply andb_true_iff in Hfree as [Hc Ha].
    cbn [Py.split_aux]. destruct (Ascii.eqb c sep); [discriminate|].
    rewrite IH by assumption. rewrite rev_cons_append. reflexivity.
Qed.

Lemma split_field (sep : ascii) (a rest : string) :
  free_of sep a = true ->
  Py.split sep (a +:+ String sep rest) = a :: Py.split sep rest.
Proof. intros H. unfold Py.split. rewrite split_aux_field by assumption. reflexivity. Qed.

Lemma split_last (sep : ascii) (a : string) :
  free_of sep a = true -> Py.split sep a = [a].
Proof. intros H. unfold Py.split. rewrite split_aux_last by assumption. reflexivity. Qed.

Lemma all_digits_free_of_bar (s : string) :
  Py.all_digits s = true -> free_of "|" s = true.
Proof.
  induction s as [|c s IH]; [reflexivity|]. cbn. intros H.
  apply andb_true_iff in H as [Hc Hs]. rewrite IH by assumption.
  rewrite andb_true_r.
  destruct (Ascii.eqb_spec c "|") as [->|]; [discriminate | reflexivity].
Qed.

Lemma digits_value_shift (s : string) (acc : Z) :
  digits_value acc s
  = acc * 10 ^ Z.of_nat (String.length s) + digits_value 0 s.
Proof.
  revert acc. induction s as [|c s IH]; intros acc.
  - cbn. lia.
  - cbn [digits_value String.length]. rewrite IH.
    rewrite (IH (10 * 0 + _)).
    rewrite Nat2Z.inj_succ, Z.pow_succ_r by lia. lia.
Qed.

Lemma pretty_N_char_digit (d : N) :
  (d < 10)%N ->
  Py.is_ascii_digit (pretty_N_char d) = true /\
  Z.of_nat (nat_of_ascii (pretty_N_char d)) - 48 = Z.of_N d.
Proof.
  intros Hd.
  assert (d = 0 \/ d = 1 \/ d = 2 \/ d = 3 \/ d = 4 \/ d = 5 \/ d = 6 \/ d = 7
          \/ d = 8 \/ d = 9)%N as Hcases by lia.
  repeat (destruct Hcases as [->|Hcases]); try subst d; split; reflexivity.
Qed.

Lemma pretty_N_go_digits (x : N) (s : string) :
  Py.all_digits s = true ->
  Py.all_digits (pretty_N_go x s) = true /\
  digits_value 0 (pretty_N_go x s)
  = Z.of_N x * 10 ^ Z.of_nat (String.length s) + digits_value 0 s.
Proof.
  revert s. induction (N.lt_wf_0 x) as [x _ IH]; intros s Hs.
  assert (x = 0 \/ 0 < x)%N as [->|Hpos] by lia.
  - rewrite pretty_N_go_0. split; [assumption | lia].
  - rewrite pretty_N_go_step by assumption.
    destruct (pretty_N_char_digit (x `mod` 10)%N) as [Hd Hv].
    { apply N.mod_lt. lia. }
    destruct (IH (x `div` 10)%N) with (s := String (pretty_N_char (x `mod` 10)) s)
      as [Hall Hval].
    { apply N.div_lt; lia. }
    { cbn. rewrite Hd, Hs. reflexivity. }
    split; [assumption|]. rewrite Hval.
    cbn [digits_value String.length]. rewrite digits_value_shift, Hv.
    rewrite Nat2Z.inj_succ, Z.pow_succ_r by lia.
    pose proof (N.div_mod x 10 ltac:(lia)) as Hx.
    apply (f_equal Z.of_N) in Hx. rewrite N2Z.inj_add, N2Z.inj_mul in Hx.
    change (Z.of_N 10) with 10 in Hx. lia.
Qed.

Lemma pretty_N_digits (x : N) :
  Py.isdigit (pretty x) = true /\ digits_value 0 (pretty x) = Z.of_N x.
Proof.
  unfold pretty, pretty_N. destruct (decide (x = 0%N)) as [->|Hx]; [split; reflexivity|].
  destruct (pretty_N_go_digits x "" eq_refl) as [Hall Hval].
  split.
  - unfold Py.isdigit. destruct (pretty_N_go x "") eqn:Hgo; [|exact Hall].
    exfalso. rewrite pretty_N_go_step in Hgo by lia.
    pose proof (pretty_N_go_digits (x `div` 10)%N
                  (String (pretty_N_char (x `mod` 10)) "")) as Hlen.
    assert (forall y t, (String.length t <= String.length (pretty_N_go y t))%nat) as Hgrow.
    { intros y. induction (N.lt_wf_0 y) as [y _ IHy]; intros t.
      assert (y = 0 \/ 0 < y)%N as [->|Hy] by lia; [rewrite pretty_N_go_0; lia|].
      rewrite pretty_N_go_step by assumption.
      etrans; [|apply IHy, N.div_lt; lia]. cbn. lia. }
    specialize (Hgrow (x `div` 10)%N (String (pretty_N_char (x `mod` 10)) "")).
    rewrite Hgo in Hgrow. cbn in Hgrow. lia.
  - rewrite Hval. cbn. lia.
Qed.

Lemma decimal_int_unsigned (c : ascii) (s : string) :
  c <> "-"%char ->
  decimal_int (String c s)
  = if Py.isdigit (String c s) then Return (digits_value 0 (String c s))
    else Raise ValueError.
Proof.
  intros Hc. destruct c as [[] [] [] [] [] [] [] []]; try reflexivity.
  destruct Hc. reflexivity.
Qed.

(** [int(str(z))] is [z]. *)
Lemma decimal_int_pretty (z : Z) : decimal_int (pretty z) = Return z.
Proof.
  unfold pretty, pretty_Z. destruct z as [|p|p].
  - reflexivity.
  - destruct (pretty_N_digits (N.pos p)) as [Hd Hv].
    change (pretty p) with (pretty (N.pos p)).
    destruct (pretty (N.pos p)) as [|c s] eqn:Hp; [discriminate|].
    rewrite decimal_int_unsigned, Hd, Hv; [reflexivity|].
    intros ->. discriminate.
  - destruct (pretty_N_digits (N.pos p)) as [Hd Hv].
    change (pretty p) with (pretty (N.pos p)).
    change (decimal_int ("-" +:+ pretty (N.pos p)))
      with (if Py.isdigit (pretty (N.pos p))
            then Return (- digits_value 0 (pretty (N.pos p)))
            else Raise ValueError).
    rewrite Hd, Hv. reflexivity.
Qed.

Lemma pretty_free_of_bar (z : Z) : free_of "|" (pretty z) = true.
Proof.
  assert (forall x : N, free_of "|" (pretty x) = true) as HN.
  { intros x. destruct (pretty_N_digits x) as [Hd _].
    apply all_digits_free_of_bar. unfold Py.isdigit in Hd.
    destruct (pretty x); [reflexivity | exact Hd]. }
  unfold pretty, pretty_Z. destruct z as [|p|p]; [reflexivity|apply (HN (N.pos p))|].
  cbn. apply (HN (N.pos p)).
Qed.

Lemma pretty_isdigit (z : Z) : 0 <= z -> Py.isdigit (pretty z) = true.
Proof.
  intros Hz. unfold pretty, pretty_Z. destruct z as [|p|p]; [reflexivity| |lia].
  apply (pretty_N_digits (N.pos p)).
Qed.

End NumeralFacts.

(** ** The keyboard: tokens, navigation, sizes *)

Section KeyboardFacts.
Import Enka Effects Pagination PlayerCards Timing.

Lemma get_token_fields (user_id uid : Z) (selector : string) :
  free_of "|" selector = true ->
  Py.split "|" ("get_player_card|" +:+ pretty user_id +:+ "|" +:+ pretty uid
                +:+ "|" +:+ selector)
  = ["get_player_card"; pretty user_id; pretty uid; selector].
Proof.
  intros Hsel.
  change ("get_player_card|" +:+ pretty user_id +:+ "|" +:+ pretty uid +:+ "|" +:+ selector)
    with ("get_player_card"
          +:+ String "|" (pretty user_id
          +:+ String "|" (pretty uid +:+ String "|" selector))).
  rewrite split_field by reflexivity.
  rewrite split_field by apply pretty_free_of_bar.
  rewrite split_field by apply pretty_free_of_bar.
  rewrite split_last by assumption. reflexivity.
Qed.

Lemma update_token_fields (user_id uid : Z) :
  Py.split "|" ("update_player_card|" +:+ pretty user_id +:+ "|" +:+ pretty uid)
  = ["update_player_card"; pretty user_id; pretty uid].
Proof.
  change ("update_player_card|" +:+ pretty user_id +:+ "|" +:+ pretty uid)
    with ("update_player_card" +:+ String "|" (pretty user_id +:+ String "|" (pretty uid))).
  rewrite split_field by reflexivity.
  rewrite split_field by apply pretty_free_of_bar.
  rewrite split_last by apply pretty_free_of_bar. reflexivity.
Qed.

(** The controls of a keyboard: buttons of characters of the roster, or
    one of the four controls of the navigation row. *)
Lemma gen_button_controls (data : EnkaNetworkResponse) (user_id uid page : Z)
    (update_button : bool) (row : list InlineKeyboardButton) (b : InlineKeyboardButton) :
  row ∈ gen_button data user_id uid page update_button ->
  b ∈ row ->
  (exists c, c ∈ default [] (characters data) /\ name c <> ""
             /\ b = character_button user_id uid c) \/
  b = previous_button user_id uid (last_page page) \/
  b = indicator_button user_id uid page (all_page data user_id uid) \/
  b = update_panel_button user_id uid \/
  b = next_button user_id uid (next_page data user_id uid page).
Proof.
  intros Hrow Hb. unfold gen_button in Hrow.
  apply elem_of_app in Hrow as [Hrow|Hrow].
  - left.
    assert (b ∈ buttons data user_id uid) as Hin.
    { rewrite <- all_buttons_concat. apply list_elem_of_In, in_concat.
      exists row. split; apply list_elem_of_In; [|assumption].
      unfold send_buttons, Py.slice in Hrow.
      eapply subseteq_drop, subseteq_take, Hrow. }
    unfold buttons in Hin.
    destruct (characters data) as [[|c0 cs]|]; cbn [default];
      [apply elem_of_nil in Hin; destruct Hin| |apply elem_of_nil in Hin; destruct Hin].
    apply list_elem_of_fmap in Hin as (c & -> & Hc).
    apply list_elem_of_filter in Hc as [Hname Hc]. eauto.
  - right. case_bool_decide; [|apply elem_of_nil in Hrow; destruct Hrow].
    apply list_elem_of_singleton in Hrow. subst row. unfold last_button in Hb.
    repeat (apply elem_of_app in Hb as [Hb|Hb]);
      repeat (match type of Hb with
              | _ ∈ (if ?c then _ else _) => destruct c
              end);
      try (apply elem_of_nil in Hb; destruct Hb);
      apply list_elem_of_singleton in Hb; subst b; tauto.
Qed.

(** The navigation row of a page that exists. *)
Lemma last_button_in_range (data : EnkaNetworkResponse) (user_id uid page : Z)
    (update_button : bool) :
  1 <= page <= all_page data user_id uid ->
  last_button data user_id uid page update_button
  = (if 1 <? page then [previous_button user_id uid (page - 1)] else [])
    ++ (if 1 <? all_page data user_id uid
        then [indicator_button user_id uid page (all_page data user_id uid)] else [])
    ++ (if update_button then [update_panel_button user_id uid] else [])
    ++ (if page <? all_page data user_id uid
        then [next_button user_id uid (page + 1)] else []).
Proof.
  intros [Hlo Hhi]. unfold last_button, last_page, next_page.
  destruct (Z.ltb_spec 1 page) as [H1|H1];
    destruct (Z.ltb_spec page (all_page data user_id uid)) as [H2|H2];
    destruct (Z.ltb_spec 1 (all_page data user_id uid)) as [H3|H3];
    try lia; cbn [andb];
    repeat case_bool_decide; try lia; reflexivity.
Qed.

(** Beyond the last page the window is empty. *)
Lemma send_buttons_beyond (data : EnkaNetworkResponse) (user_id uid page : Z) :
  all_page data user_id uid < page -> 1 <= page ->
  send_buttons data user_id uid page = [].
Proof.
  intros Hp H1. rewrite send_buttons_window by assumption.
  rewrite drop_ge; [reflexivity|].
  pose proof (all_page_bounds data user_id uid) as Hb. cbn in Hb. lia.
Qed.

End KeyboardFacts.

Section KeyboardExtras.
Import Enka Effects Pagination PlayerCards Timing.

(** X17. Every control of a keyboard reads back: when no character
    name holds the separator, the token of each button of a character
    is split into that name, the owner and the profile, the tokens of
    "previous", "next" and the page indicator into their selector, the
    owner and the profile, and the token of the refresh control into
    the owner and the profile. *)
Theorem keyboard_tokens_read_back
    (w : World) (data : EnkaNetworkResponse) (user_id uid page : Z)
    (update_button : bool) (s : Stores) :
  (forall z, int_of_str w (pretty z) = Return z) ->
  (forall c, c ∈ default [] (characters data) -> free_of "|" (name c) = true) ->
  (forall c, c ∈ default [] (characters data) -> name c <> "" ->
     get_callback w (callback_data (character_button user_id uid c)) s
     = (Return (name c, user_id, uid), s)) /\
  (forall row b,
     row ∈ gen_button data user_id uid page update_button -> b ∈ row ->
     (exists selector,
         get_callback w (callback_data b) s = (Return (selector, user_id, uid), s)) \/
     (b = update_panel_button user_id uid /\
      update_callback w (callback_data b) s = (Return (user_id, uid), s))).
Proof.
  intros Hint Hnames.
  assert (forall selector, free_of "|" selector = true ->
            get_callback w ("get_player_card|" +:+ pretty user_id +:+ "|" +:+ pretty uid
                            +:+ "|" +:+ selector) s
            = (Return (selector, user_id, uid), s)) as Hget.
  { intros selector Hsel. eapply get_callback_fields.
    - apply get_token_fields, Hsel.
    - apply Hint.
    - apply Hint. }
  split.
  - intros c Hc _. apply Hget, Hnames, Hc.
  - intros row b Hrow Hb.
    destruct (gen_button_controls data user_id uid page update_button row b Hrow Hb)
      as [(c & Hc & _ & ->)|[->|[->|[->| ->]]]].
    + left. exists (name c). apply Hget, Hnames, Hc.
    + left. exists (pretty (last_page page)). apply Hget, pretty_free_of_bar.
    + left. exists "empty_data". apply Hget. reflexivity.
    + right. split; [reflexivity|]. eapply update_callback_fields.
      * apply update_token_fields.
      * apply Hint.
      * apply Hint.
    + left. exists (pretty (next_page data user_id uid page)).
      apply Hget, pretty_free_of_bar.
Qed.

Lemma keyboard_tokens_read_back_witness :
  get_callback sample_world
    (callback_data (character_button 6 7 (Pagination.sample_character "Klee")))
    empty_stores
  = (Return ("Klee", 6, 7), empty_stores).
Proof.
  destruct (keyboard_tokens_read_back sample_world
              {| uid := 7;
                 characters := Some [Pagination.sample_character "Diluc";
                                     Pagination.sample_character "Klee"] |}
              6 7 1 true empty_stores) as [Hname _].
  - intros z. apply decimal_int_pretty.
  - intros c Hc. cbn in Hc.
    apply elem_of_cons in Hc as [->|Hc]; [reflexivity|].
    apply elem_of_cons in Hc as [->|Hc]; [reflexivity|].
    apply elem_of_nil in Hc. destruct Hc.
  - apply (Hname (Pagination.sample_character "Klee")); [|discriminate].
    cbn. apply list_elem_of_further, list_elem_of_here.
Defined.

(** X18. The "next" control leads to the next page: on a page that is
    not the last, the navigation row holds a "next" control, and when
    the owner presses it the keyboard of the following page replaces the
    one shown, built from the roster of the history; the row of that
    following page holds a "previous" control that names the page left. *)
Theorem next_control_shows_next_page
    (w : World) (user uid page : Z) (s : Stores) (n : nat) (d : Json)
    (r : EnkaNetworkResponse) (cs : list CharacterInfo) (update_button : bool) :
  (forall z, int_of_str w (pretty z) = Return z) ->
  fault w AtHistoryLoad = None ->
  fault w AtCacheTtl = None ->
  history s !! uid = Some (n, d) ->
  parse_obj w d = Return r ->
  characters r = Some cs ->
  1 <= page < all_page r user uid ->
  let refresh :=
    match cache s !! uid with
    | Some (_, _, expires_at) => negb (now s <? expires_at)
    | None => true
    end in
  next_button user uid (page + 1) ∈ last_button r user uid page update_button /\
  get_player_cards w user (callback_data (next_button user uid (page + 1))) s
  = (Return tt,
     logged (logged s (EvEditReplyMarkup (gen_button r user uid (page + 1) refresh)))
       (EvAnswer ("已切换到第 " +:+ pretty (page + 1) +:+ " 页") false)) /\
  previous_button user uid page ∈ last_button r user uid (page + 1) update_button.
Proof.
  intros Hint Hfh Hft Hh Hp Hcs Hpage. cbn zeta. split; [|split].
  - rewrite last_button_in_range by lia.
    destruct (Z.ltb_spec page (all_page r user uid)); [|lia].
    rewrite !elem_of_app. right. right. right. apply list_elem_of_here.
  - eapply page_switch; try eassumption.
    + apply get_token_fields, pretty_free_of_bar.
    + apply Hint.
    + apply Hint.
    + intros Heq. pose proof (pretty_isdigit (page + 1) ltac:(lia)) as Hd.
      cbn [callback_data next_button] in Heq. rewrite Heq in Hd. discriminate.
    + apply pretty_isdigit. lia.
    + apply Hint.
    + lia.
  - rewrite last_button_in_range by lia.
    destruct (Z.ltb_spec 1 (page + 1)); [|lia].
    replace (page + 1 - 1) with page by lia.
    rewrite !elem_of_app. left. apply list_elem_of_here.
Qed.

(** A world whose snapshots parse to a roster of 13 characters. *)
Definition thirteen_world : World :=
  {| fetch_user_by_uid := fun _ => Return "{}";
     decode := fun b => Return b;
     loads := fun _ => Return (JObject []);
     parse_obj := fun _ => Return (sample_roster 13);
     merge := fun _ _ data => data;
     fault := fun _ => None;
     int_of_str := decimal_int;
     user_mismatch := "" |}.

Lemma next_control_shows_next_page_witness :
  get_player_cards thirteen_world 6 (callback_data (next_button 6 7 (1 + 1))) cached_stores
  = (Return tt,
     logged (logged cached_stores
               (EvEditReplyMarkup (gen_button (sample_roster 13) 6 7 (1 + 1) false)))
       (EvAnswer ("已切换到第 " +:+ pretty (1 + 1) +:+ " 页") false)).
Proof.
  destruct (next_control_shows_next_page thirteen_world 6 7 1 cached_stores 1%nat
              (JObject []) (sample_roster 13)
              ((fun i => Pagination.sample_character (pretty i)) <$> seq 0 13) true)
    as (_ & Hpress & _).
  - intros z. apply decimal_int_pretty.
  - reflexivity.
  - reflexivity.
  - reflexivity.
  - reflexivity.
  - reflexivity.
  - vm_compute. split; [discriminate | reflexivity].
  - exact Hpress.
Defined.

(** X19. A page beyond the last one is no error: the selection window
    is empty, and the keyboard is the navigation row alone, with
    "previous", the indicator of the page asked for over the number of
    pages, the refresh control when it is offered, and no "next". *)
Theorem gen_button_beyond_last_page
    (data : EnkaNetworkResponse) (user_id uid page : Z) (update_button : bool) :
  all_page data user_id uid < page ->
  1 < page ->
  gen_button data user_id uid page update_button
  = [ [previous_button user_id uid (page - 1);
       indicator_button user_id uid page (all_page data user_id uid)]
      ++ (if update_button then [update_panel_button user_id uid] else []) ].
Proof.
  intros Hp H1. unfold gen_button.
  rewrite send_buttons_beyond by lia.
  assert (last_button data user_id uid page update_button
          = [previous_button user_id uid (page - 1);
             indicator_button user_id uid page (all_page data user_id uid)]
            ++ (if update_button then [update_panel_button user_id uid] else []))
    as ->.
  { unfold last_button, last_page, next_page.
    destruct (Z.ltb_spec 1 page); [|lia].
    destruct (Z.ltb_spec page (all_page data user_id uid)); [lia|].
    cbn [andb]. repeat case_bool_decide; try lia.
    cbn. rewrite app_nil_r. reflexivity. }
  rewrite bool_decide_eq_true_2 by discriminate. reflexivity.
Qed.

Lemma gen_button_beyond_last_page_witness :
  gen_button (sample_roster 13) 6 7 5 false
  = [ [previous_button 6 7 (5 - 1);
       indicator_button 6 7 5 (all_page (sample_roster 13) 6 7)] ++ [] ].
Proof.
  apply (gen_button_beyond_last_page (sample_roster 13) 6 7 5 false).
  - vm_compute. reflexivity.
  - lia.
Defined.

(** X20. A keyboard of a page [>= 1] has at most four rows, and each of
    its rows has between one and four buttons. *)
Theorem gen_button_size
    (data : EnkaNetworkResponse) (user_id uid page : Z) (update_button : bool) :
  1 <= page ->
  (length (gen_button data user_id uid page update_button) <= 4)%nat /\
  Forall (fun row => (1 <= length row <= 4)%nat)
         (gen_button data user_id uid page update_button).
Proof.
  intros Hp. unfold gen_button.
  destruct (send_buttons_items data user_id uid page Hp) as [Hrows _].
  assert (length (last_button data user_id uid page update_button) <= 4)%nat as Hnav.
  { unfold last_button. rewrite !length_app.
    repeat match goal with |- context [if ?c then _ else _] => destruct c end;
      cbn; lia. }
  split.
  - rewrite length_app. case_bool_decide; cbn; lia.
  - apply Forall_app. split.
    + rewrite send_buttons_window by assumption.
      apply Forall_take, Forall_drop, all_buttons_rows.
    + case_bool_decide as Hne; [|constructor].
      constructor; [|constructor]. split; [|exact Hnav].
      destruct (last_button data user_id uid page update_button); [done | cbn; lia].
Qed.

Lemma gen_button_size_witness :
  (length (gen_button (sample_roster 13) 6 7 1 true) <= 4)%nat.
Proof.
  apply (gen_button_size (sample_roster 13) 6 7 1 true). lia.
Defined.

(** X21. On a page that exists, the navigation row holds "previous" if
    and only if the page is not the first, the page indicator if and
    only if there is more than one page, the refresh control if and
    only if it is offered, and "next" if and only if the page is not
    the last, in this order; "previous" and "next" name the pages
    before and after. *)
Theorem navigation_row_of_page
    (data : EnkaNetworkResponse) (user_id uid page : Z) (update_button : bool) :
  1 <= page <= all_page data user_id uid ->
  last_button data user_id uid page update_button
  = (if 1 <? page then [previous_button user_id uid (page - 1)] else [])
    ++ (if 1 <? all_page data user_id uid
        then [indicator_button user_id uid page (all_page data user_id uid)] else [])
    ++ (if update_button then [update_panel_button user_id uid] else [])
    ++ (if page <? all_page data user_id uid
        then [next_button user_id uid (page + 1)] else []).
Proof. apply last_button_in_range. Qed.

Lemma navigation_row_of_page_witness :
  last_button (sample_roster 13) 6 7 2 true
  = ((if 1 <? 2 then [previous_button 6 7 (2 - 1)] else [])
     ++ (if 1 <? all_page (sample_roster 13) 6 7
         then [indicator_button 6 7 2 (all_page (sample_roster 13) 6 7)] else [])
     ++ (if true then [update_panel_button 6 7] else [])
     ++ (if 2 <? all_page (sample_roster 13) 6 7
         then [next_button 6 7 (2 + 1)] else [])).
Proof.
  apply (navigation_row_of_page (sample_roster 13) 6 7 2 true).
  vm_compute. split; discriminate.
Defined.

End KeyboardExtras.

(** ** Scores: rounding, the aggregate and the best artifact *)

Section RoundingFacts.
Import Enka Scoring.

Lemma round_half_even_bounds (x : Q) :
  Qfloor x <= Py.round_half_even x <= Qfloor x + 1.
Proof.
  unfold Py.round_half_even.
  destruct (_ ?= _)%Q; [destruct (Z.even _)|..]; lia.
Qed.

Lemma round_half_even_monotone (x y : Q) :
  (x <= y)%Q -> Py.round_half_even x <= Py.round_half_even y.
Proof.
  intros Hxy.
  pose proof (Qfloor_resp_le x y Hxy) as Hfl.
  destruct (Z.eq_dec (Qfloor x) (Qfloor y)) as [Heq|Hne].
  - unfold Py.round_half_even. rewrite <- Heq.
    destruct (x - inject_Z (Qfloor x) ?= 1 # 2)%Q eqn:Hx;
      destruct (y - inject_Z (Qfloor x) ?= 1 # 2)%Q eqn:Hy;
      destruct (Z.even (Qfloor x));
      first [ lia
            | exfalso;
              first [apply Qeq_alt in Hx | rewrite <- Qlt_alt in Hx | rewrite <- Qgt_alt in Hx];
              first [apply Qeq_alt in Hy | rewrite <- Qlt_alt in Hy | rewrite <- Qgt_alt in Hy];
              lra ].
  - pose proof (round_half_even_bounds x). pose proof (round_half_even_bounds y). lia.
Qed.

Lemma round_half_even_integer (k : Z) (x : Q) :
  (x == inject_Z k)%Q -> Py.round_half_even x = k.
Proof.
  intros Hx. unfold Py.round_half_even.
  assert (Qfloor x = k) as -> by (rewrite Hx; apply Qfloor_Z).
  assert ((x - inject_Z k ?= 1 # 2)%Q = Lt) as ->; [|reflexivity].
  rewrite <- Qlt_alt. lra.
Qed.

Lemma round1_monotone (x y : Q) : (x <= y)%Q -> (Py.round1 x <= Py.round1 y)%Q.
Proof.
  intros Hxy. unfold Py.round1.
  assert (Py.round_half_even (x * 10) <= Py.round_half_even (y * 10)) as Hr
    by (apply round_half_even_monotone; lra).
  rewrite Zle_Qle in Hr.
  apply Qmult_le_compat_r with (z := (/ 10)%Q) in Hr; [exact Hr | discriminate].
Qed.

(** A number of tenths is its own rounding. *)
Lemma round1_tenths (k : Z) (x : Q) :
  (x == inject_Z k / 10)%Q -> (Py.round1 x == x)%Q.
Proof.
  intros Hx. unfold Py.round1.
  rewrite (round_half_even_integer k); [symmetry; exact Hx|].
  rewrite Hx. field.
Qed.

Lemma fold_sum_bound (l : list Q) (acc m : Q) :
  Forall (fun s => (s <= m)%Q) l ->
  (fold_left Qplus l acc <= acc + inject_Z (Z.of_nat (length l)) * m)%Q.
Proof.
  intros Hall. revert acc. induction Hall as [|s l Hs _ IH]; intros acc.
  - cbn [fold_left length]. change (inject_Z (Z.of_nat 0)) with 0%Q. lra.
  - cbn [fold_left length]. eapply Qle_trans; [apply IH|].
    rewrite Nat2Z.inj_succ. unfold Z.succ. rewrite inject_Z_plus.
    change (inject_Z 1) with 1%Q. lra.
Qed.

Lemma artifact_label_is_grade (e : Equipments) (subs : list Q) :
  score_label (Artifact_init e subs) = grade (score (Artifact_init e subs)).
Proof. reflexivity. Qed.

Lemma artifact_score_tenths (e : Equipments) (subs : list Q) :
  exists k, score (Artifact_init e subs) = (inject_Z k / 10)%Q.
Proof. eexists. reflexivity. Qed.

End RoundingFacts.

Section ScoringExtraFacts.
Import Enka Scoring.

Lemma best_score (l : list Artifact) :
  l <> [] -> exists a, a ∈ l /\ Forall (fun b => (score b <= score a)%Q) l.
Proof.
  induction l as [|a l IH]; [done|]. intros _.
  destruct l as [|a' l].
  - exists a. split; [apply list_elem_of_here|]. constructor; [lra | constructor].
  - destruct IH as (m & Hm & Hall); [discriminate|].
    destruct (Qlt_le_dec (score m) (score a)) as [Hlt|Hle].
    + exists a. split; [apply list_elem_of_here|].
      constructor; [lra|]. eapply Forall_impl; [exact Hall|]. cbn. intros b Hb. lra.
    + exists m. split; [apply list_elem_of_further, Hm|].
      constructor; assumption.
Qed.

Lemma aggregate_rank_bound (artifacts : list Artifact) :
  (length artifacts <= 5)%nat ->
  Forall (fun a => exists e subs, a = Artifact_init e subs) artifacts ->
  (label_rank (artifact_total_score_label (artifact_total_score artifacts))
   <= max_list ((fun a => label_rank (score_label a)) <$> artifacts))%nat.
Proof.
  intros Hlen Hinit. rewrite artifact_total_score_label_grade.
  destruct artifacts as [|a0 l0] eqn:Hl; [vm_compute; lia|]. rewrite <- Hl in *.
  destruct (best_score artifacts) as (m & Hm & Hall); [subst; discriminate|].
  assert (Py.sum (score <$> artifacts)
          <= inject_Z (Z.of_nat (length artifacts)) * score m)%Q as Hsum.
  { unfold Py.sum. eapply Qle_trans.
    - apply (fold_sum_bound _ 0%Q (score m)). apply Forall_fmap. exact Hall.
    - rewrite length_fmap. lra. }
  assert (0 <= inject_Z (Z.of_nat (length artifacts)) <= 5)%Q as Hn.
  { split.
    - change 0%Q with (inject_Z 0). rewrite <- Zle_Qle. lia.
    - change 5%Q with (inject_Z 5). rewrite <- Zle_Qle. lia. }
  rewrite Forall_forall in Hinit. destruct (Hinit m Hm) as (e & subs & Hme).
  assert (label_rank (grade (score m))
          <= max_list ((fun a => label_rank (score_label a)) <$> artifacts))%nat as Hbest.
  { apply max_list_elem_of_le. apply list_elem_of_fmap. exists m.
    split; [|exact Hm]. rewrite Hme. reflexivity. }
  destruct (Qlt_le_dec (score m) 0) as [Hneg|Hpos].
  - assert (artifact_total_score artifacts <= 0)%Q as Htot.
    { unfold artifact_total_score.
      eapply Qle_trans; [apply round1_monotone with (y := 0%Q)|].
      - eapply Qle_trans; [exact Hsum|]. nra.
      - vm_compute. discriminate. }
    pose proof (grade_monotone (artifact_total_score artifacts / 5) 0) as Hmono.
    change (label_rank (grade 0)) with 0%nat in Hmono.
    assert (artifact_total_score artifacts / 5 <= 0)%Q as H5.
    { apply Qle_shift_div_r; [reflexivity | lra]. }
    specialize (Hmono H5). lia.
  - destruct (artifact_score_tenths e subs) as [k Hk]. rewrite <- Hme in Hk.
    assert (artifact_total_score artifacts <= 5 * score m)%Q as Htot.
    { unfold artifact_total_score.
      eapply Qle_trans; [apply round1_monotone with (y := (5 * score m)%Q)|].
      - eapply Qle_trans; [exact Hsum|]. nra.
      - apply Qle_lteq. right. apply (round1_tenths (5 * k)).
        rewrite Hk, inject_Z_mult. change (inject_Z 5) with 5%Q. field. }
    assert (artifact_total_score artifacts / 5 <= score m)%Q as H5.
    { apply Qle_shift_div_r; [reflexivity | lra]. }
    pose proof (grade_monotone _ _ H5). lia.
Qed.

Lemma find_artifacts_init (theory : string -> EquipmentsStats -> Q) (c : CharacterInfo) :
  Forall (fun a => exists e subs, a = Artifact_init e subs) (find_artifacts theory c).
Proof.
  unfold find_artifacts. apply Forall_fmap, Forall_forall. intros e _. cbn. eauto.
Qed.

End ScoringExtraFacts.

Section ScoringExtras.
Import Enka Scoring.

(** X22. With at most five artifacts equipped, the aggregate grade of a
    render is never above the grade of the best artifact: dividing the
    rounded sum by 5 gives at most the highest of the scores, and with
    no artifact the aggregate grade is ["E"]. *)
Theorem aggregate_grade_at_most_best
    (theory : string -> EquipmentsStats -> Q) (c : CharacterInfo) :
  (length (find_artifacts theory c) <= 5)%nat ->
  let rs := render_scores theory c in
  (label_rank (rs_total_score_label rs)
   <= max_list ((fun a => label_rank (score_label a)) <$> rs_artifacts rs))%nat /\
  (rs_artifacts rs = [] -> rs_total_score_label rs = "E").
Proof.
  intros Hlen. cbn zeta. cbn [render_scores rs_total_score_label rs_artifacts]. split.
  - apply aggregate_rank_bound; [exact Hlen | apply find_artifacts_init].
  - intros ->. reflexivity.
Qed.

(** A character with a weapon and two artifacts, for concrete runs. *)
Definition scored_character : CharacterInfo :=
  {| name := "Klee"; image_banner := 1%positive; skills := []; constellations := [];
     equipments :=
       [ {| eq_type := ARTIFACT; detail_icon := 2%positive;
            detail_substats := [ {| prop_id := "FIGHT_PROP_CRITICAL"; stat_value := 3.9%Q |};
                                 {| prop_id := "FIGHT_PROP_HP"; stat_value := 299%Q |} ] |};
         {| eq_type := WEAPON; detail_icon := 3%positive; detail_substats := [] |};
         {| eq_type := ARTIFACT; detail_icon := 4%positive;
            detail_substats := [ {| prop_id := "FIGHT_PROP_CRITICAL_HURT";
                                    stat_value := 7.8%Q |} ] |} ] |}.

(** A weighting for concrete runs: critical stats count double, the
    others nothing. *)
Definition critical_theory (_ : string) (s : EquipmentsStats) : Q :=
  if String.prefix "FIGHT_PROP_CRITICAL" (prop_id s) then (2 * stat_value s)%Q else 0%Q.

Lemma aggregate_grade_at_most_best_witness :
  (label_rank (rs_total_score_label (render_scores critical_theory scored_character))
   <= max_list ((fun a => label_rank (score_label a))
                  <$> rs_artifacts (render_scores critical_theory scored_character)))%nat.
Proof.
  apply (aggregate_grade_at_most_best critical_theory scored_character).
  vm_compute. lia.
Defined.

(** Of the equipment of a character, [find_artifacts] scores each
    artifact once, in the order of the equipment, with one score per
    substat, and never the weapon; [find_weapon] gives the first weapon
    of the equipment, and nothing exactly when there is none. *)
Lemma equipment_split
    (theory : string -> EquipmentsStats -> Q) (c : CharacterInfo) :
  equipment <$> find_artifacts theory c
  = filter (fun e => eq_type e = ARTIFACT) (equipments c) /\
  Forall (fun a => eq_type (equipment a) = ARTIFACT /\
                   length (substat_scores a) = length (detail_substats (equipment a)) /\
                   score a = Py.round1 (fold_left Qplus (substat_scores a) 0%Q) /\
                   score_label a = grade (score a))
         (find_artifacts theory c) /\
  (forall e, find_weapon c = Some e ->
     exists i, equipments c !! i = Some e /\ eq_type e = WEAPON /\
               forall j e', (j < i)%nat -> equipments c !! j = Some e' ->
                            eq_type e' <> WEAPON) /\
  (find_weapon c = None <->
   Forall (fun e => eq_type e <> WEAPON) (equipments c)).
Proof.
  split; [|split; [|split]].
  - unfold find_artifacts. rewrite <- list_fmap_compose. cbn.
    induction (filter _ (equipments c)) as [|e l IH]; [reflexivity|].
    cbn. rewrite IH. reflexivity.
  - unfold find_artifacts. apply Forall_fmap, Forall_forall. intros e He.
    apply list_elem_of_filter in He as [Ht _]. cbn.
    split; [exact Ht|]. split; [apply length_fmap|]. split; reflexivity.
  - unfold find_weapon. intros e He.
    induction (equipments c) as [|e0 l IH]; [discriminate|].
    rewrite filter_cons in He. destruct (decide (eq_type e0 = WEAPON)) as [Hw|Hw].
    + cbn in He. injection He as ->. exists 0%nat.
      split; [reflexivity|]. split; [exact Hw|]. intros j e' Hj. lia.
    + destruct (IH He) as (i & Hi & Ht & Hfirst). exists (S i).
      split; [exact Hi|]. split; [exact Ht|].
      intros [|j] e' Hj Hl; [cbn in Hl; congruence|].
      apply (Hfirst j e'); [lia | exact Hl].
  - unfold find_weapon. induction (equipments c) as [|e0 l IH].
    + split; [constructor | reflexivity].
    + rewrite filter_cons. destruct (decide (eq_type e0 = WEAPON)) as [Hw|Hw].
      * split; [discriminate|]. intros Hall. inversion Hall; subst. contradiction.
      * rewrite IH. split; [constructor; assumption|].
        intros Hall. inversion Hall; assumption.
Qed.

End ScoringExtras.

(** ** The holder image *)

Section HolderFacts.
Import Enka Effects Holder.

Context {A : Type}.
Variable entry : CharacterInfo -> Outcome A.

(** From index [idx <= 7] on, the loop takes the entries of the next
    [8 - idx] characters and no more. *)
Lemma holder_loop_take (k : nat) (cs : list CharacterInfo) (acc xs : list A) :
  (k <= 7)%nat ->
  Forall2 (fun c x => entry c = Return x) (take (8 - k) cs) xs ->
  holder_loop entry (Z.of_nat k) cs acc = Return (acc ++ xs).
Proof.
  revert k acc xs. induction cs as [|c cs IH]; intros k acc xs Hk Hall.
  - rewrite take_nil in Hall. inversion Hall; subst. cbn. rewrite app_nil_r. reflexivity.
  - replace (8 - k)%nat with (S (7 - k)) in Hall by lia. cbn [take] in Hall.
    inversion Hall as [|? x ? xs' Hx Hxs]; subst.
    cbn [holder_loop]. rewrite Hx.
    destruct (Z.ltb_spec 6 (Z.of_nat k)) as [Hlast|Hmore].
    + assert (k = 7)%nat as -> by lia. cbn in Hxs. inversion Hxs; subst. reflexivity.
    + replace (Z.of_nat k + 1) with (Z.of_nat (S k)) by lia.
      rewrite (IH (S k) (acc ++ [x]) xs') by (try lia; exact Hxs).
      rewrite <- app_assoc. reflexivity.
Qed.

Lemma holder_loop_prefix (k : nat) (cs : list CharacterInfo) (acc : list A) :
  (k <= 7)%nat ->
  holder_loop entry (Z.of_nat k) cs acc
  = holder_loop entry (Z.of_nat k) (take (8 - k) cs) acc.
Proof.
  revert k acc. induction cs as [|c cs IH]; intros k acc Hk.
  - rewrite take_nil. reflexivity.
  - replace (8 - k)%nat with (S (7 - k)) by lia. cbn [take holder_loop].
    destruct (entry c) as [x|e]; [|reflexivity].
    destruct (Z.ltb_spec 6 (Z.of_nat k)) as [Hlast|Hmore]; [reflexivity|].
    replace (Z.of_nat k + 1) with (Z.of_nat (S k)) by lia.
    rewrite (IH (S k)) by lia. reflexivity.
Qed.

End HolderFacts.

Section HolderExtras.
Import Enka Effects Holder PlayerCards.

(** X24. The holder image shows the first eight characters of the
    roster and no more: the loop stops after the character of index 7,
    so the entries are those of the first eight, in order, their number
    is the smaller of eight and the size of the roster, and the
    characters after the eighth are not looked at. *)
Theorem parse_holder_first_eight
    {A : Type} (entry : CharacterInfo -> Outcome A)
    (cs : list CharacterInfo) (xs : list A) :
  Forall2 (fun c x => entry c = Return x) (take 8 cs) xs ->
  parse_holder_characters entry cs = Return xs /\
  length xs = holder_characters cs /\
  length xs = Nat.min 8 (length cs) /\
  parse_holder_characters entry (take 8 cs) = Return xs.
Proof.
  intros Hall. unfold parse_holder_characters.
  assert (length xs = length (take 8 cs)) as Hlen
    by (symmetry; eapply Forall2_length; exact Hall).
  split; [|split; [|split]].
  - apply (holder_loop_take entry 0 cs [] xs); [lia | exact Hall].
  - exact Hlen.
  - rewrite Hlen, length_take. lia.
  - pose proof (holder_loop_prefix entry 0 cs [] ltac:(lia)) as Hpre.
    change (Z.of_nat 0) with 0 in Hpre. change (8 - 0)%nat with 8%nat in Hpre.
    rewrite <- Hpre.
    apply (holder_loop_take entry 0 cs [] xs); [lia | exact Hall].
Qed.

Lemma parse_holder_first_eight_witness :
  parse_holder_characters (fun c => Return (name c))
    (default [] (characters (Pagination.sample_roster 10)))
  = Return ["0"; "1"; "2"; "3"; "4"; "5"; "6"; "7"].
Proof.
  apply (parse_holder_first_eight (fun c => Return (name c))
           (default [] (characters (Pagination.sample_roster 10)))
           ["0"; "1"; "2"; "3"; "4"; "5"; "6"; "7"]).
  vm_compute. repeat constructor.
Defined.

End HolderExtras.

(** ** The command *)

Section CommandFacts.
Import Enka Effects Pagination PlayerCards Command.

Variable cw : CommandWorld.

Lemma on_stores_returns {A} (c : M Stores A) (s : State) (a : A) :
  c (stores s) = (Return a, stores s) -> on_stores c s = (Return a, s).
Proof. intros H. unfold on_stores. rewrite H. destruct s; reflexivity. Qed.

(** [player_cards] for a user bound to [player_id], once the typing
    action is sent. *)
Lemma player_cards_bound (user player_id : Z) (args : list string) (s : State) :
  get_player cw user = Return (Some player_id) ->
  player_cards cw user args s
  = (data <- on_stores (_load_history (base cw) player_id) ;;
     match data with
     | None =>
         reply_kitsune cw "角色列表未找到，请尝试点击下方按钮从 EnkaNetwork 更新角色列表"
           [[ update_panel_button user player_id ]]
     | Some data =>
         match args with
         | [arg] =>
             let character_name := roleToName cw arg in
             match characters data with
             | None => raise TypeError
             | Some cs =>
                 match list_find (fun c => name c = character_name) cs with
                 | None => send (ReplyText (not_in_showcase character_name) None)
                 | Some (_, c) =>
                     send (ChatAction "upload_photo") ;;;
                     send (RenderCard player_id (name c)
                             ("player_card_" +:+ pretty player_id +:+ "_"
                              +:+ character_name +:+ ".png"))
                 end
             end
         | _ =>
             ttl <- on_stores (cache_ttl (base cw) player_id) ;;
             reply_kitsune cw "请选择你要查询的角色"
               (gen_button data user player_id 1 (ttl <? 0))
         end
     end)
    {| stores := stores s; kitsune := kitsune s;
       sent := sent s ++ [ChatAction "typing"] |}.
Proof.
  intros Hp. unfold player_cards. unfold bind at 1. unfold send at 1.
  unfold bind at 1. unfold lift. rewrite Hp. reflexivity.
Qed.

End CommandFacts.

Section CommandExtras.
Import Enka Effects Pagination PlayerCards Command.

(** X25. For a bound user whose profile has no stored history, the
    command answers with the placeholder photo and one button, whatever
    the arguments, and reads or writes nothing else; the token of that
    button reads back as this user and this profile, so the press of it
    by the same user is a refresh of the profile. *)
Theorem command_offers_refresh
    (cw : CommandWorld) (user player_id : Z) (args : list string) (s : State) :
  get_player cw user = Return (Some player_id) ->
  fault (base cw) AtHistoryLoad = None ->
  history (stores s) !! player_id = None ->
  (forall z, int_of_str (base cw) (pretty z) = Return z) ->
  let res := player_cards cw user args s in
  let photo := match kitsune s with
               | Some file_id => PhotoFileId file_id
               | None => PhotoFile "resources/img/kitsune.png"
               end in
  res.1 = Return tt /\
  stores res.2 = stores s /\
  sent res.2
  = sent s ++ [ChatAction "typing";
               ReplyPhoto photo
                 "角色列表未找到，请尝试点击下方按钮从 EnkaNetwork 更新角色列表"
                 (Some (Keyboard [[update_panel_button user player_id]]))] /\
  update_callback (base cw) (callback_data (update_panel_button user player_id))
    (stores res.2)
  = (Return (user, player_id), stores res.2).
Proof.
  intros Hp Hf Hh Hint. cbn zeta.
  rewrite (player_cards_bound cw user player_id args s Hp).
  erewrite bind_returns.
  2: { apply on_stores_returns. cbn [stores].
       apply load_history_missing; assumption. }
  cbn. rewrite <- app_assoc.
  split; [reflexivity|]. split; [reflexivity|]. split; [reflexivity|].
  eapply update_callback_fields; [apply update_token_fields | apply Hint | apply Hint].
Qed.

Lemma command_offers_refresh_witness :
  sent (player_cards sample_command_world 6 [] fresh_state).2
  = sent fresh_state
    ++ [ChatAction "typing";
        ReplyPhoto (PhotoFile "resources/img/kitsune.png")
          "角色列表未找到，请尝试点击下方按钮从 EnkaNetwork 更新角色列表"
          (Some (Keyboard [[update_panel_button 6 7]]))].
Proof.
  destruct (command_offers_refresh sample_command_world 6 7 [] fresh_state)
    as (_ & _ & Hsent & _).
  - reflexivity.
  - reflexivity.
  - reflexivity.
  - intros z. apply decimal_int_pretty.
  - exact Hsent.
Defined.

(** X26. The placeholder photo is uploaded from its file only while no
    identifier is known: once [kitsune] holds an identifier, every
    photo the command sends uses that identifier, and [kitsune] holds
    an identifier ever after; and when the command sends a photo and
    Telegram returns an identifier, [kitsune] holds it afterwards. *)
Theorem placeholder_uploaded_once
    (cw : CommandWorld) (user : Z) (args : list string) (s : State) :
  let s' := (player_cards cw user args s).2 in
  exists replies,
    sent s' = sent s ++ replies /\
    (forall file_id, kitsune s = Some file_id ->
       is_Some (kitsune s') /\
       forall photo caption markup,
         ReplyPhoto photo caption markup ∈ replies -> photo = PhotoFileId file_id) /\
    (forall file_id photo caption markup,
       uploaded_file_id cw = Some file_id ->
       ReplyPhoto photo caption markup ∈ replies ->
       kitsune s' = Some file_id).
Proof.
  cbn zeta.
  unfold player_cards, reply_kitsune, on_stores, send, lift, bind, ret, raise.
  repeat (case_match; simplify_eq/=).
  all: eexists; split;
         [first [ rewrite <- ?app_assoc; reflexivity
                | symmetry; apply app_nil_r ]|].
  all: split;
         [ intros file_id Hk; split; [rewrite ?Hk; eauto|];
           intros photo caption markup Hin; set_unfold in Hin;
           intuition (simplify_eq; congruence)
         | intros file_id photo caption markup Hup Hin; set_unfold in Hin;
           intuition (simplify_eq; congruence) ].
Qed.



End CommandExtras.

(** ** The statistics command *)

Section StatsExtras.
Import PlayerStats.

(** X28. When the service answers the render with the code 1034, the
    user gets the "try again later" text only if a uid is bound at that
    point and is not zero: with a uid argument other than 0, or after
    the switch to the public client, which binds the uid it found. A
    user with cookies who gives no argument, or the argument 0, gets no
    text: the exception goes on to the caller. *)
Theorem stats_1034_text_needs_uid (w : World) (user : Z) (e : Exn) :
  isinstance e PlayerNotFoundError = false ->
  isinstance e GenshinException = true ->
  retcode e = 1034 ->
  (forall client arg uid rest,
      int_of_str w arg = Some uid ->
      get_genshin_client w user = Ok client ->
      render_user w client uid = Err e ->
      command_start w user (Some (arg :: rest))
      = if uid =? 0 then ([], Some e)
        else ([ReplyText "出错了呜呜呜 ~ 请稍后重试" false], None)) /\
  (forall client,
      get_genshin_client w user = Ok client ->
      render_user w client client = Err e ->
      command_start w user None = ([], Some e) /\
      command_start w user (Some []) = ([], Some e)) /\
  (forall e0 client uid,
      get_genshin_client w user = Err e0 ->
      isinstance e0 CookiesNotFoundError = true ->
      get_public_genshin_client w user = Ok (client, uid) ->
      render_user w client uid = Err e ->
      command_start w user None
      = if uid =? 0 then ([], Some e)
        else ([ReplyText "出错了呜呜呜 ~ 请稍后重试" false], None)).
Proof.
  intros Hpnf Hge Hcode. split; [|split].
  - intros client arg uid rest Hint Hclient Hrender.
    unfold command_start, attempt, render. rewrite Hint, Hclient, Hrender.
    unfold handle, truthy. rewrite Hpnf, Hge, Hcode.
    destruct (uid =? 0); reflexivity.
  - intros client Hclient Hrender.
    unfold command_start, attempt, render. rewrite Hclient, Hrender.
    unfold handle, truthy. rewrite Hpnf, Hge, Hcode. split; reflexivity.
  - intros e0 client uid Hclient Hc Hpublic Hrender.
    unfold command_start, attempt, render. rewrite Hclient, Hc, Hpublic, Hrender.
    unfold handle, truthy. rewrite Hpnf, Hge, Hcode.
    destruct (uid =? 0); reflexivity.
Qed.

Lemma stats_1034_text_needs_uid_witness :
  command_start busy_world 6 None = ([], Some (plain GenshinException 1034)) /\
  command_start busy_world 6 (Some ["7"])
  = ([ReplyText "出错了呜呜呜 ~ 请稍后重试" false], None).
Proof.
  destruct (stats_1034_text_needs_uid busy_world 6 (plain GenshinException 1034)
              eq_refl eq_refl eq_refl) as (Harg & Hnone & _).
  split.
  - apply (Hnone 7); reflexivity.
  - exact (Harg 7 "7" 7 [] eq_refl eq_refl eq_refl).
Defined.

(** X29. What the uid argument does: an argument that is no number is
    answered with "wrong input" and no client is asked for; and for a
    user without cookies the argument has no effect, the statistics
    shown are those of the uid the public client was found for. *)
Theorem stats_uid_argument (w : World) (user : Z) (arg : string) (rest : list string) :
  (int_of_str w arg = None ->
   command_start w user (Some (arg :: rest)) = ([ReplyText "输入错误" false], None)) /\
  (forall e client uid,
      get_genshin_client w user = Err e ->
      isinstance e CookiesNotFoundError = true ->
      get_public_genshin_client w user = Ok (client, uid) ->
      is_Some (int_of_str w arg) ->
      command_start w user (Some (arg :: rest)) = command_start w user None /\
      command_start w user None
      = match render_user w client uid with
        | Ok _ => ([ChatAction "upload_photo"; ReplyPhoto (pretty client +:+ ".png")], None)
        | Err e' => handle w e' (Some uid)
        end).
Proof.
  split.
  - intros Hint. unfold command_start. rewrite Hint. reflexivity.
  - intros e client uid Hclient Hc Hpublic [u Hint].
    unfold command_start, attempt, render.
    rewrite Hint, Hclient, Hc, Hpublic.
    destruct (render_user w client uid); split; reflexivity.
Qed.

Lemma stats_uid_argument_witness :
  command_start busy_world 6 (Some ["abc"]) = ([ReplyText "输入错误" false], None) /\
  command_start busy_world 5 (Some ["7"]) = command_start busy_world 5 None.
Proof.
  destruct (stats_uid_argument busy_world 6 "abc" []) as [Hbad _].
  destruct (stats_uid_argument busy_world 5 "7" []) as [_ Hpub].
  split.
  - apply Hbad. reflexivity.
  - apply (Hpub (plain CookiesNotFoundError 0) 8 9); [reflexivity..|].
    eexists. reflexivity.
Defined.

End StatsExtras.

(** ** The start command *)

Section StartExtras.
Import Start.

(** X30. A start argument [challenge_...] is cut at its underscores:
    with a single field after the prefix the handler raises
    [IndexError] and sends nothing; with a first field other than
    [sign] it sends nothing at all; with the first field [sign] the
    second field alone, up to the next underscore, is the validation
    string handed to the signing, whose text is sent after the typing
    action. Such an argument never gets the generic "click the command"
    reply. *)
Theorem start_challenge_argument
    (w : World) (user : Z) (tail : string) (rest : list string) :
  let arg := "challenge_" +:+ tail in
  (forall c,
      Py.split "_" tail = [c] ->
      start w user (Some (arg :: rest)) = ([], Some IndexError)) /\
  (forall c v more,
      Py.split "_" tail = c :: v :: more ->
      start w user (Some (arg :: rest))
      = if String.eqb c "sign" then process_sign_validate w user v else ([], None)) /\
  (forall v more client challenge text,
      Py.split "_" tail = "sign" :: v :: more ->
      get_genshin_client w user = Ok client ->
      get_challenge w client = Ok (Some challenge) ->
      challenge <> "" ->
      start_sign w client challenge v = Ok text ->
      start w user (Some (arg :: rest)) = ([ChatAction "typing"; ReplyText text], None)).
Proof.
  cbn zeta.
  assert (Py.split "_" ("challenge_" +:+ tail) = "challenge" :: Py.split "_" tail)
    as Hfields.
  { change ("challenge_" +:+ tail) with ("challenge" +:+ String "_" tail).
    apply split_field. reflexivity. }
  assert (String.eqb ("challenge_" +:+ tail) "inline_message" = false) as Hk1
    by reflexivity.
  assert (String.eqb ("challenge_" +:+ tail) "set_cookie" = false) as Hk2
    by reflexivity.
  assert (String.eqb ("challenge_" +:+ tail) "set_uid" = false) as Hk3
    by reflexivity.
  assert (String.eqb ("challenge_" +:+ tail) "verify_verification" = false) as Hk4
    by reflexivity.
  assert (String.eqb ("challenge_" +:+ tail) "sign" = false) as Hk5
    by reflexivity.
  assert (String.prefix "challenge_" ("challenge_" +:+ tail) = true) as Hpre
    by (apply String.prefix_correct; destruct tail; reflexivity).
  assert (forall c v more,
             Py.split "_" tail = c :: v :: more ->
             start w user (Some (("challenge_" +:+ tail) :: rest))
             = if String.eqb c "sign" then process_sign_validate w user v
               else ([], None)) as Hthree.
  { intros c v more Hs. unfold start.
    rewrite Hk1, Hk2, Hk3, Hk4, Hk5, Hpre, Hfields, Hs. reflexivity. }
  split; [|split].
  - intros c Hs. unfold start.
    rewrite Hk1, Hk2, Hk3, Hk4, Hk5, Hpre, Hfields, Hs. reflexivity.
  - exact Hthree.
  - intros v more client challenge text Hs Hclient Hch Hne Hsign.
    rewrite (Hthree "sign" v more Hs).
    replace (String.eqb "sign" "sign") with true by reflexivity.
    unfold process_sign_validate. rewrite Hclient, Hch.
    destruct challenge as [|a challenge]; [done|]. rewrite Hsign. reflexivity.
Qed.

Lemma start_challenge_argument_witness :
  start sample_world 6 (Some ["challenge_sign"]) = ([], Some IndexError) /\
  start sample_world 6 (Some ["challenge_sign_v1_x"])
  = ([ChatAction "typing"; ReplyText "v1"], None).
Proof.
  destruct (start_challenge_argument sample_world 6 "sign" []) as (Hone & _).
  destruct (start_challenge_argument sample_world 6 "sign_v1_x" []) as (_ & _ & Hsign).
  split.
  - apply (Hone "sign"). reflexivity.
  - apply (Hsign "v1" ["x"] 7 "abc" "v1"); try reflexivity. discriminate.
Defined.

End StartExtras.

(** ** Rendering: what the clone holds after the mirroring *)

Section CloneFacts.
Import Enka Effects Render.

(** The image objects of a character, in the order [cache_images]
    visits them. *)
Definition icon_locs (c : CharacterInfo) : list loc :=
  image_banner c :: skills c ++ constellations c ++ (detail_icon <$> equipments c).

(** The state of a deep copy of the objects [done] of the heap [h],
    whose copies are [done']: the memo knows of copied objects only,
    the heap still holds [h], each copy holds what its original holds,
    and the copies are new and distinct. *)
Definition copied (h : gmap loc Obj) (done done' : list loc)
    (st : gmap loc loc * gmap loc Obj) : Prop :=
  (forall l, is_Some (st.1 !! l) -> l ∈ done) /\
  kept h st.2 /\
  Forall2 (fun l l' => st.2 !! l' = h !! l /\ is_Some (h !! l)) done done' /\
  NoDup done' /\
  Forall (fun l' => h !! l' = None) done'.

Lemma copied_start (h : gmap loc Obj) : copied h [] [] (∅, h).
Proof.
  split; [intros l [x Hx]; cbn in Hx; rewrite lookup_empty in Hx; discriminate|].
  split; [apply kept_refl|]. split; [constructor|]. split; constructor.
Qed.

Lemma copy_obj_new (h : gmap loc Obj) (done done' : list loc)
    (st : gmap loc loc * gmap loc Obj) (l : loc) :
  copied h done done' st ->
  l ∉ done ->
  is_Some (h !! l) ->
  copied h (done ++ [l]) (done' ++ [(copy_obj st l).2]) (copy_obj st l).1.
Proof.
  intros (Hmemo & Hkept & Hpairs & Hnodup & Hnew) Hl [o Ho].
  unfold copy_obj.
  destruct (st.1 !! l) as [l0|] eqn:Hm.
  { destruct Hl. apply Hmemo. rewrite Hm. eauto. }
  assert (st.2 !! l = Some o) as Hcur by (rewrite (Hkept l) by eauto; exact Ho).
  rewrite Hcur. cbn [fst snd].
  set (l' := fresh (dom st.2)).
  assert (st.2 !! l' = None) as Hfresh by (apply not_elem_of_dom, is_fresh).
  assert (h !! l' = None) as Hout by (apply (kept_outside h st.2); assumption).
  unfold copied. cbn [fst snd].
  split; [|split; [|split; [|split]]].
  - intros l1 Hsome. destruct (decide (l = l1)) as [->|Hne].
    + apply elem_of_app. right. apply list_elem_of_here.
    + rewrite lookup_insert_ne in Hsome by assumption.
      apply elem_of_app. left. apply Hmemo, Hsome.
  - apply kept_insert; assumption.
  - apply Forall2_app.
    + eapply Forall2_impl; [exact Hpairs|]. cbn. intros a a' [Ha Hs].
      split; [|exact Hs]. rewrite lookup_insert_ne; [exact Ha|].
      intros <-. rewrite Hfresh in Ha. destruct Hs as [x Hx]. congruence.
    + constructor; [|constructor]. split; [|eauto].
      rewrite lookup_insert_eq. symmetry. exact Ho.
  - apply NoDup_app. split; [exact Hnodup|]. split; [|apply NoDup_singleton].
    intros a' Ha' Hin. apply list_elem_of_singleton in Hin. subst a'.
    apply list_elem_of_lookup in Ha' as [i Hi].
    destruct (Forall2_lookup_r _ _ _ _ _ Hpairs Hi) as (a & _ & Ha & [x Hx]).
    rewrite Hfresh in Ha. congruence.
  - apply Forall_app. split; [exact Hnew|]. constructor; [exact Hout | constructor].
Qed.

Lemma copy_objs_new (h : gmap loc Obj) (ls done done' : list loc)
    (st : gmap loc loc * gmap loc Obj) :
  copied h done done' st ->
  NoDup (done ++ ls) ->
  Forall (fun l => is_Some (h !! l)) ls ->
  copied h (done ++ ls) (done' ++ (copy_objs st ls).2) (copy_objs st ls).1.
Proof.
  revert done done' st. induction ls as [|l ls IH]; intros done done' st Hst Hnd Hall.
  - cbn. rewrite !app_nil_r. exact Hst.
  - inversion Hall as [|? ? Hl Hls]; subst. cbn [copy_objs fst snd].
    replace (done ++ l :: ls) with ((done ++ [l]) ++ ls) in *
      by (rewrite <- app_assoc; reflexivity).
    replace (done' ++ (copy_obj st l).2 :: (copy_objs (copy_obj st l).1 ls).2)
      with ((done' ++ [(copy_obj st l).2]) ++ (copy_objs (copy_obj st l).1 ls).2)
      by (rewrite <- app_assoc; reflexivity).
    apply IH; [|exact Hnd|exact Hls].
    apply copy_obj_new; [exact Hst| |exact Hl].
    apply NoDup_app in Hnd as (Hnd & _ & _).
    apply NoDup_app in Hnd as (_ & Hdis & _).
    intros Hin. apply (Hdis l Hin), list_elem_of_here.
Qed.

Lemma copy_equipments_new (h : gmap loc Obj) (es : list Equipments)
    (done done' : list loc) (st : gmap loc loc * gmap loc Obj) :
  copied h done done' st ->
  NoDup (done ++ (detail_icon <$> es)) ->
  Forall (fun e => is_Some (h !! detail_icon e)) es ->
  copied h (done ++ (detail_icon <$> es))
    (done' ++ (detail_icon <$> (copy_equipments st es).2)) (copy_equipments st es).1 /\
  Forall2 (fun e e' => eq_type e' = eq_type e /\ detail_substats e' = detail_substats e)
    es (copy_equipments st es).2.
Proof.
  revert done done' st. induction es as [|e es IH]; intros done done' st Hst Hnd Hall.
  - cbn. rewrite !app_nil_r. split; [exact Hst | constructor].
  - inversion Hall as [|? ? He Hes]; subst. rewrite fmap_cons in Hnd.
    cbn [copy_equipments fst snd]. rewrite !fmap_cons. cbn [detail_icon].
    replace (done ++ detail_icon e :: (detail_icon <$> es))
      with ((done ++ [detail_icon e]) ++ (detail_icon <$> es)) in *
      by (rewrite <- app_assoc; reflexivity).
    match goal with
    | |- copied _ _ (done' ++ ?x :: ?xs) _ /\ _ =>
        replace (done' ++ x :: xs) with ((done' ++ [x]) ++ xs)
          by (rewrite <- app_assoc; reflexivity)
    end.
    destruct (IH (done ++ [detail_icon e]) (done' ++ [(copy_obj st (detail_icon e)).2])
                (copy_obj st (detail_icon e)).1) as [Hc Hf]; [|exact Hnd|exact Hes|].
    + apply copy_obj_new; [exact Hst| |exact He].
      apply NoDup_app in Hnd as (Hnd & _ & _).
      apply NoDup_app in Hnd as (_ & Hdis & _).
      intros Hin. apply (Hdis _ Hin), list_elem_of_here.
    + split; [exact Hc|]. constructor; [split; reflexivity | exact Hf].
Qed.

End CloneFacts.

Section MirrorFacts.
Import Enka Effects Render.
Variable download_resource : string -> Outcome string.
Variable path : string -> string.

(** What an image object becomes when its address is replaced by the
    local path of the mirrored image. *)
Definition mirrored (o : Obj) : Obj :=
  match o with
  | Icon url => Icon (path url)
  | Exploration icon cover => Exploration (path icon) (path cover)
  end.

(** The object at [l] is an icon whose image can be downloaded. *)
Definition downloadable (h : gmap loc Obj) (l : loc) : Prop :=
  exists url, h !! l = Some (Icon url) /\ download_resource url = Return (path url).

Lemma bind_ext {S A B} (c : M S A) (k k' : A -> M S B) (s : S) :
  (forall a s', k a s' = k' a s') -> bind c k s = bind c k' s.
Proof. intros Hk. unfold bind. destruct (c s) as [[a|e] s']; [apply Hk | reflexivity]. Qed.

Lemma for_each_app {S A} (body : A -> M S unit) (l1 l2 : list A) (s : S) :
  for_each body (l1 ++ l2) s = (for_each body l1 ;;; for_each body l2) s.
Proof.
  revert s. induction l1 as [|x l1 IH]; intros s; cbn [for_each app].
  - reflexivity.
  - unfold bind. destruct (body x s) as [[[]|e] s']; [|reflexivity].
    rewrite IH. reflexivity.
Qed.

Lemma for_each_fmap {S A B} (g : A -> B) (body : B -> M S unit) (l : list A) (s : S) :
  for_each (fun x => body (g x)) l s = for_each body (g <$> l) s.
Proof.
  revert s. induction l as [|x l IH]; intros s; [reflexivity|].
  rewrite fmap_cons. cbn [for_each]. apply bind_ext. intros _ s'. apply IH.
Qed.

(** [cache_images] is one loop over the image objects. *)
Lemma cache_images_loop (c : CharacterInfo) (h : gmap loc Obj) :
  cache_images download_resource c h
  = for_each (mirror_url download_resource) (icon_locs c) h.
Proof.
  unfold cache_images, icon_locs. cbn [for_each]. apply bind_ext. intros _ s1.
  rewrite for_each_app. apply bind_ext. intros _ s2.
  rewrite for_each_app. apply bind_ext. intros _ s3.
  apply for_each_fmap.
Qed.

Lemma mirror_loop (ls : list loc) (h : gmap loc Obj) :
  NoDup ls ->
  Forall (downloadable h) ls ->
  exists h',
    for_each (mirror_url download_resource) ls h = (Return tt, h') /\
    (forall l, l ∉ ls -> h' !! l = h !! l) /\
    Forall (fun l => h' !! l = mirrored <$> h !! l) ls.
Proof.
  revert h. induction ls as [|l ls IH]; intros h Hnd Hall.
  - exists h. split; [reflexivity|]. split; [reflexivity | constructor].
  - inversion Hnd as [|? ? Hl Hnd']; subst.
    inversion Hall as [|? ? (url & Hurl & Hdl) Hall']; subst.
    destruct (IH (<[l := Icon (path url)]> h) Hnd') as (h' & Hrun & Hout & Hin).
    { rewrite Forall_forall in Hall' |- *. intros x Hx.
      destruct (Hall' x Hx) as (u & Hu & Hd). exists u. split; [|exact Hd].
      rewrite lookup_insert_ne; [exact Hu|]. intros ->. contradiction. }
    exists h'. cbn [for_each]. unfold bind, mirror_url at 1. rewrite Hurl, Hdl.
    split; [exact Hrun|]. split.
    + intros x Hx. rewrite Hout by (intros Hx'; apply Hx; right; exact Hx').
      apply lookup_insert_ne. intros ->. apply Hx. left.
    + constructor.
      * rewrite (Hout l Hl), lookup_insert_eq, Hurl. reflexivity.
      * rewrite Forall_forall in Hin |- *. intros x Hx. rewrite (Hin x Hx).
        rewrite lookup_insert_ne; [reflexivity|]. intros ->. contradiction.
Qed.

End MirrorFacts.

Section CloneImages.
Import Enka Effects Render.

Lemma character_images_locs (h : gmap loc Obj) (c : CharacterInfo) :
  character_images h c = (fun l => h !! l) <$> icon_locs c.
Proof.
  unfold character_images, icon_locs.
  rewrite fmap_cons, !fmap_app, <- list_fmap_compose. reflexivity.
Qed.

Lemma copy_character_new (c : CharacterInfo) (h : gmap loc Obj) :
  NoDup (icon_locs c) ->
  Forall (fun l => is_Some (h !! l)) (icon_locs c) ->
  exists c' memo,
    (copy_character c h).1 = Return c' /\
    name c' = name c /\
    copied h (icon_locs c) (icon_locs c') (memo, (copy_character c h).2) /\
    Forall2 (fun e e' => eq_type e' = eq_type e /\ detail_substats e' = detail_substats e)
      (equipments c) (equipments c').
Proof.
  intros Hnd Hall. unfold icon_locs in Hnd, Hall.
  change (image_banner c :: ?t) with ([image_banner c] ++ t) in Hnd, Hall.
  rewrite !app_assoc in Hnd. 
  apply Forall_app in Hall as [Hb Hall]. apply Forall_app in Hall as [Hs Hall].
  apply Forall_app in Hall as [Hk He]. inversion Hb as [|? ? Hb' _]; subst.
  rewrite Forall_fmap in He.
  pose proof (copy_obj_new h [] [] (∅, h) (image_banner c) (copied_start h)) as H1.
  cbn [app] in H1.
  assert (image_banner c ∉ []) as Hnil by (apply not_elem_of_nil).
  specialize (H1 Hnil Hb').
  set (b := copy_obj (∅, h) (image_banner c)) in *.
  pose proof (copy_objs_new h (skills c) _ _ b.1 H1) as H2.
  set (s := copy_objs b.1 (skills c)) in *.
  assert (NoDup (([image_banner c] ++ skills c) ++ constellations c)) as Hnd2
    by (apply NoDup_app in Hnd as (Hnd & _ & _); exact Hnd).
  assert (NoDup ([image_banner c] ++ skills c)) as Hnd1
    by (apply NoDup_app in Hnd2 as (Hnd2 & _ & _); exact Hnd2).
  specialize (H2 Hnd1 Hs).
  pose proof (copy_objs_new h (constellations c) _ _ s.1 H2 Hnd2 Hk) as H3.
  set (k := copy_objs s.1 (constellations c)) in *.
  destruct (copy_equipments_new h (equipments c) _ _ k.1 H3 Hnd He) as [H4 Hf].
  set (e := copy_equipments k.1 (equipments c)) in *.
  exists {| name := name c; image_banner := b.2; skills := s.2;
            constellations := k.2; equipments := e.2 |}, e.1.1.
  split; [reflexivity|]. split; [reflexivity|]. split; [|exact Hf].
  unfold icon_locs. cbn [image_banner skills constellations equipments].
  change (copy_character c h).2 with e.1.2.
  change (?x :: ?t) with ([x] ++ t). rewrite !app_assoc.
  destruct e as [[m hp] es]. exact H4.
Qed.

Lemma fmap_lookup_pairs (h h' : gmap loc Obj) (g : Obj -> Obj) (ls ls' : list loc) :
  Forall2 (fun l l' => h' !! l' = g <$> h !! l) ls ls' ->
  (fun l => h' !! l) <$> ls' = fmap g <$> ((fun l => h !! l) <$> ls).
Proof.
  induction 1 as [|l l' ls ls' Hl _ IH]; [reflexivity|].
  rewrite !fmap_cons, Hl, IH. reflexivity.
Qed.

Lemma find_artifacts_scores (theory : string -> EquipmentsStats -> Q)
    (c c' : CharacterInfo) :
  name c' = name c ->
  Forall2 (fun e e' => eq_type e' = eq_type e /\ detail_substats e' = detail_substats e)
    (equipments c) (equipments c') ->
  Scoring.score <$> Scoring.find_artifacts theory c'
  = Scoring.score <$> Scoring.find_artifacts theory c.
Proof.
  intros Hn Hf. unfold Scoring.find_artifacts. rewrite Hn.
  induction Hf as [|e e' es es' [Ht Hs] _ IH]; [reflexivity|].
  rewrite !filter_cons, Ht.
  destruct (decide (eq_type e = ARTIFACT)); [|exact IH].
  rewrite !fmap_cons, IH. unfold Scoring.Artifact_init at 1 3.
  cbn [Scoring.score]. rewrite Hs. reflexivity.
Qed.

End CloneImages.

Section RenderOutcome.
Import Enka Effects Render.

(** A character whose image objects are all distinct. *)
Definition plain_character : CharacterInfo :=
  {| name := "Klee"; image_banner := 1%positive;
     skills := [2%positive]; constellations := [];
     equipments := [ {| eq_type := WEAPON; detail_icon := 3%positive;
                        detail_substats := [] |} ] |}.

Definition sample_path (url : string) : string := "file:///cache/" +:+ url.

Lemma copied_downloadable (download_resource : string -> Outcome string)
    (path : string -> string) (h h1 : gmap loc Obj) (ls ls' : list loc) :
  Forall2 (fun l l' => h1 !! l' = h !! l /\ is_Some (h !! l)) ls ls' ->
  Forall (downloadable download_resource path h) ls ->
  Forall (downloadable download_resource path h1) ls'.
Proof.
  induction 1 as [|l l' ls ls' [Hl _] _ IH]; intros Hall; [constructor|].
  inversion Hall as [|? ? (u & Hu & Hd) Hall']; subst.
  constructor; [|apply IH, Hall']. exists u. split; [congruence | exact Hd].
Qed.

(** X23. What a render of a character returns is decided by the
    downloads, when the image objects of the character are distinct
    icons. If every image downloads, the render returns the clone with
    the scores computed on it; the clone has the name of the original,
    each of its images holds the local path of the image the original
    holds at the same place, and its total score and grade are those of
    the original. If the images before some image download and that
    image does not, the render raises the exception of that download. *)
Theorem render_outcome_follows_downloads
    (download_resource : string -> Outcome string) (path : string -> string)
    (theory : string -> EquipmentsStats -> Q)
    (uid : Z) (c : CharacterInfo) (h : gmap loc Obj) :
  NoDup (icon_locs c) ->
  Forall (fun l => exists url, h !! l = Some (Icon url)) (icon_locs c) ->
  (Forall (downloadable download_resource path h) (icon_locs c) ->
   exists c' h',
     render_character download_resource theory uid c h
     = (Return (c', Scoring.render_scores theory c'), h') /\
     name c' = name c /\
     character_images h' c' = fmap (M:=option) (mirrored path) <$> character_images h c /\
     Scoring.rs_total_score (Scoring.render_scores theory c')
     = Scoring.rs_total_score (Scoring.render_scores theory c) /\
     Scoring.rs_total_score_label (Scoring.render_scores theory c')
     = Scoring.rs_total_score_label (Scoring.render_scores theory c)) /\
  (forall pre l post url e,
     icon_locs c = pre ++ l :: post ->
     Forall (downloadable download_resource path h) pre ->
     h !! l = Some (Icon url) ->
     download_resource url = Raise e ->
     (render_character download_resource theory uid c h).1 = Raise e).
Proof.
  intros Hnd Hicons.
  assert (Forall (fun l => is_Some (h !! l)) (icon_locs c)) as Hsome.
  { eapply Forall_impl; [exact Hicons|]. cbn. intros l [u Hu]. eauto. }
  destruct (copy_character_new c h Hnd Hsome)
    as (c' & memo & Hc & Hname & (_ & _ & Hpairs & Hnd' & _) & Hfields).
  destruct (copy_character c h) as [o h1] eqn:Hcopy.
  cbn [fst snd] in Hc, Hpairs. subst o.
  assert (render_character download_resource theory uid c h
          = (for_each (mirror_url download_resource) (icon_locs c') ;;;
             ret (c', Scoring.render_scores theory c')) h1) as ->.
  { unfold render_character, RenderTemplate_init, render.
    unfold bind at 1 2. rewrite Hcopy. unfold ret at 1. cbn [rt_character].
    unfold bind. rewrite cache_images_loop. reflexivity. }
  split.
  - intros Hall.
    destruct (mirror_loop download_resource path (icon_locs c') h1 Hnd')
      as (h' & Hrun & _ & Hin).
    { eapply copied_downloadable; eassumption. }
    unfold bind. rewrite Hrun. exists c', h'. split; [reflexivity|]. split; [exact Hname|].
    split; [|split].
    + rewrite !character_images_locs. apply fmap_lookup_pairs.
      clear -Hpairs Hin. induction Hpairs as [|l l' ls ls' [Hl _] _ IH]; [constructor|].
      inversion Hin as [|? ? Hl' Hin']; subst.
      constructor; [rewrite Hl', Hl; reflexivity | apply IH, Hin'].
    + unfold Scoring.render_scores, Scoring.artifact_total_score.
      cbn [Scoring.rs_total_score].
      rewrite (find_artifacts_scores theory c c' Hname Hfields). reflexivity.
    + unfold Scoring.render_scores, Scoring.artifact_total_score.
      cbn [Scoring.rs_total_score_label].
      rewrite (find_artifacts_scores theory c c' Hname Hfields). reflexivity.
  - intros pre l post url e Hsplit Hpre Hl Hdl.
    rewrite Hsplit in Hpairs.
    apply Forall2_app_inv_l in Hpairs as (pre' & rest' & Hpre' & Hrest & Heq).
    inversion Hrest as [|? l' ? post' [Hl' _] Hpost']; subst.
    rewrite Heq in Hnd' |- *.
    apply NoDup_app in Hnd' as (Hndpre & Hdis & _).
    destruct (mirror_loop download_resource path pre' h1 Hndpre)
      as (h2 & Hrun & Hout & _).
    { eapply copied_downloadable; eassumption. }
    unfold bind at 1. rewrite for_each_app. unfold bind at 1. rewrite Hrun.
    cbn [for_each]. unfold bind, mirror_url.
    rewrite Hout by (intros Hin; apply (Hdis l' Hin); left).
    rewrite Hl', Hl, Hdl. reflexivity.
Qed.

Lemma render_outcome_follows_downloads_witness :
  exists c' h',
    render_character sample_download (fun _ _ => 0%Q) 7 plain_character sample_heap
    = (Return (c', Scoring.render_scores (fun _ _ => 0%Q) c'), h') /\
    character_images h' c'
    = fmap (M:=option) (mirrored sample_path) <$> character_images sample_heap plain_character.
Proof.
  assert (NoDup (icon_locs plain_character)) as Hnd.
  { apply (bool_decide_unpack _). vm_compute. exact I. }
  assert (Forall (fun l => exists url, sample_heap !! l = Some (Icon url))
            (icon_locs plain_character)) as Hicons.
  { vm_compute. repeat constructor; eexists; reflexivity. }
  destruct (render_outcome_follows_downloads sample_download sample_path
              (fun _ _ => 0%Q) 7 plain_character sample_heap Hnd Hicons)
    as [Hok _].
  destruct Hok as (c' & h' & Hrun & _ & Himg & _).
  { vm_compute. repeat constructor; eexists; split; reflexivity. }
  exists c', h'. split; assumption.
Defined.

End RenderOutcome.
